(** * Robohub: the robot inventory service of [main.py]

    A shallow embedding of the SQLModel classes, of the storage layer the
    handlers talk to (tables keyed by their primary key, the constraints the
    classes declare, a unit-of-work session) and of the request handlers, with
    the properties of the handlers proved over it. *)

From stdpp Require Import gmap strings list fin_maps.
From Stdlib Require Import ZArith.

Open Scope Z_scope.

(** ** Data model (main.py, lines 15-85) *)

(** [datetime.date], as a day number. *)
Definition date := Z.

(** The three table classes.  A field holds [None] where the Python attribute
    can: a key the storage layer has not assigned yet, a column the request
    body left out.  The classes share field names, so each lives in a module
    of its own. *)
Module robots.
Record t := mk {
  id : option Z;
  name : option string;
  type : option string;
  created_at : date
}.
End robots.

Module parts.
Record t := mk {
  robot_id : Z;
  id : option Z;
  name : option string;
  quantity : option Z;
  last_checked : option date
}.
End parts.

Module maintenance_logs.
Record t := mk {
  id : option Z;
  robot_id : Z;
  parts_id : option Z;
  description : option string;
  log_date : date;
  done_by : option string
}.
End maintenance_logs.

(** The transfer shapes.  Pydantic remembers which fields the request body
    set: [None] is a field the body left out, [Some v] a field it gave, also
    when [v] is JSON null. *)
Module create_update_robots.
Record t := mk {
  name : option (option string);
  type : option (option string)
}.
End create_update_robots.

Module create_update_parts.
Record t := mk {
  name : option (option string);
  quantity : option (option Z);
  last_checked : option (option date)
}.
End create_update_parts.

Module create_maintenance_log.
Record t := mk {
  parts_id : option (option Z);
  description : string;
  done_by : string
}.
End create_maintenance_log.

(** An instance of one of the table classes. *)
Inductive entity :=
  | ERobots (r : robots.t)
  | EParts (p : parts.t)
  | ELogs (l : maintenance_logs.t).

(** One entry of [body.model_dump(exclude_unset=True)]: the attribute and the
    value [setattr] gives it, for each of the two update shapes. *)
Inductive robots_assignment :=
  | RobotsName (v : option string)
  | RobotsType (v : option string).

Inductive parts_assignment :=
  | PartsName (v : option string)
  | PartsQuantity (v : option Z)
  | PartsLastChecked (v : option date).

Definition assign_robots (r : robots.t) (a : robots_assignment) : robots.t :=
  match a with
  | RobotsName v => robots.mk (robots.id r) v (robots.type r) (robots.created_at r)
  | RobotsType v => robots.mk (robots.id r) (robots.name r) v (robots.created_at r)
  end.

Definition assign_parts (p : parts.t) (a : parts_assignment) : parts.t :=
  match a with
  | PartsName v =>
      parts.mk (parts.robot_id p) (parts.id p) v (parts.quantity p) (parts.last_checked p)
  | PartsQuantity v =>
      parts.mk (parts.robot_id p) (parts.id p) (parts.name p) v (parts.last_checked p)
  | PartsLastChecked v =>
      parts.mk (parts.robot_id p) (parts.id p) (parts.name p) (parts.quantity p) v
  end.

(** ** The storage layer *)

(** The store behind [engine] is not code of the repository: it is modelled
    from what the table classes declare (lines 15-41).  A table is a finite
    map from its primary key to its row, the key columns of a row being the
    key it is stored under.  [robots] and [maintenance_logs] have a single
    integer key, which the store draws from a sequence when the instance
    carries none.  [parts] declares a composite key and no default for [id],
    so whether the deployed table has one is part of the store: [None] is a
    table without.  A column is nullable where its declaration leaves it so:
    the [sa_column] ones and [parts_id]. *)
Record database := mkdb {
  robots_tbl : gmap Z robots.t;
  parts_tbl : gmap (Z * Z) parts.t;
  maintenance_logs_tbl : gmap Z maintenance_logs.t;
  robots_id_seq : Z;
  parts_id_seq : option Z;
  maintenance_logs_id_seq : Z
}.

(** Rows as a SELECT loads them: the key columns come from the key. *)
Definition load_robots (k : Z) (r : robots.t) : robots.t :=
  robots.mk (Some k) (robots.name r) (robots.type r) (robots.created_at r).

Definition load_parts (k : Z * Z) (p : parts.t) : parts.t :=
  parts.mk k.1 (Some k.2) (parts.name p) (parts.quantity p) (parts.last_checked p).

Definition load_logs (k : Z) (l : maintenance_logs.t) : maintenance_logs.t :=
  maintenance_logs.mk (Some k) (maintenance_logs.robot_id l)
    (maintenance_logs.parts_id l) (maintenance_logs.description l)
    (maintenance_logs.log_date l) (maintenance_logs.done_by l).

Definition select_robots (db : database) : list robots.t :=
  map (λ kr, load_robots kr.1 kr.2) (map_to_list (robots_tbl db)).

Definition select_parts (db : database) : list parts.t :=
  map (λ kp, load_parts kp.1 kp.2) (map_to_list (parts_tbl db)).

Definition select_logs (db : database) : list maintenance_logs.t :=
  map (λ kl, load_logs kl.1 kl.2) (map_to_list (maintenance_logs_tbl db)).

Definition get_robots (db : database) (k : Z) : option robots.t :=
  load_robots k <$> robots_tbl db !! k.

Definition get_parts (db : database) (k : Z * Z) : option parts.t :=
  load_parts k <$> parts_tbl db !! k.

Definition get_logs (db : database) (k : Z) : option maintenance_logs.t :=
  load_logs k <$> maintenance_logs_tbl db !! k.

(** The statements a flush sends, and what the storage layer and the session
    raise. *)
Inductive stmt :=
  | InsertRobots (r : robots.t)
  | UpdateRobots (id : Z) (sets : list robots_assignment)
  | DeleteRobots (id : Z)
  | InsertParts (p : parts.t)
  | UpdateParts (robot_id id : Z) (sets : list parts_assignment)
  | DeleteParts (robot_id id : Z)
  | InsertLogs (l : maintenance_logs.t)
  | DeleteLogs (id : Z).

Inductive constraint := PrimaryKey | Unique | ForeignKey | NotNull.

Inductive exn :=
  | HTTPException (status_code : Z) (detail : option string)
  | IntegrityError (violated : constraint)
  | DataError
  | StaleDataError
  | InvalidRequestError
  | PendingRollbackError
  | AttributeError
  | UnboundLocalError.

(** Column types: [VARCHAR(n)] and the 32-bit [INTEGER] of an [int] field. *)
Definition varchar (n : nat) (v : option string) : bool :=
  match v with
  | None => true
  | Some s => bool_decide (String.length s ≤ n)%nat
  end.

Definition int4 (v : option Z) : bool :=
  match v with
  | None => true
  | Some z => bool_decide (-2147483648 ≤ z ≤ 2147483647)
  end.

(** [robots.name] is unique: is [v] the name of a row other than [k]?  SQL's
    NULL clashes with nothing. *)
Definition name_taken (db : database) (k : Z) (v : option string) : bool :=
  match v with
  | None => false
  | Some _ =>
      existsb (λ kr, bool_decide (kr.1 ≠ k) && bool_decide (robots.name kr.2 = v))
        (map_to_list (robots_tbl db))
  end.

(** Rows that reference a robot, or a part, through a foreign key. *)
Definition robot_referenced (db : database) (k : Z) : bool :=
  existsb (λ p, bool_decide (parts.robot_id p = k)) (select_parts db)
  || existsb (λ l, bool_decide (maintenance_logs.robot_id l = k)) (select_logs db).

Definition part_referenced (db : database) (k : Z * Z) : bool :=
  existsb (λ l, bool_decide (maintenance_logs.robot_id l = k.1)
                && bool_decide (maintenance_logs.parts_id l = Some k.2))
    (select_logs db).

Definition with_robots_tbl (t : gmap Z robots.t) (db : database) : database :=
  mkdb t (parts_tbl db) (maintenance_logs_tbl db)
    (robots_id_seq db) (parts_id_seq db) (maintenance_logs_id_seq db).

Definition with_parts_tbl (t : gmap (Z * Z) parts.t) (db : database) : database :=
  mkdb (robots_tbl db) t (maintenance_logs_tbl db)
    (robots_id_seq db) (parts_id_seq db) (maintenance_logs_id_seq db).

Definition with_logs_tbl (t : gmap Z maintenance_logs.t) (db : database) : database :=
  mkdb (robots_tbl db) (parts_tbl db) t
    (robots_id_seq db) (parts_id_seq db) (maintenance_logs_id_seq db).

(** Sequences are not transactional: a value drawn stays drawn. *)
Definition with_sequences_of (seqs db : database) : database :=
  mkdb (robots_tbl db) (parts_tbl db) (maintenance_logs_tbl db)
    (robots_id_seq seqs) (parts_id_seq seqs) (maintenance_logs_id_seq seqs).

Definition nextval_robots (db : database) : Z * database :=
  (robots_id_seq db,
   mkdb (robots_tbl db) (parts_tbl db) (maintenance_logs_tbl db)
     (robots_id_seq db + 1) (parts_id_seq db) (maintenance_logs_id_seq db)).

Definition nextval_parts (db : database) : option Z * database :=
  (parts_id_seq db,
   mkdb (robots_tbl db) (parts_tbl db) (maintenance_logs_tbl db)
     (robots_id_seq db) ((λ n, n + 1) <$> parts_id_seq db) (maintenance_logs_id_seq db)).

Definition nextval_logs (db : database) : Z * database :=
  (maintenance_logs_id_seq db,
   mkdb (robots_tbl db) (parts_tbl db) (maintenance_logs_tbl db)
     (robots_id_seq db) (parts_id_seq db) (maintenance_logs_id_seq db + 1)).

(** INSERT.  A key the instance does not carry is drawn from the table's
    default, a column with a default that the instance holds [None] for gets
    the default ([quantity] 1, [last_checked] today), then the types, the
    primary key, the unique name and the foreign keys are checked.  The result
    is the store (the sequences move even when the statement fails) and the
    row as inserted or the error. *)
Definition insert_robots (r : robots.t) (db : database) : database * (exn + robots.t) :=
  let '(k, db) := match robots.id r with
                  | Some k => (k, db)
                  | None => nextval_robots db
                  end in
  let row := load_robots k r in
  if negb (int4 (Some k) && varchar 50 (robots.name r) && varchar 50 (robots.type r))
  then (db, inl DataError)
  else if bool_decide (is_Some (robots_tbl db !! k))
  then (db, inl (IntegrityError PrimaryKey))
  else if name_taken db k (robots.name r)
  then (db, inl (IntegrityError Unique))
  else (with_robots_tbl (<[k := row]> (robots_tbl db)) db, inr row).

Definition insert_parts (today : date) (p : parts.t) (db : database)
  : database * (exn + parts.t) :=
  let '(id, db) := match parts.id p with
                   | Some k => (Some k, db)
                   | None => nextval_parts db
                   end in
  let quantity := match parts.quantity p with Some q => q | None => 1 end in
  let last_checked := match parts.last_checked p with Some d => d | None => today end in
  if negb (int4 (Some (parts.robot_id p)) && int4 id && varchar 50 (parts.name p)
           && int4 (Some quantity))
  then (db, inl DataError)
  else match id with
  | None => (db, inl (IntegrityError NotNull))
  | Some id =>
      let k := (parts.robot_id p, id) in
      let row := parts.mk k.1 (Some k.2) (parts.name p) (Some quantity) (Some last_checked) in
      if bool_decide (is_Some (parts_tbl db !! k))
      then (db, inl (IntegrityError PrimaryKey))
      else if bool_decide (robots_tbl db !! parts.robot_id p = None)
      then (db, inl (IntegrityError ForeignKey))
      else (with_parts_tbl (<[k := row]> (parts_tbl db)) db, inr row)
  end.

Definition insert_logs (l : maintenance_logs.t) (db : database)
  : database * (exn + maintenance_logs.t) :=
  let '(k, db) := match maintenance_logs.id l with
                  | Some k => (k, db)
                  | None => nextval_logs db
                  end in
  let row := load_logs k l in
  let part_missing :=
    match maintenance_logs.parts_id l with
    | None => false
    | Some pid => bool_decide (parts_tbl db !! (maintenance_logs.robot_id l, pid) = None)
    end in
  if negb (int4 (Some k) && int4 (Some (maintenance_logs.robot_id l))
           && int4 (maintenance_logs.parts_id l)
           && varchar 200 (maintenance_logs.description l)
           && varchar 50 (maintenance_logs.done_by l))
  then (db, inl DataError)
  else if bool_decide (is_Some (maintenance_logs_tbl db !! k))
  then (db, inl (IntegrityError PrimaryKey))
  else if bool_decide (robots_tbl db !! maintenance_logs.robot_id l = None) || part_missing
  then (db, inl (IntegrityError ForeignKey))
  else (with_logs_tbl (<[k := row]> (maintenance_logs_tbl db)) db, inr row).

(** UPDATE ... SET the changed columns WHERE the primary key is [k]. *)
Definition sets_name (sets : list robots_assignment) : bool :=
  existsb (λ a, match a with RobotsName _ => true | RobotsType _ => false end) sets.

Definition update_robots (k : Z) (sets : list robots_assignment) (db : database)
  : exn + database :=
  match robots_tbl db !! k with
  | None => inl StaleDataError
  | Some r =>
      let row := foldl assign_robots (load_robots k r) sets in
      if negb (varchar 50 (robots.name row) && varchar 50 (robots.type row))
      then inl DataError
      else if sets_name sets && name_taken db k (robots.name row)
      then inl (IntegrityError Unique)
      else inr (with_robots_tbl (<[k := row]> (robots_tbl db)) db)
  end.

Definition update_parts (k : Z * Z) (sets : list parts_assignment) (db : database)
  : exn + database :=
  match parts_tbl db !! k with
  | None => inl StaleDataError
  | Some p =>
      let row := foldl assign_parts (load_parts k p) sets in
      if negb (varchar 50 (parts.name row) && int4 (parts.quantity row))
      then inl DataError
      else if bool_decide (parts.quantity row = None)
              || bool_decide (parts.last_checked row = None)
      then inl (IntegrityError NotNull)
      else inr (with_parts_tbl (<[k := row]> (parts_tbl db)) db)
  end.

(** DELETE ... WHERE the primary key is [k]: refused while a foreign key
    still references the row. *)
Definition delete_robots (k : Z) (db : database) : exn + database :=
  if bool_decide (is_Some (robots_tbl db !! k)) && robot_referenced db k
  then inl (IntegrityError ForeignKey)
  else inr (with_robots_tbl (delete k (robots_tbl db)) db).

Definition delete_parts (k : Z * Z) (db : database) : exn + database :=
  if bool_decide (is_Some (parts_tbl db !! k)) && part_referenced db k
  then inl (IntegrityError ForeignKey)
  else inr (with_parts_tbl (delete k (parts_tbl db)) db).

Definition delete_logs (k : Z) (db : database) : exn + database :=
  inr (with_logs_tbl (delete k (maintenance_logs_tbl db)) db).

(** ** The session (main.py, lines 98-102) *)

(** The session is SQLAlchemy's, modelled as far as the handlers use it.  A
    Python instance of a table class is kept with its attributes as they are
    now and the row it was loaded from or flushed to ([None] for an instance
    that was constructed and not flushed yet); the handlers hold references,
    positions in the request's heap.  A flush that raises leaves the session
    failed: until [session.rollback()] every call that would reach the store
    raises [PendingRollbackError].  In every handler the [session.get]
    calls come before any change and ask for different rows, so [get] reads
    the row without looking for an instance it already holds; and every read
    of an instance after a commit or a rollback follows a [refresh], so the
    expiry of instances is not modelled. *)
Record instance := mkinstance {
  current : entity;
  loaded : option entity
}.

(** The state of one request: the instances, the store as committed and as
    the open transaction sees it, the session's unit of work ([new], [dirty]
    and [deleted], each in call order), the statements sent so far, the
    value of [date.today()], and whether a flush has failed since the last
    rollback. *)
Record state := mkstate {
  heap : list instance;
  stored : database;
  txn : database;
  new : list nat;
  dirty : list nat;
  deleted : list nat;
  emitted : list stmt;
  today : date;
  failed : bool
}.

Inductive outcome (A : Type) :=
  | Returned (a : A)
  | Raised (e : exn).
Arguments Returned {A} a.
Arguments Raised {A} e.

(** The handlers' monad: state, and exceptions that keep the state. *)
Definition M (A : Type) : Type := state → outcome A * state.

#[global] Instance M_ret : MRet M := λ A a st, (Returned a, st).

#[global] Instance M_bind : MBind M := λ A B f c st,
  match c st with
  | (Returned a, st) => f a st
  | (Raised e, st) => (Raised e, st)
  end.

Definition raise {A} (e : exn) : M A := λ st, (Raised e, st).

Definition try_except {A} (c : M A) (handler : exn → M A) : M A := λ st,
  match c st with
  | (Returned a, st) => (Returned a, st)
  | (Raised e, st) => handler e st
  end.

Definition get_state : M state := λ st, (Returned st, st).

Fixpoint for_each {A} (l : list A) (body : A → M unit) : M unit :=
  match l with
  | [] => mret ()
  | x :: l => body x ;; for_each l body
  end.

Fixpoint map_each {A B} (l : list A) (body : A → M B) : M (list B) :=
  match l with
  | [] => mret []
  | x :: l => y ← body x; ys ← map_each l body; mret (y :: ys)
  end.

Definition modify (f : state → state) : M unit := λ st, (Returned (), f st).

Definition set_heap (h : list instance) (st : state) : state :=
  mkstate h (stored st) (txn st) (new st) (dirty st) (deleted st) (emitted st) (today st)
    (failed st).

Definition set_stored (db : database) (st : state) : state :=
  mkstate (heap st) db (txn st) (new st) (dirty st) (deleted st) (emitted st) (today st)
    (failed st).

Definition set_txn (db : database) (st : state) : state :=
  mkstate (heap st) (stored st) db (new st) (dirty st) (deleted st) (emitted st) (today st)
    (failed st).

Definition set_unit_of_work (n d x : list nat) (st : state) : state :=
  mkstate (heap st) (stored st) (txn st) n d x (emitted st) (today st) (failed st).

Definition set_failed (b : bool) (st : state) : state :=
  mkstate (heap st) (stored st) (txn st) (new st) (dirty st) (deleted st) (emitted st)
    (today st) b.

Definition emit (s : stmt) : M unit :=
  modify (λ st, mkstate (heap st) (stored st) (txn st) (new st) (dirty st) (deleted st)
                  (emitted st ++ [s]) (today st) (failed st)).

(** Instances: constructing one, meeting one that a query loaded, reading
    and replacing one through its reference. *)
Definition allocate (c : instance) : M nat :=
  st ← get_state;
  modify (set_heap (heap st ++ [c]));;
  mret (length (heap st)).

Definition construct (e : entity) : M nat := allocate (mkinstance e None).

Definition track (e : entity) : M nat := allocate (mkinstance e (Some e)).

Definition cell (r : nat) : M instance :=
  st ← get_state;
  match heap st !! r with
  | Some c => mret c
  | None => raise AttributeError
  end.

Definition set_cell (r : nat) (c : instance) : M unit :=
  modify (λ st, set_heap (<[r := c]> (heap st)) st).

Definition read (r : nat) : M entity := c ← cell r; mret (current c).

Definition read_robots (r : nat) : M robots.t :=
  e ← read r;
  match e with ERobots x => mret x | _ => raise AttributeError end.

Definition read_parts (r : nat) : M parts.t :=
  e ← read r;
  match e with EParts x => mret x | _ => raise AttributeError end.

Definition read_logs (r : nat) : M maintenance_logs.t :=
  e ← read r;
  match e with ELogs x => mret x | _ => raise AttributeError end.

(** [setattr(data, field, value)] on an instance the session tracks: the
    attribute changes and the instance is dirty. *)
Definition mark_dirty (r : nat) : M unit :=
  modify (λ st, if existsb (Nat.eqb r) (dirty st) then st
                else set_unit_of_work (new st) (dirty st ++ [r]) (deleted st) st).

Definition setattr_robots (r : nat) (a : robots_assignment) : M unit :=
  c ← cell r;
  match current c with
  | ERobots x => set_cell r (mkinstance (ERobots (assign_robots x a)) (loaded c));; mark_dirty r
  | _ => raise AttributeError
  end.

Definition setattr_parts (r : nat) (a : parts_assignment) : M unit :=
  c ← cell r;
  match current c with
  | EParts x => set_cell r (mkinstance (EParts (assign_parts x a)) (loaded c));; mark_dirty r
  | _ => raise AttributeError
  end.

Definition session_add (r : nat) : M unit :=
  modify (λ st, set_unit_of_work (new st ++ [r]) (dirty st) (deleted st) st).

Definition session_delete (r : nat) : M unit :=
  modify (λ st, set_unit_of_work (new st) (dirty st) (deleted st ++ [r]) st).

(** The columns of a dirty instance that differ from the row it was loaded
    from: what its UPDATE sets. *)
Definition changes_robots (old cur : robots.t) : list robots_assignment :=
  (if bool_decide (robots.name old = robots.name cur) then []
   else [RobotsName (robots.name cur)])
  ++ (if bool_decide (robots.type old = robots.type cur) then []
      else [RobotsType (robots.type cur)]).

Definition changes_parts (old cur : parts.t) : list parts_assignment :=
  (if bool_decide (parts.name old = parts.name cur) then []
   else [PartsName (parts.name cur)])
  ++ (if bool_decide (parts.quantity old = parts.quantity cur) then []
      else [PartsQuantity (parts.quantity cur)])
  ++ (if bool_decide (parts.last_checked old = parts.last_checked cur) then []
      else [PartsLastChecked (parts.last_checked cur)]).

(** Running one statement of a flush in the transaction. *)
Definition run_insert {A} (res : database * (exn + A)) : M A :=
  modify (set_txn res.1);;
  match res.2 with
  | inl e => raise e
  | inr row => mret row
  end.

Definition run_write (res : exn + database) : M unit :=
  match res with
  | inl e => raise e
  | inr db => modify (set_txn db)
  end.

Definition flush_insert (r : nat) : M unit :=
  e ← read r;
  st ← get_state;
  match e with
  | ERobots x =>
      emit (InsertRobots x);;
      row ← run_insert (insert_robots x (txn st));
      set_cell r (mkinstance (ERobots row) (Some (ERobots row)))
  | EParts x =>
      emit (InsertParts x);;
      row ← run_insert (insert_parts (today st) x (txn st));
      set_cell r (mkinstance (EParts row) (Some (EParts row)))
  | ELogs x =>
      emit (InsertLogs x);;
      row ← run_insert (insert_logs x (txn st));
      set_cell r (mkinstance (ELogs row) (Some (ELogs row)))
  end.

Definition flush_update (r : nat) : M unit :=
  c ← cell r;
  st ← get_state;
  match loaded c, current c with
  | Some (ERobots old), ERobots cur =>
      match changes_robots old cur, robots.id old with
      | [], _ => mret ()
      | _ :: _, None => raise InvalidRequestError
      | (_ :: _) as sets, Some k =>
          emit (UpdateRobots k sets);;
          run_write (update_robots k sets (txn st));;
          set_cell r (mkinstance (current c) (Some (current c)))
      end
  | Some (EParts old), EParts cur =>
      match changes_parts old cur, parts.id old with
      | [], _ => mret ()
      | _ :: _, None => raise InvalidRequestError
      | (_ :: _) as sets, Some k =>
          emit (UpdateParts (parts.robot_id old) k sets);;
          run_write (update_parts (parts.robot_id old, k) sets (txn st));;
          set_cell r (mkinstance (current c) (Some (current c)))
      end
  | _, _ => mret ()
  end.

Definition flush_delete (r : nat) : M unit :=
  e ← read r;
  st ← get_state;
  match e with
  | ERobots x =>
      match robots.id x with
      | None => raise InvalidRequestError
      | Some k => emit (DeleteRobots k);; run_write (delete_robots k (txn st))
      end
  | EParts x =>
      match parts.id x with
      | None => raise InvalidRequestError
      | Some k =>
          emit (DeleteParts (parts.robot_id x) k);;
          run_write (delete_parts (parts.robot_id x, k) (txn st))
      end
  | ELogs x =>
      match maintenance_logs.id x with
      | None => raise InvalidRequestError
      | Some k => emit (DeleteLogs k);; run_write (delete_logs k (txn st))
      end
  end.

(** [session.flush()]: the pending instances are inserted, the dirty ones
    updated, the deleted ones deleted, each group in the order of the calls
    that filled it. *)
Definition flush_unit_of_work : M unit :=
  st ← get_state;
  for_each (new st) flush_insert;;
  for_each (dirty st) flush_update;;
  for_each (deleted st) flush_delete;;
  modify (set_unit_of_work [] [] []).

(** A call that reaches the store is refused in a failed session. *)
Definition require_active : M unit :=
  st ← get_state;
  if failed st then raise PendingRollbackError else mret ().

(** A flush in a failed session is refused; a flush that raises fails the
    session and raises on. *)
Definition session_flush : M unit :=
  require_active;;
  try_except flush_unit_of_work (λ e, modify (set_failed true);; raise e).

Definition session_commit : M unit :=
  session_flush;;
  modify (λ st, set_stored (txn st) st).

(** [session.rollback()]: the transaction is given up, the unit of work
    dropped, and the session can be used again. *)
Definition session_rollback : M unit :=
  modify (λ st, set_failed false
                  (set_unit_of_work [] [] []
                     (set_txn (with_sequences_of (txn st) (stored st)) st))).

(** [session.get(cls, key)]: the row under the key, as a tracked instance. *)
Definition session_get_robots (k : Z) : M (option nat) :=
  require_active;;
  st ← get_state;
  match get_robots (txn st) k with
  | None => mret None
  | Some row => r ← track (ERobots row); mret (Some r)
  end.

Definition session_get_parts (k : Z * Z) : M (option nat) :=
  require_active;;
  st ← get_state;
  match get_parts (txn st) k with
  | None => mret None
  | Some row => r ← track (EParts row); mret (Some r)
  end.

Definition session_get_logs (k : Z) : M (option nat) :=
  require_active;;
  st ← get_state;
  match get_logs (txn st) k with
  | None => mret None
  | Some row => r ← track (ELogs row); mret (Some r)
  end.

(** [session.exec(select(...)).all()]: the session flushes first, then the
    query reads the transaction.  A select of a class yields instances, a
    select of columns yields tuples. *)
Definition session_exec {A} (query : database → list A) : M (list A) :=
  session_flush;;
  st ← get_state;
  mret (query (txn st)).

Definition session_exec_instances (query : database → list entity) : M (list nat) :=
  rows ← session_exec query;
  map_each rows track.

(** [session.refresh(obj)]: the instance is loaded again by its key. *)
Definition lookup_entity (e : entity) (db : database) : option entity :=
  match e with
  | ERobots x => k ← robots.id x; ERobots <$> get_robots db k
  | EParts x => k ← parts.id x; EParts <$> get_parts db (parts.robot_id x, k)
  | ELogs x => k ← maintenance_logs.id x; ELogs <$> get_logs db k
  end.

Definition session_refresh (r : nat) : M unit :=
  require_active;;
  e ← read r;
  st ← get_state;
  match lookup_entity e (txn st) with
  | None => raise InvalidRequestError
  | Some row => set_cell r (mkinstance row (Some row))
  end.

Definition date_today : M date := st ← get_state; mret (today st).

(** ** The request handlers (main.py, lines 110-277) *)

(** What a handler returns: rows, the dictionaries and lists built around
    them, a [Response], or, where the source returns one, an exception
    object. *)
#[warnings="-register-all"]
Inductive pyval :=
  | VNone
  | VInt (z : Z)
  | VStr (s : string)
  | VDate (d : date)
  | VObj (e : entity)
  | VList (items : list pyval)
  | VDict (items : list (string * pyval))
  | VException (e : exn)
  | VResponse (status_code : Z).

Definition opt {A} (f : A → pyval) (o : option A) : pyval :=
  match o with
  | Some a => f a
  | None => VNone
  end.

(** [body.model_dump(exclude_unset=True)], in field order. *)
Definition robots_updates (body : create_update_robots.t) : list robots_assignment :=
  match create_update_robots.name body with Some v => [RobotsName v] | None => [] end
  ++ match create_update_robots.type body with Some v => [RobotsType v] | None => [] end.

Definition parts_updates (body : create_update_parts.t) : list parts_assignment :=
  match create_update_parts.name body with Some v => [PartsName v] | None => [] end
  ++ match create_update_parts.quantity body with Some v => [PartsQuantity v] | None => [] end
  ++ match create_update_parts.last_checked body with
     | Some v => [PartsLastChecked v]
     | None => []
     end.

(** The class called on the whole [body.model_dump()]: every field of the
    body is passed, a field the body left out as [None]; [created_at] and
    [log_date] come from their default factory, [id] stays unset. *)
Definition new_robots (today : date) (body : create_update_robots.t) : robots.t :=
  robots.mk None (default None (create_update_robots.name body))
    (default None (create_update_robots.type body)) today.

Definition new_parts (robot_id : Z) (body : create_update_parts.t) : parts.t :=
  parts.mk robot_id None (default None (create_update_parts.name body))
    (default None (create_update_parts.quantity body))
    (default None (create_update_parts.last_checked body)).

Definition new_maintenance_logs (today : date) (robot_id : Z)
    (body : create_maintenance_log.t) : maintenance_logs.t :=
  maintenance_logs.mk None robot_id (default None (create_maintenance_log.parts_id body))
    (Some (create_maintenance_log.description body)) today
    (Some (create_maintenance_log.done_by body)).

Definition get_all_robots : M pyval :=
  data ← session_exec_instances (λ db, ERobots <$> select_robots db);
  rows ← map_each data read;
  mret (VList (VObj <$> rows)).

Definition get_specific_robot (id : Z) : M pyval :=
  data ← session_get_robots id;
  match data with
  | None => mret (VException (HTTPException 404 None))
  | Some data => row ← read data; mret (VObj row)
  end.

Definition add_robot (body : create_update_robots.t) : M pyval :=
  today ← date_today;
  new_robot ← construct (ERobots (new_robots today body));
  session_add new_robot;;
  session_commit;;
  session_refresh new_robot;;
  row ← read new_robot;
  mret (VDict [("new_robot", VObj row)]).

Definition update_robot (id : Z) (body : create_update_robots.t) : M pyval :=
  data ← session_get_robots id;
  match data with
  | None => raise (HTTPException 404 None)
  | Some data =>
      let updates := robots_updates body in
      match updates with
      | [] => raise (HTTPException 400 (Some "No fields provided for update"))
      | _ :: _ =>
          for_each updates (setattr_robots data);;
          try_except session_commit (λ _, session_rollback);;
          session_refresh data;;
          row ← read data;
          mret (VDict [("updated version", VObj row)])
      end
  end.

Definition delete_robot (id : Z) : M pyval :=
  data ← session_get_robots id;
  match data with
  | None => mret (VException (HTTPException 404 None))
  | Some data =>
      maintenance_logs_data ← session_exec_instances (λ db,
        ELogs <$> filter (λ l, maintenance_logs.robot_id l = id) (select_logs db));
      for_each maintenance_logs_data session_delete;;
      parts_data ← session_exec_instances (λ db,
        EParts <$> filter (λ p, parts.robot_id p = id) (select_parts db));
      for_each parts_data session_delete;;
      session_delete data;;
      session_commit;;
      mret (VResponse 204)
  end.

Definition part_fields (row : option Z * option string * option Z * option date)
  : list (string * pyval) :=
  [("id", opt VInt row.1.1.1); ("name", opt VStr row.1.1.2);
   ("quantity", opt VInt row.1.2); ("last_checked", opt VDate row.2)].

Definition get_robot_parts (robot_id : Z) : M pyval :=
  robot_data ← session_get_robots robot_id;
  match robot_data with
  | None => raise (HTTPException 404 (Some "robot doesn't exist"))
  | Some _ =>
      results ← session_exec (λ db,
        (λ p, (parts.id p, parts.name p, parts.quantity p, parts.last_checked p))
        <$> filter (λ p, parts.robot_id p = robot_id) (select_parts db));
      let data := (λ row, VDict (part_fields row)) <$> results in
      mret (VDict [("robot's id", VInt robot_id); ("robot's parts", VList data)])
  end.

Definition get_part_of_robot (robot_id id : Z) : M pyval :=
  robot_data ← session_get_robots robot_id;
  match robot_data with
  | None => raise (HTTPException 404 (Some "robot doesn't exist"))
  | Some _ =>
      data ← session_get_parts (robot_id, id);
      match data with
      | None => raise (HTTPException 404 (Some "part doesn't exist"))
      | Some data =>
          p ← read_parts data;
          let part_data :=
            VDict (part_fields
                     (parts.id p, parts.name p, parts.quantity p, parts.last_checked p)) in
          mret (VDict [("robot's id", VInt robot_id); ("part", part_data)])
      end
  end.

Definition add_part_in_a_robot (robot_id : Z) (body : create_update_parts.t) : M pyval :=
  data ← session_get_robots robot_id;
  match data with
  | None => raise (HTTPException 404 (Some "robot doesn't exist"))
  | Some _ =>
      new_part ← construct (EParts (new_parts robot_id body));
      session_add new_part;;
      session_flush;;
      p ← read_parts new_part;
      let data := VDict [("name", opt VStr (parts.name p));
                         ("quantity", opt VInt (parts.quantity p));
                         ("last_checked", opt VDate (parts.last_checked p))] in
      session_commit;;
      mret (VDict [("message", VStr "part successfully added"); ("part", data)])
  end.

Definition update_part (robot_id id : Z) (body : create_update_parts.t) : M pyval :=
  data ← session_get_parts (robot_id, id);
  match data with
  | None => raise (HTTPException 404 (Some "part or robot doesn't exist"))
  | Some data =>
      let update := parts_updates body in
      match update with
      | [] => raise (HTTPException 404 (Some "no field provided"))
      | _ :: _ =>
          for_each update (setattr_parts data);;
          try_except session_commit (λ _, session_rollback);;
          session_refresh data;;
          row ← read data;
          mret (VDict [("updated version of part", VObj row)])
      end
  end.

Definition delete_part (robot_id id : Z) : M pyval :=
  robot_data ← session_get_robots robot_id;
  match robot_data with
  | None => raise (HTTPException 404 (Some "robot doesn't exist"))
  | Some _ =>
      part_data ← session_get_parts (robot_id, id);
      match part_data with
      | None => raise (HTTPException 404 (Some "part doesn't exist"))
      | Some part_data =>
          session_delete part_data;;
          session_commit;;
          mret (VResponse 204)
      end
  end.

Definition get_maintenance_logs : M pyval :=
  data ← session_exec_instances (λ db, ELogs <$> select_logs db);
  rows ← map_each data read;
  mret (VDict [("all maintenance logs", VList (VObj <$> rows))]).

Definition get_maintenance_log (id : Z) : M pyval :=
  data ← session_get_logs id;
  match data with
  | None => mret (VDict [("robot's maintenance logs", VNone)])
  | Some data => row ← read data; mret (VDict [("robot's maintenance logs", VObj row)])
  end.

Definition log_columns (l : maintenance_logs.t)
  : option Z * option Z * option string * date * option string :=
  (maintenance_logs.parts_id l, maintenance_logs.id l, maintenance_logs.description l,
   maintenance_logs.log_date l, maintenance_logs.done_by l).

Definition log_fields (row : option Z * option Z * option string * date * option string)
  : pyval :=
  VDict [("parts_id", opt VInt row.1.1.1.1); ("id", opt VInt row.1.1.1.2);
         ("description", opt VStr row.1.1.2); ("log_date", VDate row.1.2);
         ("done_by", opt VStr row.2)].

(** The two [if]s of the source run one after the other; [results] is bound
    by the one whose test holds. *)
Definition get_maintenance_logs_of_a_robot (robot_id : Z) (parts : bool) : M pyval :=
  results ← (if parts
             then rows ← session_exec (λ db,
                    log_columns <$> filter (λ l, maintenance_logs.robot_id l = robot_id)
                                      (select_logs db));
                  mret (Some rows)
             else mret None);
  results ← (if negb parts
             then rows ← session_exec (λ db,
                    log_columns <$> filter (λ l, maintenance_logs.robot_id l = robot_id
                                                 ∧ maintenance_logs.parts_id l = None)
                                      (select_logs db));
                  mret (Some rows)
             else mret results);
  match results with
  | None => raise UnboundLocalError
  | Some results =>
      let data := log_fields <$> results in
      mret (VDict [("robot's maintenance logs", VList data)])
  end.

Definition add_maintenance_log (robot_id : Z) (body : create_maintenance_log.t) : M pyval :=
  today ← date_today;
  new_maintenance_log ← construct (ELogs (new_maintenance_logs today robot_id body));
  session_add new_maintenance_log;;
  session_commit;;
  session_refresh new_maintenance_log;;
  row ← read new_maintenance_log;
  mret (VDict [("logs", VObj row)]).

(** One request: a session of its own over the store, the handler, and the
    session closed, which drops what was not committed.  The reply is what
    the handler returned or raised, the store afterwards and the statements
    the session sent. *)
Record reply := mkreply {
  response : outcome pyval;
  store : database;
  statements : list stmt
}.

Definition start (today : date) (db : database) : state :=
  mkstate [] db db [] [] [] [] today false.

Definition run_request (handler : M pyval) (today : date) (db : database) : reply :=
  let '(out, st) := handler (start today db) in
  mkreply out (with_sequences_of (txn st) (stored st)) (emitted st).

(** The status line FastAPI answers with: a returned [Response] carries its
    own, anything else returned is a 200, a raised [HTTPException] carries its
    own, any other exception is a 500. *)
Definition status_code (out : outcome pyval) : Z :=
  match out with
  | Returned (VResponse c) => c
  | Returned _ => 200
  | Raised (HTTPException c _) => c
  | Raised _ => 500
  end.


(** The routes of the application, as the decorators of lines 110-271
    declare them: a request is a route with its path, query and body
    parameters, served by the handler of the route. *)
Inductive request :=
  | GET_robots
  | GET_robots_id (id : Z)
  | POST_robots (body : create_update_robots.t)
  | PATCH_robots_id (id : Z) (body : create_update_robots.t)
  | DELETE_robots_id (id : Z)
  | GET_robots_parts (robot_id : Z)
  | GET_robots_parts_id (robot_id id : Z)
  | POST_robots_parts (robot_id : Z) (body : create_update_parts.t)
  | PATCH_robots_parts_id (robot_id id : Z) (body : create_update_parts.t)
  | DELETE_robots_parts_id (robot_id id : Z)
  | GET_maintenance_logs
  | GET_maintenance_logs_id (id : Z)
  | GET_robots_maintenance_logs (robot_id : Z) (parts : bool)
  | POST_robots_maintenance_logs (robot_id : Z) (body : create_maintenance_log.t).

Definition route (req : request) : M pyval :=
  match req with
  | GET_robots => get_all_robots
  | GET_robots_id id => get_specific_robot id
  | POST_robots body => add_robot body
  | PATCH_robots_id id body => update_robot id body
  | DELETE_robots_id id => delete_robot id
  | GET_robots_parts robot_id => get_robot_parts robot_id
  | GET_robots_parts_id robot_id id => get_part_of_robot robot_id id
  | POST_robots_parts robot_id body => add_part_in_a_robot robot_id body
  | PATCH_robots_parts_id robot_id id body => update_part robot_id id body
  | DELETE_robots_parts_id robot_id id => delete_part robot_id id
  | GET_maintenance_logs => get_maintenance_logs
  | GET_maintenance_logs_id id => get_maintenance_log id
  | GET_robots_maintenance_logs robot_id parts =>
      get_maintenance_logs_of_a_robot robot_id parts
  | POST_robots_maintenance_logs robot_id body => add_maintenance_log robot_id body
  end.

Definition serve (today : date) (req : request) (db : database) : reply :=
  run_request (route req) today db.

(** Requests served one after the other, each on its day: the store they
    leave. *)
Fixpoint serve_all (reqs : list (date * request)) (db : database) : database :=
  match reqs with
  | [] => db
  | (today, req) :: reqs => serve_all reqs (store (serve today req db))
  end.

Definition is_GET (req : request) : bool :=
  match req with
  | GET_robots | GET_robots_id _ | GET_robots_parts _ | GET_robots_parts_id _ _
  | GET_maintenance_logs | GET_maintenance_logs_id _ | GET_robots_maintenance_logs _ _ => true
  | _ => false
  end.

Definition is_DELETE (req : request) : bool :=
  match req with
  | DELETE_robots_id _ | DELETE_robots_parts_id _ _ => true
  | _ => false
  end.

(** ** Vocabulary of the properties *)

(** The answer of [get_maintenance_logs_of_a_robot] for a list of logs, and
    the answer of an update handler for the row it read back. *)
Definition logs_reply (logs : list maintenance_logs.t) : pyval :=
  VDict [("robot's maintenance logs", VList ((log_fields ∘ log_columns) <$> logs))].

Definition updated_reply (key : string) (e : entity) : outcome pyval :=
  Returned (VDict [(key, VObj e)]).

(** What the listing of a robot's logs is to hold for one log: its five
    listed columns under their names, a null column as [None]. *)
Definition log_entry (l : maintenance_logs.t) : pyval :=
  VDict [("parts_id", match maintenance_logs.parts_id l with
                      | Some z => VInt z
                      | None => VNone
                      end);
         ("id", match maintenance_logs.id l with Some z => VInt z | None => VNone end);
         ("description", match maintenance_logs.description l with
                         | Some t => VStr t
                         | None => VNone
                         end);
         ("log_date", VDate (maintenance_logs.log_date l));
         ("done_by", match maintenance_logs.done_by l with
                     | Some t => VStr t
                     | None => VNone
                     end)].

(** Referential integrity of the logs, as the foreign key on [robot_id]
    keeps it: every log is the log of a robot of the store. *)
Definition logs_reference_robots (db : database) : Prop :=
  map_Forall (λ _ l, is_Some (robots_tbl db !! maintenance_logs.robot_id l))
    (maintenance_logs_tbl db).

(** The fields no update shape carries. *)
Definition robots_frame (r : robots.t) : option Z * date :=
  (robots.id r, robots.created_at r).

Definition parts_frame (p : parts.t) : Z * option Z :=
  (parts.robot_id p, parts.id p).

(** The errors the store answers an INSERT of a log with. *)
Definition storage_error (e : exn) : Prop :=
  e = DataError ∨ e = IntegrityError PrimaryKey ∨ e = IntegrityError ForeignKey.

(** An instance as a query leaves it in the heap. *)
Definition loaded_cell (e : entity) : instance := mkinstance e (Some e).

(** The DELETE a deleted instance is flushed as, and a run of DELETEs. *)
Definition delete_stmt (e : entity) : option stmt :=
  match e with
  | ERobots x => DeleteRobots <$> robots.id x
  | EParts x => DeleteParts (parts.robot_id x) <$> parts.id x
  | ELogs x => DeleteLogs <$> maintenance_logs.id x
  end.

Definition exec_delete (s : stmt) (db : database) : exn + database :=
  match s with
  | DeleteRobots k => delete_robots k db
  | DeleteParts r k => delete_parts (r, k) db
  | DeleteLogs k => delete_logs k db
  | _ => inr db
  end.

Fixpoint exec_deletes (ss : list stmt) (db : database) : exn + database :=
  match ss with
  | [] => inr db
  | s :: ss =>
      match exec_delete s db with
      | inl e => inl e
      | inr db => exec_deletes ss db
      end
  end.

(** The state of a request after a flush sent [ss] and left the transaction
    at [db]. *)
Definition flushed (db : database) (ss : list stmt) (st : state) : state :=
  mkstate (heap st) (stored st) db (new st) (dirty st) (deleted st)
    (emitted st ++ ss) (today st) (failed st).

(** The keys of the logs and of the parts of a robot, in the order the
    handler's queries list them; the store once they and the robot are
    deleted, and the statements that delete them. *)
Definition robot_log_keys (db : database) (id : Z) : list Z :=
  (filter (λ kl, maintenance_logs.robot_id kl.2 = id)
     (map_to_list (maintenance_logs_tbl db))).*1.

Definition robot_part_keys (db : database) (id : Z) : list (Z * Z) :=
  (filter (λ kp, kp.1.1 = id) (map_to_list (parts_tbl db))).*1.

Definition cascaded (db : database) (id : Z) : database :=
  with_robots_tbl (delete id (robots_tbl db))
    (with_parts_tbl (foldr delete (parts_tbl db) (robot_part_keys db id))
       (with_logs_tbl (foldr delete (maintenance_logs_tbl db) (robot_log_keys db id)) db)).

Definition cascade_statements (db : database) (id : Z) : list stmt :=
  (DeleteLogs <$> robot_log_keys db id)
  ++ ((λ k, DeleteParts k.1 k.2) <$> robot_part_keys db id)
  ++ [DeleteRobots id].

(** Two stores with the same rows: they differ at most by their sequences. *)
Definition same_tables (db db' : database) : Prop :=
  robots_tbl db' = robots_tbl db
  ∧ parts_tbl db' = parts_tbl db
  ∧ maintenance_logs_tbl db' = maintenance_logs_tbl db.

(** The foreign keys the classes declare (lines 22 and 38-41), as properties
    of a store: every part is the part of a robot, every log is the log of a
    robot, and a log with a [parts_id] names a part of its own robot. *)
Definition parts_reference_robots (db : database) : Prop :=
  map_Forall (λ k _, is_Some (robots_tbl db !! k.1)) (parts_tbl db).

Definition logs_reference_parts (db : database) : Prop :=
  map_Forall (λ _ l, ∀ pid, maintenance_logs.parts_id l = Some pid →
                            is_Some (parts_tbl db !! (maintenance_logs.robot_id l, pid)))
    (maintenance_logs_tbl db).

Definition referential_integrity (db : database) : Prop :=
  parts_reference_robots db ∧ logs_reference_robots db ∧ logs_reference_parts db.

(** [robots.name] is unique (line 17): two rows with the same name, not
    null, are the same row. *)
Definition names_unique (db : database) : Prop :=
  ∀ j k r1 r2,
    robots_tbl db !! j = Some r1 → robots_tbl db !! k = Some r2 →
    is_Some (robots.name r1) → robots.name r1 = robots.name r2 → j = k.

(** The fields of a part as the part handlers answer with them. *)
Definition part_reply (p : parts.t) : pyval :=
  VDict (part_fields (parts.id p, parts.name p, parts.quantity p, parts.last_checked p)).

(** ** The stores and bodies of the examples *)

Definition db_empty : database := mkdb ∅ ∅ ∅ 1 (Some 1) 1.

Definition db_one_robot : database :=
  mkdb {[ 1 := robots.mk (Some 1) (Some "R2") (Some "utility") 20000 ]} ∅ ∅ 2 (Some 1) 1.

Definition db_no_part_default : database :=
  mkdb {[ 1 := robots.mk (Some 1) (Some "R2") (Some "utility") 20000 ]} ∅ ∅ 2 None 1.

Definition db_two_robots : database :=
  mkdb {[ 1 := robots.mk (Some 1) (Some "R2") (Some "utility") 20000;
          2 := robots.mk (Some 2) (Some "C3") (Some "protocol") 20000 ]}
       ∅ ∅ 3 (Some 1) 1.

Definition db_robot_part : database :=
  mkdb {[ 1 := robots.mk (Some 1) (Some "R2") (Some "utility") 20000 ]}
       {[ (1, 1) := parts.mk 1 (Some 1) (Some "wheel") (Some 4) (Some 20000) ]}
       ∅ 2 (Some 2) 1.

Definition db_other_part : database :=
  mkdb {[ 1 := robots.mk (Some 1) (Some "R2") (Some "utility") 20000;
          2 := robots.mk (Some 2) (Some "C3") (Some "protocol") 20000 ]}
       {[ (2, 1) := parts.mk 2 (Some 1) (Some "arm") (Some 2) (Some 20000) ]}
       ∅ 3 (Some 2) 1.

Definition db_logs : database :=
  mkdb {[ 1 := robots.mk (Some 1) (Some "R2") (Some "utility") 20000 ]}
       {[ (1, 1) := parts.mk 1 (Some 1) (Some "wheel") (Some 4) (Some 20000) ]}
       {[ 1 := maintenance_logs.mk (Some 1) 1 (Some 1) (Some "greased") 20000 (Some "ana");
          2 := maintenance_logs.mk (Some 2) 1 None (Some "washed") 20000 (Some "ben") ]}
       2 (Some 2) 3.

Definition db_fleet : database :=
  mkdb {[ 1 := robots.mk (Some 1) (Some "R2") (Some "utility") 20000;
          2 := robots.mk (Some 2) (Some "C3") (Some "protocol") 20000 ]}
       {[ (1, 1) := parts.mk 1 (Some 1) (Some "wheel") (Some 4) (Some 20000);
          (1, 2) := parts.mk 1 (Some 2) (Some "lens") (Some 1) (Some 20000);
          (2, 1) := parts.mk 2 (Some 1) (Some "arm") (Some 2) (Some 20000) ]}
       {[ 1 := maintenance_logs.mk (Some 1) 1 (Some 1) (Some "greased") 20000 (Some "ana");
          2 := maintenance_logs.mk (Some 2) 1 None (Some "washed") 20000 (Some "ben");
          3 := maintenance_logs.mk (Some 3) 2 (Some 1) (Some "oiled") 20000 (Some "ana") ]}
       3 (Some 3) 4.

Definition body_r2 : create_update_robots.t :=
  create_update_robots.mk (Some (Some "R2")) (Some (Some "utility")).

Definition row_r2 : robots.t := robots.mk (Some 1) (Some "R2") (Some "utility") 20000.

Definition body_rename_c3 : create_update_robots.t :=
  create_update_robots.mk (Some (Some "C3")) None.

Definition body_retype : create_update_robots.t :=
  create_update_robots.mk None (Some (Some "astromech")).

Definition body_wheel : create_update_parts.t :=
  create_update_parts.mk (Some (Some "wheel")) (Some (Some 4)) None.

Definition body_log_part : create_maintenance_log.t :=
  create_maintenance_log.mk (Some (Some 1)) "oiled the arm" "ana".

(** ** Properties *)

(** The storage operations stay folded when a handler is run symbolically. *)
Arguments get_robots : simpl never.
Arguments get_parts : simpl never.
Arguments get_logs : simpl never.
Arguments select_robots : simpl never.
Arguments select_parts : simpl never.
Arguments select_logs : simpl never.
Arguments insert_robots : simpl never.
Arguments insert_parts : simpl never.
Arguments insert_logs : simpl never.
Arguments update_robots : simpl never.
Arguments update_parts : simpl never.
Arguments delete_robots : simpl never.
Arguments delete_parts : simpl never.
Arguments delete_logs : simpl never.
Arguments with_sequences_of : simpl never.
Arguments lookup_entity : simpl never.

Ltac unfold_monad :=
  unfold mbind, M_bind, mret, M_ret, raise, try_except, get_state, modify in *.

Ltac unfold_session :=
  unfold session_commit, session_flush, session_rollback, session_refresh, session_add,
    session_delete, session_get_robots, session_get_parts, session_get_logs,
    session_exec_instances, session_exec, setattr_robots, setattr_parts, mark_dirty,
    require_active, flush_unit_of_work, flush_insert, flush_update, flush_delete,
    run_insert, run_write, emit, start,
    construct, track, allocate, read_robots, read_parts, read_logs, read, cell, set_cell,
    date_today in *.

(** Runs the straight-line part of a handler. *)
Ltac run := repeat progress (unfold_session; unfold_monad; cbn).

Lemma with_sequences_of_same db : with_sequences_of db db = db.
Proof. by destruct db. Qed.

Lemma get_robots_None db k : robots_tbl db !! k = None → get_robots db k = None.
Proof. unfold get_robots. by intros ->. Qed.

Lemma get_robots_Some db k r :
  robots_tbl db !! k = Some r → get_robots db k = Some (load_robots k r).
Proof. unfold get_robots. by intros ->. Qed.

Lemma get_parts_Some db k p :
  parts_tbl db !! k = Some p → get_parts db k = Some (load_parts k p).
Proof. unfold get_parts. by intros ->. Qed.

(** C5. Creating a part under a robot id that is not in the store raises the
    not-found error, sends no statement and leaves the whole store, the parts
    table with it, as it was. *)
Theorem add_part_absent_robot (db : database) (today : date) (robot_id : Z)
    (body : create_update_parts.t) :
  robots_tbl db !! robot_id = None →
  run_request (add_part_in_a_robot robot_id body) today db
  = mkreply (Raised (HTTPException 404 (Some "robot doesn't exist"))) db [].
Proof.
  intros Habsent%get_robots_None.
  unfold run_request, add_part_in_a_robot, session_get_robots. run.
  rewrite Habsent. cbn. by rewrite with_sequences_of_same.
Qed.

Lemma add_part_absent_robot_witness :
  robots_tbl db_one_robot !! 2 = None
  ∧ run_request (add_part_in_a_robot 2 body_wheel) 20001 db_one_robot
    = mkreply (Raised (HTTPException 404 (Some "robot doesn't exist"))) db_one_robot [].
Proof.
  split; [reflexivity | apply (add_part_absent_robot db_one_robot 20001 2 body_wheel)].
  reflexivity.
Defined.

(** C4 (what the code does). For a robot id that is not in the store,
    [delete_robot] does not raise: it returns the exception object, which
    FastAPI answers with a 200.  The store is left as it was. *)
Theorem delete_robot_absent_returns (db : database) (today : date) (id : Z) :
  robots_tbl db !! id = None →
  run_request (delete_robot id) today db
  = mkreply (Returned (VException (HTTPException 404 None))) db []
  ∧ status_code (response (run_request (delete_robot id) today db)) = 200.
Proof.
  intros Habsent%get_robots_None.
  unfold run_request, delete_robot, session_get_robots. run.
  rewrite Habsent. cbn. by rewrite with_sequences_of_same.
Qed.

Lemma delete_robot_absent_returns_witness :
  robots_tbl db_one_robot !! 2 = None
  ∧ run_request (delete_robot 2) 20001 db_one_robot
    = mkreply (Returned (VException (HTTPException 404 None))) db_one_robot []
  ∧ status_code (response (run_request (delete_robot 2) 20001 db_one_robot)) = 200.
Proof.
  split; [reflexivity | apply (delete_robot_absent_returns db_one_robot 20001 2)].
  reflexivity.
Defined.

(** C3 (what the code does). A partial update whose body sets no field is
    refused by both handlers, but not with the same error: [update_robot]
    raises a 400, [update_part] a 404. *)
Theorem empty_update_errors (db : database) (today : date) (robot_id id : Z) :
  is_Some (robots_tbl db !! robot_id) →
  is_Some (parts_tbl db !! (robot_id, id)) →
  response (run_request (update_robot robot_id (create_update_robots.mk None None)) today db)
  = Raised (HTTPException 400 (Some "No fields provided for update"))
  ∧ response (run_request
                (update_part robot_id id (create_update_parts.mk None None None)) today db)
    = Raised (HTTPException 404 (Some "no field provided"))
  ∧ status_code
      (response (run_request (update_robot robot_id (create_update_robots.mk None None))
                   today db))
    ≠ status_code
        (response (run_request
                     (update_part robot_id id (create_update_parts.mk None None None))
                     today db)).
Proof.
  intros [r Hr%get_robots_Some] [p Hp%get_parts_Some].
  assert (response (run_request (update_robot robot_id (create_update_robots.mk None None))
                      today db)
          = Raised (HTTPException 400 (Some "No fields provided for update"))) as Hrobot.
  { unfold run_request, update_robot, session_get_robots. run. by rewrite Hr. }
  assert (response (run_request
                      (update_part robot_id id (create_update_parts.mk None None None))
                      today db)
          = Raised (HTTPException 404 (Some "no field provided"))) as Hpart.
  { unfold run_request, update_part, session_get_parts. run. by rewrite Hp. }
  rewrite Hrobot, Hpart. by split_and!.
Qed.

Lemma empty_update_errors_witness :
  response (run_request (update_robot 1 (create_update_robots.mk None None)) 20001
              db_robot_part)
  = Raised (HTTPException 400 (Some "No fields provided for update"))
  ∧ response (run_request (update_part 1 1 (create_update_parts.mk None None None)) 20001
                db_robot_part)
    = Raised (HTTPException 404 (Some "no field provided"))
  ∧ status_code
      (response (run_request (update_robot 1 (create_update_robots.mk None None)) 20001
                   db_robot_part))
    ≠ status_code
        (response (run_request (update_part 1 1 (create_update_parts.mk None None None))
                     20001 db_robot_part)).
Proof.
  apply (empty_update_errors db_robot_part 20001 1 1); by eexists.
Defined.

Lemma list_logs_reply (db : database) (today : date) (robot_id : Z) (parts : bool) :
  run_request (get_maintenance_logs_of_a_robot robot_id parts) today db
  = mkreply
      (Returned (logs_reply
         (if parts
          then filter (λ l, maintenance_logs.robot_id l = robot_id) (select_logs db)
          else filter (λ l, maintenance_logs.robot_id l = robot_id
                            ∧ maintenance_logs.parts_id l = None) (select_logs db))))
      db [].
Proof.
  unfold run_request, get_maintenance_logs_of_a_robot, session_exec, session_flush.
  destruct parts; run; rewrite with_sequences_of_same;
    unfold logs_reply; by rewrite list_fmap_compose.
Qed.

Lemma elem_of_select_logs db l :
  l ∈ select_logs db
  ↔ ∃ k row, maintenance_logs_tbl db !! k = Some row ∧ l = load_logs k row.
Proof.
  unfold select_logs. rewrite list_elem_of_fmap. split.
  - intros [[k row] [-> Hin%elem_of_map_to_list]]. by exists k, row.
  - intros (k & row & Hrow & ->). exists (k, row). by rewrite elem_of_map_to_list.
Qed.

Lemma log_fields_entry (l : maintenance_logs.t) :
  log_fields (log_columns l) = log_entry l.
Proof. by destruct l as [[?|] ? [?|] [?|] ? [?|]]. Qed.

(** C2. With the query parameter false, the handler answers with exactly the
    logs of the robot whose [parts_id] is null; with it true, with all the
    logs of the robot.  Each log is answered with its [parts_id], [id],
    [description], [log_date] and [done_by] under these names.  A log is in
    the answer exactly when it is a row of the table that passes the test,
    and the request changes nothing. *)
Theorem list_logs_filter (db : database) (today : date) (robot_id : Z) :
  run_request (get_maintenance_logs_of_a_robot robot_id false) today db
  = mkreply
      (Returned (VDict [("robot's maintenance logs",
         VList (log_entry
                <$> filter (λ l, maintenance_logs.robot_id l = robot_id
                                 ∧ maintenance_logs.parts_id l = None) (select_logs db)))]))
      db []
  ∧ run_request (get_maintenance_logs_of_a_robot robot_id true) today db
    = mkreply
        (Returned (VDict [("robot's maintenance logs",
           VList (log_entry
                  <$> filter (λ l, maintenance_logs.robot_id l = robot_id)
                        (select_logs db)))]))
        db []
  ∧ (∀ l, l ∈ filter (λ l, maintenance_logs.robot_id l = robot_id
                           ∧ maintenance_logs.parts_id l = None) (select_logs db)
          ↔ (∃ k row, maintenance_logs_tbl db !! k = Some row ∧ l = load_logs k row)
            ∧ maintenance_logs.robot_id l = robot_id
            ∧ maintenance_logs.parts_id l = None)
  ∧ (∀ l, l ∈ filter (λ l, maintenance_logs.robot_id l = robot_id) (select_logs db)
          ↔ (∃ k row, maintenance_logs_tbl db !! k = Some row ∧ l = load_logs k row)
            ∧ maintenance_logs.robot_id l = robot_id).
Proof.
  assert (∀ logs, logs_reply logs
                  = VDict [("robot's maintenance logs", VList (log_entry <$> logs))])
    as Hreply.
  { intros logs. unfold logs_reply.
    assert ((log_fields ∘ log_columns) <$> logs = log_entry <$> logs) as ->; [| done].
    apply list_fmap_ext. intros i l _. apply log_fields_entry. }
  split_and!.
  - by rewrite (list_logs_reply db today robot_id false), Hreply.
  - by rewrite (list_logs_reply db today robot_id true), Hreply.
  - intros l. rewrite list_elem_of_filter, elem_of_select_logs. tauto.
  - intros l. rewrite list_elem_of_filter, elem_of_select_logs. tauto.
Qed.

Lemma list_logs_filter_witness :
  response (run_request (get_maintenance_logs_of_a_robot 1 false) 20001 db_logs)
  = Returned (VDict [("robot's maintenance logs",
      VList [VDict [("parts_id", VNone); ("id", VInt 2); ("description", VStr "washed");
                    ("log_date", VDate 20000); ("done_by", VStr "ben")]])])
  ∧ response (run_request (get_maintenance_logs_of_a_robot 1 true) 20001 db_logs)
    = Returned (VDict [("robot's maintenance logs",
        VList [VDict [("parts_id", VNone); ("id", VInt 2); ("description", VStr "washed");
                      ("log_date", VDate 20000); ("done_by", VStr "ben")];
               VDict [("parts_id", VInt 1); ("id", VInt 1); ("description", VStr "greased");
                      ("log_date", VDate 20000); ("done_by", VStr "ana")]])]).
Proof.
  destruct (list_logs_filter db_logs 20001 1) as (Hfalse & Htrue & _).
  rewrite Hfalse, Htrue. split; by vm_compute.
Defined.

Lemma no_logs_of_absent_robot db robot_id (P : maintenance_logs.t → Prop)
    `{!∀ l, Decision (P l)} :
  logs_reference_robots db →
  robots_tbl db !! robot_id = None →
  (∀ l, P l → maintenance_logs.robot_id l = robot_id) →
  filter P (select_logs db) = [].
Proof.
  intros Hfk Habsent HP. apply elem_of_nil_inv. intros l.
  rewrite list_elem_of_filter, elem_of_select_logs.
  intros [Hl (k & row & Hrow & ->)].
  specialize (Hfk k row Hrow). apply HP in Hl. cbn in *.
  rewrite Hl, Habsent in Hfk. by destruct Hfk.
Qed.

(** C8. Listing the logs of a robot never raises, whatever the robot id and
    the query parameter: the handler does not look the robot up, and answers
    with a 200 and a list.  For a robot id that is not in the store the list
    is empty, the foreign key allowing no log for it. *)
Theorem list_logs_never_not_found (db : database) (today : date) (robot_id : Z)
    (parts : bool) :
  (∃ logs, response (run_request (get_maintenance_logs_of_a_robot robot_id parts) today db)
           = Returned (logs_reply logs))
  ∧ status_code
      (response (run_request (get_maintenance_logs_of_a_robot robot_id parts) today db))
    = 200
  ∧ (logs_reference_robots db →
     robots_tbl db !! robot_id = None →
     response (run_request (get_maintenance_logs_of_a_robot robot_id parts) today db)
     = Returned (logs_reply [])).
Proof.
  rewrite list_logs_reply. cbn. split_and!; [by eexists | done |].
  intros Hfk Habsent. do 2 f_equal.
  destruct parts; apply (no_logs_of_absent_robot db robot_id); try done; by intros ? [??].
Qed.

Lemma list_logs_never_not_found_witness :
  logs_reference_robots db_logs
  ∧ robots_tbl db_logs !! 7 = None
  ∧ response (run_request (get_maintenance_logs_of_a_robot 7 true) 20001 db_logs)
    = Returned (logs_reply []).
Proof.
  assert (Hfk : logs_reference_robots db_logs).
  { unfold logs_reference_robots. apply (bool_decide_unpack _). by vm_compute. }
  split_and!; [exact Hfk | reflexivity |].
  by apply (list_logs_never_not_found db_logs 20001 7 true).
Defined.

Lemma insert_robots_inserted r db db' row :
  insert_robots r db = (db', inr row) →
  ∃ k, row = load_robots k r ∧ robots_tbl db' !! k = Some row.
Proof.
  unfold insert_robots.
  destruct (match robots.id r with Some k => (k, db) | None => nextval_robots db end)
    as [k db1].
  repeat case_match; intros; simplify_eq. exists k. split; [done |].
  cbn. by rewrite lookup_insert_eq.
Qed.

Lemma load_robots_idemp k r : load_robots k (load_robots k r) = load_robots k r.
Proof. done. Qed.

Lemma insert_robots_refresh r db db' row :
  insert_robots r db = (db', inr row) →
  lookup_entity (ERobots row) db' = Some (ERobots row).
Proof.
  intros (k & -> & Hk)%insert_robots_inserted.
  unfold lookup_entity, get_robots. cbn. by rewrite Hk.
Qed.

(** What a create-robot request comes to: one INSERT, and either its error
    or the inserted row, committed. *)
Lemma add_robot_run (db : database) (today : date) (body : create_update_robots.t) :
  run_request (add_robot body) today db
  = match insert_robots (new_robots today body) db with
    | (db', inl e) =>
        mkreply (Raised e) (with_sequences_of db' db) [InsertRobots (new_robots today body)]
    | (db', inr row) =>
        mkreply (Returned (VDict [("new_robot", VObj (ERobots row))])) db'
          [InsertRobots (new_robots today body)]
    end.
Proof.
  unfold run_request, add_robot, session_commit, session_flush, session_refresh,
    construct, allocate, session_add, date_today, flush_insert, read, cell, run_insert, emit.
  run.
  destruct (insert_robots (new_robots today body) db) as [db1 [e | row]] eqn:Hins; run.
  { done. }
  rewrite (insert_robots_refresh _ _ _ _ Hins). run.
  by rewrite with_sequences_of_same.
Qed.

Lemma get_specific_robot_run (db : database) (today : date) (id : Z) :
  run_request (get_specific_robot id) today db
  = mkreply
      (Returned (match get_robots db id with
                 | Some row => VObj (ERobots row)
                 | None => VException (HTTPException 404 None)
                 end))
      db [].
Proof.
  unfold run_request, get_specific_robot, session_get_robots, track, allocate, read, cell.
  run. destruct (get_robots db id); run; by rewrite with_sequences_of_same.
Qed.

(** C6. When a create-robot request succeeds, its answer carries a row with
    the key the store assigned, the name and type of the body and the day of
    the request, and fetching the robot under that key right afterwards gives
    the same row, field for field. *)
Theorem add_robot_round_trip (db : database) (today : date)
    (body : create_update_robots.t) (v : pyval) :
  response (run_request (add_robot body) today db) = Returned v →
  ∃ row k,
    v = VDict [("new_robot", VObj (ERobots row))]
    ∧ row = robots.mk (Some k) (default None (create_update_robots.name body))
              (default None (create_update_robots.type body)) today
    ∧ ∀ later,
        response (run_request (get_specific_robot k) later
                    (store (run_request (add_robot body) today db)))
        = Returned (VObj (ERobots row)).
Proof.
  rewrite add_robot_run.
  destruct (insert_robots (new_robots today body) db) as [db1 [e | row]] eqn:Hins;
    cbn; [done |].
  intros [= <-]. destruct (insert_robots_inserted _ _ _ _ Hins) as (k & -> & Hk).
  eexists _, k. split_and!; [done | done |].
  intros later. rewrite get_specific_robot_run. cbn.
  by rewrite (get_robots_Some _ _ _ Hk).
Qed.

Lemma add_robot_round_trip_witness :
  response (run_request (add_robot body_r2) 20000 db_empty)
  = Returned (VDict [("new_robot", VObj (ERobots row_r2))])
  ∧ ∃ row k,
      VDict [("new_robot", VObj (ERobots row_r2))] = VDict [("new_robot", VObj (ERobots row))]
      ∧ row = robots.mk (Some k) (Some "R2") (Some "utility") 20000
      ∧ ∀ later,
          response (run_request (get_specific_robot k) later
                      (store (run_request (add_robot body_r2) 20000 db_empty)))
          = Returned (VObj (ERobots row)).
Proof.
  split; [by vm_compute |].
  apply (add_robot_round_trip db_empty 20000 body_r2). by vm_compute.
Defined.

Lemma get_robots_inv db k row :
  get_robots db k = Some row →
  ∃ r, robots_tbl db !! k = Some r ∧ row = load_robots k r.
Proof.
  unfold get_robots. destruct (robots_tbl db !! k) as [r|]; [|done].
  intros [= <-]. by exists r.
Qed.

Lemma get_parts_inv db k row :
  get_parts db k = Some row →
  ∃ p, parts_tbl db !! k = Some p ∧ row = load_parts k p.
Proof.
  unfold get_parts. destruct (parts_tbl db !! k) as [p|]; [|done].
  intros [= <-]. by exists p.
Qed.

Lemma lookup_entity_robots db k n t c :
  lookup_entity (ERobots (robots.mk (Some k) n t c)) db = ERobots <$> get_robots db k.
Proof. done. Qed.

Lemma lookup_entity_parts db rid k n q d :
  lookup_entity (EParts (parts.mk rid (Some k) n q d)) db = EParts <$> get_parts db (rid, k).
Proof. done. Qed.

(** The columns an UPDATE sets, applied to the row the instance was loaded
    from, give the instance: the key and [created_at] are in no update shape. *)
Lemma apply_changes_robots (row cur : robots.t) :
  robots.id cur = robots.id row →
  robots.created_at cur = robots.created_at row →
  foldl assign_robots row (changes_robots row cur) = cur.
Proof.
  destruct row, cur. unfold changes_robots. cbn. intros -> ->.
  repeat case_bool_decide; by simplify_eq/=.
Qed.

Lemma apply_changes_parts (row cur : parts.t) :
  parts.robot_id cur = parts.robot_id row →
  parts.id cur = parts.id row →
  foldl assign_parts row (changes_parts row cur) = cur.
Proof.
  destruct row, cur. unfold changes_parts. cbn. intros -> ->.
  repeat case_bool_decide; by simplify_eq/=.
Qed.

Lemma foldl_assign_robots_frame (row : robots.t) (sets : list robots_assignment) :
  robots.id (foldl assign_robots row sets) = robots.id row
  ∧ robots.created_at (foldl assign_robots row sets) = robots.created_at row.
Proof.
  revert row. induction sets as [|a sets IH]; intros row; [done |].
  cbn. destruct (IH (assign_robots row a)) as [-> ->]. by destruct a.
Qed.

Lemma foldl_assign_parts_frame (row : parts.t) (sets : list parts_assignment) :
  parts.robot_id (foldl assign_parts row sets) = parts.robot_id row
  ∧ parts.id (foldl assign_parts row sets) = parts.id row.
Proof.
  revert row. induction sets as [|a sets IH]; intros row; [done |].
  cbn. destruct (IH (assign_parts row a)) as [-> ->]. by destruct a.
Qed.

Lemma update_robots_updated k sets db db' :
  update_robots k sets db = inr db' →
  ∃ r, robots_tbl db !! k = Some r
       ∧ db' = with_robots_tbl
                 (<[k := foldl assign_robots (load_robots k r) sets]> (robots_tbl db)) db.
Proof.
  unfold update_robots. destruct (robots_tbl db !! k) as [r|]; [|done].
  repeat case_match; intros; simplify_eq. by exists r.
Qed.

Lemma update_parts_updated k sets db db' :
  update_parts k sets db = inr db' →
  ∃ p, parts_tbl db !! k = Some p
       ∧ db' = with_parts_tbl
                 (<[k := foldl assign_parts (load_parts k p) sets]> (parts_tbl db)) db.
Proof.
  unfold update_parts. destruct (parts_tbl db !! k) as [p|]; [|done].
  repeat case_match; intros; simplify_eq. by exists p.
Qed.

(** What a partial update of a robot comes to: nothing when no column
    changes, else one UPDATE; when the store refuses it the request rolls
    back and still answers, with the row as stored. *)
Lemma update_robot_run (db : database) (today : date) (id : Z)
    (body : create_update_robots.t) :
  run_request (update_robot id body) today db
  = match get_robots db id with
    | None => mkreply (Raised (HTTPException 404 None)) db []
    | Some row =>
        match robots_updates body with
        | [] => mkreply (Raised (HTTPException 400 (Some "No fields provided for update")))
                  db []
        | updates =>
            let sets := changes_robots row (foldl assign_robots row updates) in
            match sets with
            | [] => mkreply (updated_reply "updated version" (ERobots row)) db []
            | _ =>
                match update_robots id sets db with
                | inl _ =>
                    mkreply (updated_reply "updated version" (ERobots row)) db
                      [UpdateRobots id sets]
                | inr db' =>
                    mkreply (updated_reply "updated version"
                               (ERobots (foldl assign_robots row updates))) db'
                      [UpdateRobots id sets]
                end
            end
        end
    end.
Proof.
  unfold run_request, update_robot.
  run. destruct (get_robots db id) as [row|] eqn:Hrow; run.
  2: { by rewrite with_sequences_of_same. }
  destruct (get_robots_inv _ _ _ Hrow) as (r & Hr & ->).
  destruct body as [[n|] [t|]]; run.
  4: { by rewrite with_sequences_of_same. }
  all: match goal with
       | |- context [changes_robots ?row ?cur] =>
           pose proof (apply_changes_robots row cur eq_refl eq_refl) as Happly;
           destruct (changes_robots row cur) as [|a sets] eqn:Hsets
       end; run.
  all: try (rewrite lookup_entity_robots, Hrow; run; by rewrite with_sequences_of_same).
  all: destruct (update_robots id (a :: sets) db) as [e|db'] eqn:Hupd; run.
  all: rewrite lookup_entity_robots.
  all: try (rewrite with_sequences_of_same, Hrow; run; by rewrite with_sequences_of_same).
  all: destruct (update_robots_updated _ _ _ _ Hupd) as (r' & Hr' & ->); simplify_eq.
  all: unfold get_robots; cbn; rewrite lookup_insert_eq.
  all: cbn in Happly; rewrite Happly; run.
  all: by rewrite with_sequences_of_same.
Qed.

Lemma update_part_run (db : database) (today : date) (robot_id id : Z)
    (body : create_update_parts.t) :
  run_request (update_part robot_id id body) today db
  = match get_parts db (robot_id, id) with
    | None => mkreply (Raised (HTTPException 404 (Some "part or robot doesn't exist"))) db []
    | Some row =>
        match parts_updates body with
        | [] => mkreply (Raised (HTTPException 404 (Some "no field provided"))) db []
        | updates =>
            let sets := changes_parts row (foldl assign_parts row updates) in
            match sets with
            | [] => mkreply (updated_reply "updated version of part" (EParts row)) db []
            | _ =>
                match update_parts (robot_id, id) sets db with
                | inl _ =>
                    mkreply (updated_reply "updated version of part" (EParts row)) db
                      [UpdateParts robot_id id sets]
                | inr db' =>
                    mkreply (updated_reply "updated version of part"
                               (EParts (foldl assign_parts row updates))) db'
                      [UpdateParts robot_id id sets]
                end
            end
        end
    end.
Proof.
  unfold run_request, update_part.
  run. destruct (get_parts db (robot_id, id)) as [row|] eqn:Hrow; run.
  2: { by rewrite with_sequences_of_same. }
  destruct (get_parts_inv _ _ _ Hrow) as (p & Hp & ->).
  destruct body as [[n|] [q|] [d|]]; run.
  8: { by rewrite with_sequences_of_same. }
  all: match goal with
       | |- context [changes_parts ?row ?cur] =>
           pose proof (apply_changes_parts row cur eq_refl eq_refl) as Happly;
           destruct (changes_parts row cur) as [|a sets] eqn:Hsets
       end; run.
  all: try (rewrite lookup_entity_parts, Hrow; run; by rewrite with_sequences_of_same).
  all: destruct (update_parts (robot_id, id) (a :: sets) db) as [e|db'] eqn:Hupd; run.
  all: rewrite lookup_entity_parts.
  all: try (rewrite with_sequences_of_same, Hrow; run; by rewrite with_sequences_of_same).
  all: destruct (update_parts_updated _ _ _ _ Hupd) as (p' & Hp' & ->); simplify_eq.
  all: unfold get_parts; cbn; rewrite lookup_insert_eq.
  all: cbn in Happly; rewrite Happly; run.
  all: by rewrite with_sequences_of_same.
Qed.

Lemma changes_robots_same (row : robots.t) : changes_robots row row = [].
Proof. unfold changes_robots. by rewrite !bool_decide_eq_true_2. Qed.

Lemma changes_parts_same (row : parts.t) : changes_parts row row = [].
Proof. unfold changes_parts. by rewrite !bool_decide_eq_true_2. Qed.

(** A commit that raises leaves the session failed: nothing can be read
    through it until it is rolled back. *)
Lemma failed_commit_blocks_session (st st' : state) (e : exn) :
  session_commit st = (Raised e, st') →
  failed st' = true
  ∧ ∀ r, session_refresh r st' = (Raised PendingRollbackError, st').
Proof.
  intros Hcommit.
  assert (failed st' = true) as Hfailed.
  { unfold session_commit, session_flush, require_active in Hcommit. unfold_monad.
    destruct (failed st) eqn:Hst; [by simplify_eq |].
    destruct (flush_unit_of_work st) as [[[]|e'] st1]; by simplify_eq. }
  split; [done |]. intros r. unfold session_refresh, require_active. unfold_monad.
  by rewrite Hfailed.
Qed.

(** The session at the end of an update whose UPDATE the store refused. *)
Lemma update_robot_failure_state (db : database) (today : date) (id : Z)
    (body : create_update_robots.t) (r : robots.t) (e : exn) :
  let row := load_robots id r in
  let sets := changes_robots row (foldl assign_robots row (robots_updates body)) in
  robots_tbl db !! id = Some r →
  sets ≠ [] →
  update_robots id sets db = inl e →
  update_robot id body (start today db)
  = (Returned (VDict [("updated version", VObj (ERobots row))]),
     mkstate [mkinstance (ERobots row) (Some (ERobots row))] db db [] [] []
       [UpdateRobots id sets] today false).
Proof.
  intros row sets Hr%get_robots_Some Hsets Hfail. subst row sets.
  unfold update_robot. run. rewrite Hr. run.
  destruct body as [[n|] [t|]]; cbn in Hsets, Hfail; run.
  4: { by rewrite changes_robots_same in Hsets. }
  all: match goal with
       | |- context [changes_robots ?row ?cur] =>
           destruct (changes_robots row cur) as [|a sets] eqn:Hchanges; [done |]
       end; run.
  all: rewrite Hfail; run.
  all: rewrite lookup_entity_robots, with_sequences_of_same, Hr; run.
  all: done.
Qed.

(** C7. For a robot of the store and a body that sets a field, when the
    store refuses the UPDATE the commit sends (a name another robot has, a
    value too long), the handler rolls back and raises nothing: it answers
    with a 200 carrying the row as stored, and the store is as it was.  The
    rollback is what lets it answer: a commit that raises leaves the session
    failed, where the refresh would raise, and the handler ends with the
    session usable again, its transaction at the committed store and its unit
    of work empty. *)
Theorem update_robot_commit_failure (db : database) (today : date) (id : Z)
    (body : create_update_robots.t) (r : robots.t) (e : exn) :
  let row := load_robots id r in
  let sets := changes_robots row (foldl assign_robots row (robots_updates body)) in
  robots_tbl db !! id = Some r →
  robots_updates body ≠ [] →
  sets ≠ [] →
  update_robots id sets db = inl e →
  run_request (update_robot id body) today db
  = mkreply (Returned (VDict [("updated version", VObj (ERobots row))])) db
      [UpdateRobots id sets]
  ∧ status_code (response (run_request (update_robot id body) today db)) = 200
  ∧ (let st := (update_robot id body (start today db)).2 in
     failed st = false ∧ txn st = db ∧ stored st = db
     ∧ new st = [] ∧ dirty st = [] ∧ deleted st = [])
  ∧ (∀ st st' e', session_commit st = (Raised e', st') →
       failed st' = true
       ∧ ∀ data, session_refresh data st' = (Raised PendingRollbackError, st')).
Proof.
  intros row sets Hr Hbody Hsets Hfail.
  pose proof (update_robot_failure_state db today id body r e Hr Hsets Hfail) as Hstate.
  apply get_robots_Some in Hr.
  rewrite update_robot_run, Hr.
  destruct (robots_updates body) as [|u updates] eqn:Hupdates; [done |].
  cbv zeta. fold row. fold sets. fold row sets in Hstate.
  destruct sets as [|a sets'] eqn:Hs; [done |].
  rewrite Hfail, Hstate. split_and!; try done.
  intros st st' e'. apply failed_commit_blocks_session.
Qed.

Lemma update_robot_commit_failure_witness :
  update_robots 1 [RobotsName (Some "C3")] db_two_robots = inl (IntegrityError Unique)
  ∧ run_request (update_robot 1 body_rename_c3) 20001 db_two_robots
    = mkreply
        (Returned (VDict [("updated version",
           VObj (ERobots (robots.mk (Some 1) (Some "R2") (Some "utility") 20000)))]))
        db_two_robots [UpdateRobots 1 [RobotsName (Some "C3")]]
  ∧ status_code (response (run_request (update_robot 1 body_rename_c3) 20001 db_two_robots))
    = 200
  ∧ failed (update_robot 1 body_rename_c3 (start 20001 db_two_robots)).2 = false
  ∧ dirty (update_robot 1 body_rename_c3 (start 20001 db_two_robots)).2 = [].
Proof.
  split; [by vm_compute |].
  destruct (update_robot_commit_failure db_two_robots 20001 1 body_rename_c3
              (robots.mk (Some 1) (Some "R2") (Some "utility") 20000)
              (IntegrityError Unique))
    as (Hreply & Hstatus & Hsession & _).
  - by vm_compute.
  - done.
  - done.
  - by vm_compute.
  - split_and!; [exact Hreply | exact Hstatus | apply Hsession | apply Hsession].
Defined.

Lemma update_robots_frame k sets db db' j :
  update_robots k sets db = inr db' →
  robots_frame <$> get_robots db' j = robots_frame <$> get_robots db j.
Proof.
  intros (r & Hr & ->)%update_robots_updated. unfold get_robots. cbn.
  destruct (decide (j = k)) as [->|Hne].
  - rewrite lookup_insert_eq, Hr. cbn. unfold robots_frame. cbn.
    by destruct (foldl_assign_robots_frame (load_robots k r) sets) as [_ ->].
  - by rewrite lookup_insert_ne.
Qed.

Lemma update_parts_frame k sets db db' j :
  update_parts k sets db = inr db' →
  parts_frame <$> get_parts db' j = parts_frame <$> get_parts db j.
Proof.
  intros (p & Hp & ->)%update_parts_updated. unfold get_parts. cbn.
  destruct (decide (j = k)) as [->|Hne].
  - by rewrite lookup_insert_eq, Hp.
  - by rewrite lookup_insert_ne.
Qed.

(** C9. Whatever a partial update of a robot does, every robot of the store
    keeps its [id] and [created_at], and the row it answers with carries the
    [id] asked for and the stored [created_at]; whatever a partial update of a
    part does, every part keeps its [robot_id] and [id], and the row it
    answers with carries the key asked for.  No key appears or disappears. *)
Theorem update_keeps_keys (db : database) (today : date) :
  (∀ id body,
     (∀ k, robots_frame <$> get_robots (store (run_request (update_robot id body) today db)) k
           = robots_frame <$> get_robots db k)
     ∧ ∀ v, response (run_request (update_robot id body) today db) = Returned v →
            ∃ row stored_row,
              v = VDict [("updated version", VObj (ERobots row))]
              ∧ get_robots db id = Some stored_row
              ∧ robots.id row = Some id
              ∧ robots.created_at row = robots.created_at stored_row)
  ∧ (∀ robot_id id body,
       (∀ k, parts_frame
               <$> get_parts (store (run_request (update_part robot_id id body) today db)) k
             = parts_frame <$> get_parts db k)
       ∧ ∀ v, response (run_request (update_part robot_id id body) today db) = Returned v →
              ∃ row,
                v = VDict [("updated version of part", VObj (EParts row))]
                ∧ is_Some (get_parts db (robot_id, id))
                ∧ parts.robot_id row = robot_id
                ∧ parts.id row = Some id).
Proof.
  split.
  - intros id body. rewrite update_robot_run.
    destruct (get_robots db id) as [row|] eqn:Hrow; [|done].
    destruct (get_robots_inv _ _ _ Hrow) as (r & Hr & ->).
    destruct (robots_updates body) as [|u updates]; [done |]. cbv zeta.
    pose proof (foldl_assign_robots_frame (load_robots id r) (u :: updates)) as [Hid Hat].
    destruct (changes_robots _ _) as [|a sets] eqn:Hsets.
    { split; [done |]. intros v [= <-]. by eexists _, _. }
    destruct (update_robots id (a :: sets) db) as [e|db'] eqn:Hupd.
    { split; [done |]. intros v [= <-]. by eexists _, _. }
    split; [intros k; by eapply update_robots_frame |].
    intros v [= <-]. by eexists _, _.
  - intros robot_id id body. rewrite update_part_run.
    destruct (get_parts db (robot_id, id)) as [row|] eqn:Hrow; [|done].
    destruct (get_parts_inv _ _ _ Hrow) as (p & Hp & ->).
    destruct (parts_updates body) as [|u updates]; [done |]. cbv zeta.
    pose proof (foldl_assign_parts_frame (load_parts (robot_id, id) p) (u :: updates))
      as [Hrid Hid].
    destruct (changes_parts _ _) as [|a sets] eqn:Hsets.
    { split; [done |]. intros v [= <-]. by eexists. }
    destruct (update_parts (robot_id, id) (a :: sets) db) as [e|db'] eqn:Hupd.
    { split; [done |]. intros v [= <-]. by eexists. }
    split; [intros k; by eapply update_parts_frame |].
    intros v [= <-]. by eexists.
Qed.

Lemma update_keeps_keys_witness :
  response (run_request (update_robot 1 body_retype) 20001 db_robot_part)
  = Returned (VDict [("updated version",
      VObj (ERobots (robots.mk (Some 1) (Some "R2") (Some "astromech") 20000)))])
  ∧ ∃ row stored_row,
      VDict [("updated version",
        VObj (ERobots (robots.mk (Some 1) (Some "R2") (Some "astromech") 20000)))]
      = VDict [("updated version", VObj (ERobots row))]
      ∧ get_robots db_robot_part 1 = Some stored_row
      ∧ robots.id row = Some 1
      ∧ robots.created_at row = robots.created_at stored_row.
Proof.
  split; [by vm_compute |].
  destruct (update_keeps_keys db_robot_part 20001) as [Hrobots _].
  destruct (Hrobots 1 body_retype) as [_ Hrow].
  apply Hrow. by vm_compute.
Defined.

Lemma insert_logs_inserted l db db' row :
  insert_logs l db = (db', inr row) →
  ∃ k, row = load_logs k l ∧ maintenance_logs_tbl db' !! k = Some row.
Proof.
  unfold insert_logs.
  destruct (match maintenance_logs.id l with Some k => (k, db) | None => nextval_logs db end)
    as [k db1].
  repeat case_match; intros; simplify_eq. all: exists k; split; [done |].
  all: cbn; by rewrite lookup_insert_eq.
Qed.

Lemma insert_logs_refresh l db db' row :
  insert_logs l db = (db', inr row) →
  lookup_entity (ELogs row) db' = Some (ELogs row).
Proof.
  intros (k & -> & Hk)%insert_logs_inserted.
  unfold lookup_entity, get_logs. cbn. by rewrite Hk.
Qed.

(** The table rows a statement looks at are not changed by drawing from a
    sequence. *)
Lemma insert_logs_foreign_key l db :
  robots_tbl db !! maintenance_logs.robot_id l = None
  ∨ (∃ pid, maintenance_logs.parts_id l = Some pid
            ∧ parts_tbl db !! (maintenance_logs.robot_id l, pid) = None) →
  ∃ e, (insert_logs l db).2 = inl e.
Proof.
  intros Hmissing. unfold insert_logs.
  destruct (match maintenance_logs.id l with Some k => (k, db) | None => nextval_logs db end)
    as [k db1] eqn:Hk.
  assert (robots_tbl db1 = robots_tbl db ∧ parts_tbl db1 = parts_tbl db) as [Hr Hp].
  { destruct (maintenance_logs.id l); unfold nextval_logs in Hk; by simplify_eq. }
  rewrite Hr, Hp.
  repeat case_match; try by eexists.
  all: exfalso;
    match goal with H : _ || _ = false |- _ => apply orb_false_elim in H as [Hrobot Hpart] end;
    apply bool_decide_eq_false in Hrobot;
    destruct Hmissing as [? | (pid & ? & ?)]; [done |]; simplify_eq.
  all: by apply bool_decide_eq_false in Hpart.
Qed.

(** What a create-log request comes to: one INSERT, whatever the robot id,
    and either its error or the inserted row, committed. *)
Lemma add_maintenance_log_run (db : database) (today : date) (robot_id : Z)
    (body : create_maintenance_log.t) :
  let log := new_maintenance_logs today robot_id body in
  run_request (add_maintenance_log robot_id body) today db
  = match insert_logs log db with
    | (db', inl e) => mkreply (Raised e) (with_sequences_of db' db) [InsertLogs log]
    | (db', inr row) =>
        mkreply (Returned (VDict [("logs", VObj (ELogs row))])) db' [InsertLogs log]
    end.
Proof.
  unfold run_request, add_maintenance_log. run.
  destruct (insert_logs (new_maintenance_logs today robot_id body) db)
    as [db1 [e | row]] eqn:Hins; run.
  { done. }
  rewrite (insert_logs_refresh _ _ _ _ Hins). run.
  by rewrite with_sequences_of_same.
Qed.

Lemma insert_logs_errors l db e : (insert_logs l db).2 = inl e → storage_error e.
Proof.
  unfold insert_logs, storage_error.
  destruct (match maintenance_logs.id l with Some k => (k, db) | None => nextval_logs db end)
    as [k db1].
  repeat case_match; cbn; intros; simplify_eq; tauto.
Qed.

(** C10. The create-log handler looks nothing up: whatever the robot id and
    the body, the session sends the one INSERT of the row built from them.
    What the handler raises is what the store answered to that INSERT, a type,
    primary-key or foreign-key error and never an [HTTPException]; a robot
    that is not in the store, or a [parts_id] that is no part of that robot,
    is refused that way. *)
Theorem add_maintenance_log_no_validation (db : database) (today : date) (robot_id : Z)
    (body : create_maintenance_log.t) :
  let log := new_maintenance_logs today robot_id body in
  let reply := run_request (add_maintenance_log robot_id body) today db in
  statements reply = [InsertLogs log]
  ∧ (∀ e, response reply = Raised e → (insert_logs log db).2 = inl e ∧ storage_error e)
  ∧ (∀ c d, response reply ≠ Raised (HTTPException c d))
  ∧ (robots_tbl db !! robot_id = None
     ∨ (∃ pid, create_maintenance_log.parts_id body = Some (Some pid)
               ∧ parts_tbl db !! (robot_id, pid) = None) →
     ∃ e, response reply = Raised e ∧ storage_error e).
Proof.
  intros log reply. subst reply. rewrite add_maintenance_log_run. fold log.
  assert (Herr : ∀ e, (insert_logs log db).2 = inl e → storage_error e)
    by apply insert_logs_errors.
  assert (Hfk : robots_tbl db !! robot_id = None
     ∨ (∃ pid, create_maintenance_log.parts_id body = Some (Some pid)
               ∧ parts_tbl db !! (robot_id, pid) = None) →
     ∃ e, (insert_logs log db).2 = inl e).
  { intros Hmissing. apply insert_logs_foreign_key. cbn.
    destruct Hmissing as [? | (pid & Hpid & ?)]; [by left | right].
    exists pid. by rewrite Hpid. }
  destruct (insert_logs log db) as [db' [e | row]]; cbn in *.
  - split_and!; [done | | |].
    + intros e' [= <-]. auto.
    + intros c d [= ->]. destruct (Herr _ eq_refl) as [? | [? | ?]]; done.
    + intros _. eauto.
  - split_and!; [done | done | done |].
    intros [e He]%Hfk. done.
Qed.

Lemma add_maintenance_log_no_validation_witness :
  parts_tbl db_other_part !! (1, 1) = None
  ∧ response (run_request (add_maintenance_log 1 body_log_part) 20001 db_other_part)
    = Raised (IntegrityError ForeignKey)
  ∧ ∃ e, response (run_request (add_maintenance_log 1 body_log_part) 20001 db_other_part)
         = Raised e ∧ storage_error e.
Proof.
  split_and!; [by vm_compute | by vm_compute |].
  apply (add_maintenance_log_no_validation db_other_part 20001 1 body_log_part).
  right. exists 1. split; by vm_compute.
Defined.

(** *** The cascade of [delete_robot] *)

Lemma run_bind {A B} (c : M A) (f : A → M B) (st : state) :
  (c ≫= f) st
  = match c st with
    | (Returned a, st') => f a st'
    | (Raised e, st') => (Raised e, st')
    end.
Proof. done. Qed.

Lemma map_each_track (es : list entity) (st : state) :
  map_each es track st
  = (Returned (seq (length (heap st)) (length es)),
     set_heap (heap st ++ (loaded_cell <$> es)) st).
Proof.
  revert st. induction es as [|e es IH]; intros st.
  - cbn. unfold mret, M_ret. rewrite app_nil_r. by destruct st.
  - cbn [map_each]. run. rewrite IH. cbn. rewrite length_app. cbn.
    rewrite Nat.add_1_r, <- app_assoc. done.
Qed.

Lemma for_each_session_delete (refs : list nat) (st : state) :
  for_each refs session_delete st
  = (Returned (), set_unit_of_work (new st) (dirty st) (deleted st ++ refs) st).
Proof.
  revert st. induction refs as [|r refs IH]; intros st.
  - cbn. unfold mret, M_ret. rewrite app_nil_r. by destruct st.
  - cbn [for_each]. run. rewrite IH. cbn. by rewrite <- app_assoc.
Qed.

Lemma flush_delete_step (r : nat) (c : instance) (s : stmt) (db' : database) (st : state) :
  heap st !! r = Some c →
  delete_stmt (current c) = Some s →
  exec_delete s (txn st) = inr db' →
  flush_delete r st = (Returned (), flushed db' [s] st).
Proof.
  intros Hr Hs Hexec. unfold flush_delete. run. rewrite Hr. run.
  destruct (current c) as [x|x|x]; cbn in Hs.
  - destruct (robots.id x) as [k|]; simplify_eq/=. run. by rewrite Hexec.
  - destruct (parts.id x) as [k|]; simplify_eq/=. run. by rewrite Hexec.
  - destruct (maintenance_logs.id x) as [k|]; simplify_eq/=. run.
    unfold delete_logs in Hexec. by simplify_eq.
Qed.

Lemma for_each_flush_delete (refs : list nat) (ss : list stmt) (h : list instance) :
  Forall2 (λ r s, ∃ c, h !! r = Some c ∧ delete_stmt (current c) = Some s) refs ss →
  ∀ st db',
    heap st = h →
    exec_deletes ss (txn st) = inr db' →
    for_each refs flush_delete st = (Returned (), flushed db' ss st).
Proof.
  induction 1 as [|r s refs ss (c & Hr & Hs) _ IH]; intros st db' Hheap.
  - intros [= <-]. cbn. unfold mret, M_ret, flushed. rewrite app_nil_r. by destruct st.
  - cbn [exec_deletes for_each].
    destruct (exec_delete s (txn st)) as [e|db1] eqn:Hexec; [done |]. intros Hrest.
    rewrite <- Hheap in Hr.
    rewrite run_bind, (flush_delete_step r c s db1 st Hr Hs Hexec).
    rewrite (IH _ db'); [| done | done].
    unfold flushed. cbn. by rewrite <- app_assoc.
Qed.

Lemma exec_deletes_app (ss1 ss2 : list stmt) (db db1 : database) :
  exec_deletes ss1 db = inr db1 →
  exec_deletes (ss1 ++ ss2) db = exec_deletes ss2 db1.
Proof.
  revert db. induction ss1 as [|s ss1 IH]; intros db; cbn.
  - by intros [= <-].
  - destruct (exec_delete s db); [done | apply IH].
Qed.

Lemma filter_fmap {A B} (f : A → B) (P : B → Prop) `{!∀ x, Decision (P x)} (l : list A) :
  filter P (f <$> l) = f <$> filter (λ x, P (f x)) l.
Proof.
  induction l as [|x l IH]; [done |].
  rewrite fmap_cons, !filter_cons. case_decide; by rewrite ?fmap_cons, IH.
Qed.

Lemma foldr_delete_delete `{Countable K} {V} (m : gmap K V) (k : K) (ks : list K) :
  foldr delete (delete k m) ks = delete k (foldr delete m ks).
Proof.
  induction ks as [|j ks IH]; [done |]. cbn. by rewrite IH, delete_delete.
Qed.

Lemma logs_of_robot db id :
  filter (λ l, maintenance_logs.robot_id l = id) (select_logs db)
  = (λ kl, load_logs kl.1 kl.2)
    <$> filter (λ kl, maintenance_logs.robot_id kl.2 = id)
          (map_to_list (maintenance_logs_tbl db)).
Proof. unfold select_logs. by rewrite filter_fmap. Qed.

Lemma parts_of_robot db id :
  filter (λ p, parts.robot_id p = id) (select_parts db)
  = (λ kp, load_parts kp.1 kp.2)
    <$> filter (λ kp, kp.1.1 = id) (map_to_list (parts_tbl db)).
Proof. unfold select_parts. by rewrite filter_fmap. Qed.

Lemma exec_delete_logs (ks : list Z) (db : database) :
  exec_deletes (DeleteLogs <$> ks) db
  = inr (with_logs_tbl (foldr delete (maintenance_logs_tbl db) ks) db).
Proof.
  revert db. induction ks as [|k ks IH]; intros db; cbn.
  - by destruct db.
  - unfold delete_logs. rewrite IH. cbn. by rewrite foldr_delete_delete.
Qed.

Lemma part_unreferenced db k :
  (∀ j l, maintenance_logs_tbl db !! j = Some l → maintenance_logs.robot_id l ≠ k.1) →
  part_referenced db k = false.
Proof.
  intros Hlogs. unfold part_referenced. apply not_true_is_false.
  intros (l & Hl & Href)%existsb_exists.
  apply list_elem_of_In, elem_of_select_logs in Hl as (j & row & Hrow & ->).
  apply andb_prop in Href as [Hrobot%bool_decide_eq_true _].
  by eapply Hlogs.
Qed.

Lemma exec_delete_parts (ks : list (Z * Z)) (id : Z) (db : database) :
  Forall (λ k, k.1 = id) ks →
  (∀ j l, maintenance_logs_tbl db !! j = Some l → maintenance_logs.robot_id l ≠ id) →
  exec_deletes ((λ k, DeleteParts k.1 k.2) <$> ks) db
  = inr (with_parts_tbl (foldr delete (parts_tbl db) ks) db).
Proof.
  intros Hks Hlogs. revert db Hlogs.
  induction Hks as [|[r k] ks Hr _ IH]; intros db Hlogs; cbn in *.
  - by destruct db.
  - unfold delete_parts. rewrite part_unreferenced, andb_false_r by (by subst).
    rewrite IH by done. cbn. by rewrite foldr_delete_delete.
Qed.

Lemma robot_unreferenced db id :
  (∀ k p, parts_tbl db !! k = Some p → k.1 ≠ id) →
  (∀ j l, maintenance_logs_tbl db !! j = Some l → maintenance_logs.robot_id l ≠ id) →
  robot_referenced db id = false.
Proof.
  intros Hparts Hlogs. unfold robot_referenced. apply orb_false_intro; apply not_true_is_false.
  - intros (p & Hp & Href%bool_decide_eq_true)%existsb_exists.
    unfold select_parts in Hp. apply list_elem_of_In, list_elem_of_fmap in Hp
      as ([k row] & -> & Hin%elem_of_map_to_list).
    by eapply Hparts.
  - intros (l & Hl & Href%bool_decide_eq_true)%existsb_exists.
    apply list_elem_of_In, elem_of_select_logs in Hl as (j & row & Hrow & ->).
    by eapply Hlogs.
Qed.

(** No log of the robot is left once the keys of its logs are deleted, and
    no part once the keys of its parts are. *)
Lemma robot_logs_deleted db id j l :
  foldr delete (maintenance_logs_tbl db) (robot_log_keys db id) !! j = Some l →
  maintenance_logs_tbl db !! j = Some l ∧ maintenance_logs.robot_id l ≠ id.
Proof.
  intros [Hj Hl]%lookup_foldr_delete_Some. split; [done |]. intros Hid.
  apply Hj. unfold robot_log_keys. apply list_elem_of_fmap. exists (j, l).
  split; [done |]. apply list_elem_of_filter. by rewrite elem_of_map_to_list.
Qed.

Lemma robot_parts_deleted db id k p :
  foldr delete (parts_tbl db) (robot_part_keys db id) !! k = Some p →
  parts_tbl db !! k = Some p ∧ k.1 ≠ id.
Proof.
  intros [Hk Hp]%lookup_foldr_delete_Some. split; [done |]. intros Hid.
  apply Hk. unfold robot_part_keys. apply list_elem_of_fmap. exists (k, p).
  split; [done |]. apply list_elem_of_filter. by rewrite elem_of_map_to_list.
Qed.

Ltac tidy :=
  cbv beta iota;
  cbn [set_heap set_unit_of_work set_stored set_txn set_failed flushed start
       heap stored txn new dirty deleted emitted today failed app length].

Lemma session_get_robots_Some (k : Z) (row : robots.t) (st : state) :
  failed st = false →
  get_robots (txn st) k = Some row →
  session_get_robots k st
  = (Returned (Some (length (heap st))),
     set_heap (heap st ++ [loaded_cell (ERobots row)]) st).
Proof.
  intros Hactive Hrow. unfold session_get_robots. run. rewrite Hactive. run.
  rewrite Hrow. by run.
Qed.

Lemma session_flush_deletes (ss : list stmt) (db' : database) (st : state) :
  failed st = false →
  new st = [] →
  dirty st = [] →
  Forall2 (λ r s, ∃ c, heap st !! r = Some c ∧ delete_stmt (current c) = Some s)
    (deleted st) ss →
  exec_deletes ss (txn st) = inr db' →
  session_flush st = (Returned (), set_unit_of_work [] [] [] (flushed db' ss st)).
Proof.
  intros Hactive Hnew Hdirty Hdeleted Hexec. unfold session_flush.
  rewrite run_bind. unfold require_active. rewrite run_bind. unfold get_state at 1.
  cbv beta iota. rewrite Hactive. unfold mret at 1, M_ret at 1. cbv beta iota.
  unfold try_except, flush_unit_of_work.
  rewrite run_bind. unfold get_state at 1. cbv beta iota. rewrite Hnew, Hdirty.
  rewrite run_bind. cbn [for_each]. unfold mret at 1, M_ret at 1. cbv beta iota.
  rewrite run_bind. cbn [for_each]. unfold mret at 1, M_ret at 1. cbv beta iota.
  rewrite run_bind, (for_each_flush_delete _ ss (heap st) Hdeleted st db' eq_refl Hexec).
  done.
Qed.

Lemma session_exec_instances_run (query : database → list entity) (st st1 : state) :
  session_flush st = (Returned (), st1) →
  session_exec_instances query st
  = (Returned (seq (length (heap st1)) (length (query (txn st1)))),
     set_heap (heap st1 ++ (loaded_cell <$> query (txn st1))) st1).
Proof.
  intros Hflush. unfold session_exec_instances, session_exec.
  rewrite !run_bind, Hflush. cbv beta iota. unfold get_state at 1. cbv beta iota.
  unfold mret at 1, M_ret at 1. cbv beta iota. apply map_each_track.
Qed.

Lemma session_commit_run (st st1 : state) :
  session_flush st = (Returned (), st1) →
  session_commit st = (Returned (), set_stored (txn st1) st1).
Proof. intros Hflush. unfold session_commit. by rewrite run_bind, Hflush. Qed.

Lemma loaded_cells_delete_stmts (h0 h1 : list instance) (es : list entity)
    (ss : list stmt) :
  Forall2 (λ e s, delete_stmt e = Some s) es ss →
  Forall2 (λ r s, ∃ c, (h0 ++ (loaded_cell <$> es) ++ h1) !! r = Some c
                       ∧ delete_stmt (current c) = Some s)
    (seq (length h0) (length es)) ss.
Proof.
  intros Hes. revert h0. induction Hes as [|e s es ss Hs _ IH]; intros h0; cbn.
  - constructor.
  - constructor.
    + exists (loaded_cell e). split; [|done].
      by rewrite lookup_app_r, Nat.sub_diag.
    + specialize (IH (h0 ++ [loaded_cell e])).
      rewrite length_app, Nat.add_1_r, <- app_assoc in IH. exact IH.
Qed.

Lemma log_delete_stmts db id :
  Forall2 (λ e s, delete_stmt e = Some s)
    (ELogs <$> filter (λ l, maintenance_logs.robot_id l = id) (select_logs db))
    (DeleteLogs <$> robot_log_keys db id).
Proof.
  rewrite logs_of_robot. unfold robot_log_keys.
  rewrite !Forall2_fmap. apply Forall_Forall2_diag, Forall_true. by intros [k l].
Qed.

Lemma part_delete_stmts db id :
  Forall2 (λ e s, delete_stmt e = Some s)
    (EParts <$> filter (λ p, parts.robot_id p = id) (select_parts db))
    ((λ k, DeleteParts k.1 k.2) <$> robot_part_keys db id).
Proof.
  rewrite parts_of_robot. unfold robot_part_keys.
  rewrite !Forall2_fmap. apply Forall_Forall2_diag, Forall_true. by intros [k p].
Qed.

Lemma delete_robot_run (db : database) (today : date) (id : Z) (r : robots.t) :
  robots_tbl db !! id = Some r →
  run_request (delete_robot id) today db
  = mkreply (Returned (VResponse 204)) (cascaded db id) (cascade_statements db id).
Proof.
  intros Hr. pose proof (get_robots_Some _ _ _ Hr) as Hrow.
  unfold run_request, delete_robot.
  rewrite run_bind. erewrite session_get_robots_Some; [| done | exact Hrow]. tidy.
  rewrite run_bind.
  erewrite session_exec_instances_run; cycle 1.
  { by apply (session_flush_deletes []). }
  tidy.
  rewrite run_bind, for_each_session_delete. tidy.
  rewrite run_bind.
  erewrite session_exec_instances_run; cycle 1.
  { apply (session_flush_deletes (DeleteLogs <$> robot_log_keys db id));
      [done | done | done | |].
    - tidy.
      pose proof (loaded_cells_delete_stmts [loaded_cell (ERobots (load_robots id r))] []
                    _ _ (log_delete_stmts db id)) as Hcells.
      rewrite app_nil_r in Hcells. exact Hcells.
    - tidy. apply exec_delete_logs. }
  tidy. change (select_parts (with_logs_tbl _ db)) with (select_parts db).
  rewrite run_bind, for_each_session_delete. tidy.
  rewrite run_bind. unfold session_delete at 1, modify. tidy.
  rewrite run_bind.
  set (db1 := with_logs_tbl (foldr delete (maintenance_logs_tbl db) (robot_log_keys db id)) db).
  set (db2 := with_parts_tbl (foldr delete (parts_tbl db) (robot_part_keys db id)) db1).
  assert (Hlogs : ∀ j l, maintenance_logs_tbl db1 !! j = Some l →
                         maintenance_logs.robot_id l ≠ id).
  { intros j l Hl. by apply robot_logs_deleted in Hl as [_ ?]. }
  assert (Hparts : ∀ k p, parts_tbl db2 !! k = Some p → k.1 ≠ id).
  { intros k p Hp. by apply robot_parts_deleted in Hp as [_ ?]. }
  erewrite session_commit_run; cycle 1.
  { apply (session_flush_deletes
             (((λ k, DeleteParts k.1 k.2) <$> robot_part_keys db id) ++ [DeleteRobots id])
             (with_robots_tbl (delete id (robots_tbl db)) db2)); [done | done | done | |].
    - tidy. apply Forall2_app.
      + pose proof (loaded_cells_delete_stmts
                      (loaded_cell (ERobots (load_robots id r))
                       :: (loaded_cell <$> (ELogs <$>
                             filter (λ l, maintenance_logs.robot_id l = id) (select_logs db))))
                      [] _ _ (part_delete_stmts db id)) as Hcells.
        rewrite app_nil_r in Hcells. exact Hcells.
      + constructor; [| constructor]. by eexists.
    - tidy. erewrite exec_deletes_app; cycle 1.
      { apply (exec_delete_parts _ id); [| done].
        unfold robot_part_keys. apply Forall_fmap, Forall_forall.
        by intros [k p] [? _]%list_elem_of_filter. }
      cbn. unfold delete_robots. change (with_parts_tbl _ db1) with db2.
      by rewrite (robot_unreferenced db2 id Hparts Hlogs), andb_false_r. }
  tidy. unfold mret, M_ret. tidy.
  by rewrite with_sequences_of_same.
Qed.

Lemma elem_of_robot_log_keys db id k :
  k ∈ robot_log_keys db id
  ↔ ∃ l, maintenance_logs_tbl db !! k = Some l ∧ maintenance_logs.robot_id l = id.
Proof.
  unfold robot_log_keys. rewrite list_elem_of_fmap. split.
  - intros ([j l] & -> & [Hid Hl%elem_of_map_to_list]%list_elem_of_filter). by exists l.
  - intros (l & Hl & Hid). exists (k, l). split; [done |].
    apply list_elem_of_filter. by rewrite elem_of_map_to_list.
Qed.

Lemma elem_of_robot_part_keys db id k :
  k ∈ robot_part_keys db id ↔ is_Some (parts_tbl db !! k) ∧ k.1 = id.
Proof.
  unfold robot_part_keys. rewrite list_elem_of_fmap. split.
  - intros ([j p] & -> & [Hid Hp%elem_of_map_to_list]%list_elem_of_filter). by split.
  - intros [[p Hp] Hid]. exists (k, p). split; [done |].
    apply list_elem_of_filter. by rewrite elem_of_map_to_list.
Qed.

(** C1. For a robot of the store, [delete_robot] answers 204 after sending
    the DELETEs of the logs whose [robot_id] is the robot's, then those of the
    parts whose [robot_id] is the robot's, then that of the robot, in that
    order.  Afterwards the store holds no log and no part of the robot and not
    the robot; the rows of the other robots are as they were. *)
Theorem delete_robot_cascade (db : database) (today : date) (id : Z) :
  is_Some (robots_tbl db !! id) →
  let reply := run_request (delete_robot id) today db in
  response reply = Returned (VResponse 204)
  ∧ statements reply
    = (DeleteLogs <$> robot_log_keys db id)
      ++ ((λ k, DeleteParts k.1 k.2) <$> robot_part_keys db id)
      ++ [DeleteRobots id]
  ∧ (∀ k, k ∈ robot_log_keys db id
          ↔ ∃ l, maintenance_logs_tbl db !! k = Some l ∧ maintenance_logs.robot_id l = id)
  ∧ (∀ k, k ∈ robot_part_keys db id ↔ is_Some (parts_tbl db !! k) ∧ k.1 = id)
  ∧ (∀ l, l ∈ select_logs (store reply) → maintenance_logs.robot_id l ≠ id)
  ∧ (∀ p, p ∈ select_parts (store reply) → parts.robot_id p ≠ id)
  ∧ get_robots (store reply) id = None
  ∧ (∀ k l, maintenance_logs_tbl db !! k = Some l → maintenance_logs.robot_id l ≠ id →
            maintenance_logs_tbl (store reply) !! k = Some l)
  ∧ (∀ k p, parts_tbl db !! k = Some p → k.1 ≠ id → parts_tbl (store reply) !! k = Some p)
  ∧ (∀ k, k ≠ id → robots_tbl (store reply) !! k = robots_tbl db !! k).
Proof.
  intros [r Hr] reply. subst reply. rewrite (delete_robot_run db today id r Hr). cbn.
  split_and!; try done.
  - apply elem_of_robot_log_keys.
  - apply elem_of_robot_part_keys.
  - intros l (k & row & Hrow & ->)%elem_of_select_logs. cbn.
    by apply robot_logs_deleted in Hrow as [_ ?].
  - intros p Hp. unfold select_parts in Hp.
    apply list_elem_of_fmap in Hp as ([k row] & -> & Hin%elem_of_map_to_list). cbn.
    by apply robot_parts_deleted in Hin as [_ ?].
  - unfold get_robots. cbn. by rewrite lookup_delete_eq.
  - intros k l Hl Hid. apply lookup_foldr_delete_Some. split; [| done].
    intros (l' & Hl' & Hid')%elem_of_robot_log_keys. by simplify_eq.
  - intros k p Hp Hid. apply lookup_foldr_delete_Some. split; [| done].
    by intros [_ ?]%elem_of_robot_part_keys.
  - intros k Hk. by apply lookup_delete_ne.
Qed.

Lemma delete_robot_cascade_witness :
  is_Some (robots_tbl db_fleet !! 1)
  ∧ response (run_request (delete_robot 1) 20001 db_fleet) = Returned (VResponse 204)
  ∧ statements (run_request (delete_robot 1) 20001 db_fleet)
    = [DeleteLogs 2; DeleteLogs 1; DeleteParts 1 2; DeleteParts 1 1; DeleteRobots 1]
  ∧ select_logs (store (run_request (delete_robot 1) 20001 db_fleet))
    = [maintenance_logs.mk (Some 3) 2 (Some 1) (Some "oiled") 20000 (Some "ana")]
  ∧ select_parts (store (run_request (delete_robot 1) 20001 db_fleet))
    = [parts.mk 2 (Some 1) (Some "arm") (Some 2) (Some 20000)].
Proof.
  assert (Hrobot : is_Some (robots_tbl db_fleet !! 1)) by (by eexists).
  pose proof (delete_robot_cascade db_fleet 20001 1 Hrobot) as (Hresponse & _).
  split_and!; [exact Hrobot | exact Hresponse | by vm_compute ..].
Defined.

(** *** Referential integrity is an invariant of the store

    Every statement the session can send keeps [logs_reference_robots]: the
    store changes through these statements only, so a store that starts with
    the property keeps it, whatever the requests. *)
Lemma insert_robots_tables r db db' row :
  insert_robots r db = (db', inr row) →
  ∃ k, robots_tbl db' = <[k := row]> (robots_tbl db)
       ∧ maintenance_logs_tbl db' = maintenance_logs_tbl db.
Proof.
  unfold insert_robots.
  destruct (match robots.id r with Some k => (k, db) | None => nextval_robots db end)
    as [k db1] eqn:Hk.
  assert (robots_tbl db1 = robots_tbl db
          ∧ maintenance_logs_tbl db1 = maintenance_logs_tbl db) as [Hrobots Hlogs].
  { destruct (robots.id r); unfold nextval_robots in Hk; by simplify_eq. }
  destruct (negb _); [done |]. destruct (bool_decide _); [done |].
  destruct (name_taken _ _ _); [done |].
  intros [= <- <-]. exists k. cbn. by rewrite Hrobots, Hlogs.
Qed.

Lemma insert_robots_keeps_references r db db' row :
  insert_robots r db = (db', inr row) →
  logs_reference_robots db → logs_reference_robots db'.
Proof.
  intros (k & Hrobots & Hlogs)%insert_robots_tables. unfold logs_reference_robots.
  rewrite Hrobots, Hlogs. intros Hdb j l Hj. cbn.
  destruct (decide (maintenance_logs.robot_id l = k)) as [->|Hne].
  - by rewrite lookup_insert_eq.
  - rewrite lookup_insert_ne by done. by eapply (Hdb j l).
Qed.

Lemma insert_logs_keeps_references l db db' row :
  insert_logs l db = (db', inr row) →
  logs_reference_robots db → logs_reference_robots db'.
Proof.
  unfold insert_logs, logs_reference_robots.
  destruct (match maintenance_logs.id l with Some k => (k, db) | None => nextval_logs db end)
    as [k db1] eqn:Hk.
  assert (robots_tbl db1 = robots_tbl db
          ∧ maintenance_logs_tbl db1 = maintenance_logs_tbl db) as [Hr Hl].
  { destruct (maintenance_logs.id l); unfold nextval_logs in Hk; by simplify_eq. }
  rewrite Hr, Hl.
  destruct (negb _); [done |]. destruct (bool_decide (is_Some _)); [done |].
  destruct (bool_decide (robots_tbl db !! maintenance_logs.robot_id l = None)) eqn:Hrobot;
    [done |].
  apply bool_decide_eq_false in Hrobot.
  destruct (match maintenance_logs.parts_id l with Some _ => _ | None => _ end); [done |].
  intros [= <- <-] Hdb. cbn. rewrite Hr.
  apply map_Forall_insert_2; [| done]. cbn.
  by destruct (robots_tbl db !! maintenance_logs.robot_id l).
Qed.

Lemma update_robots_keeps_references k sets db db' :
  update_robots k sets db = inr db' →
  logs_reference_robots db → logs_reference_robots db'.
Proof.
  intros (r & Hr & ->)%update_robots_updated. unfold logs_reference_robots. cbn.
  intros Hdb j l Hj. cbn. destruct (decide (maintenance_logs.robot_id l = k)) as [->|Hne].
  - by rewrite lookup_insert_eq.
  - rewrite lookup_insert_ne by done. by eapply (Hdb j l).
Qed.

Lemma delete_robots_keeps_references k db db' :
  delete_robots k db = inr db' →
  logs_reference_robots db → logs_reference_robots db'.
Proof.
  unfold delete_robots, logs_reference_robots.
  destruct (bool_decide (is_Some (robots_tbl db !! k))) eqn:Hk; cbn.
  - destruct (robot_referenced db k) eqn:Href; [done |]. intros [= <-] Hdb j l Hj. cbn.
    rewrite lookup_delete_ne; [by eapply (Hdb j l) |]. intros Heq; subst k.
    apply orb_false_elim in Href as [_ Href]. apply not_true_iff_false in Href.
    apply Href, existsb_exists. exists (load_logs j l). split.
    + apply list_elem_of_In, elem_of_select_logs. by exists j, l.
    + by apply bool_decide_eq_true.
  - apply bool_decide_eq_false in Hk. intros [= <-] Hdb j l Hj. cbn.
    rewrite lookup_delete_ne; [by eapply (Hdb j l) |]. intros Heq; subst k.
    apply Hk. by eapply (Hdb j l).
Qed.

Lemma delete_logs_keeps_references k db db' :
  delete_logs k db = inr db' →
  logs_reference_robots db → logs_reference_robots db'.
Proof.
  unfold delete_logs, logs_reference_robots. intros [= <-] Hdb. cbn.
  by apply map_Forall_delete.
Qed.

Lemma parts_statements_keep_references db db' :
  robots_tbl db' = robots_tbl db →
  maintenance_logs_tbl db' = maintenance_logs_tbl db →
  logs_reference_robots db → logs_reference_robots db'.
Proof. unfold logs_reference_robots. by intros -> ->. Qed.

(** *** The scenarios of the specification, run *)

(** Creating R2 in an empty store assigns id 1 and the day of the request;
    fetching it gives the same row; deleting it answers 204; fetching it again
    finds nothing (and answers with the exception object, see C4). *)
Example scenario_create_fetch_delete :
  let created := run_request (add_robot body_r2) 20000 db_empty in
  let deleted := run_request (delete_robot 1) 20000 (store created) in
  response created = Returned (VDict [("new_robot", VObj (ERobots row_r2))])
  ∧ response (run_request (get_specific_robot 1) 20000 (store created))
    = Returned (VObj (ERobots row_r2))
  ∧ response deleted = Returned (VResponse 204)
  ∧ response (run_request (get_specific_robot 1) 20000 (store deleted))
    = Returned (VException (HTTPException 404 None)).
Proof. by vm_compute. Qed.

(** With robot 1 absent, creating a wheel under it is refused and no row is
    created. *)
Example scenario_part_of_absent_robot :
  run_request (add_part_in_a_robot 1 body_wheel) 20000 db_empty
  = mkreply (Raised (HTTPException 404 (Some "robot doesn't exist"))) db_empty [].
Proof. by vm_compute. Qed.

(** Under an existing robot the part is created with the defaulted
    [last_checked], and the answer leaves its id out. *)
Example scenario_part_created :
  response (run_request (add_part_in_a_robot 1 body_wheel) 20001 db_one_robot)
  = Returned (VDict [("message", VStr "part successfully added");
                     ("part", VDict [("name", VStr "wheel"); ("quantity", VInt 4);
                                     ("last_checked", VDate 20001)])])
  ∧ get_parts (store (run_request (add_part_in_a_robot 1 body_wheel) 20001 db_one_robot))
      (1, 1)
    = Some (parts.mk 1 (Some 1) (Some "wheel") (Some 4) (Some 20001)).
Proof. by vm_compute. Qed.

(** The logs of robot 1, without and with those of its parts. *)
Example scenario_list_logs :
  response (run_request (get_maintenance_logs_of_a_robot 1 false) 20001 db_logs)
  = Returned (VDict [("robot's maintenance logs",
      VList [VDict [("parts_id", VNone); ("id", VInt 2); ("description", VStr "washed");
                    ("log_date", VDate 20000); ("done_by", VStr "ben")]])])
  ∧ response (run_request (get_maintenance_logs_of_a_robot 1 true) 20001 db_logs)
    = Returned (VDict [("robot's maintenance logs",
        VList [VDict [("parts_id", VNone); ("id", VInt 2); ("description", VStr "washed");
                      ("log_date", VDate 20000); ("done_by", VStr "ben")];
               VDict [("parts_id", VInt 1); ("id", VInt 1); ("description", VStr "greased");
                      ("log_date", VDate 20000); ("done_by", VStr "ana")]])]).
Proof. by vm_compute. Qed.

(** ** Further properties of the handlers *)

(** *** What the remaining handlers come to *)

Lemma session_flush_clean (st : state) :
  failed st = false → new st = [] → dirty st = [] → deleted st = [] →
  session_flush st = (Returned (), set_unit_of_work [] [] [] st).
Proof.
  intros Hactive Hnew Hdirty Hdeleted.
  rewrite (session_flush_deletes [] (txn st) st Hactive Hnew Hdirty);
    [| by rewrite Hdeleted | done].
  unfold flushed. rewrite app_nil_r. by destruct st.
Qed.

Lemma map_each_read (h0 h1 : list instance) (es : list entity) (st : state) :
  heap st = h0 ++ (loaded_cell <$> es) ++ h1 →
  map_each (seq (length h0) (length es)) read st = (Returned es, st).
Proof.
  revert h0. induction es as [|e es IH]; intros h0 Hheap; [done |].
  cbn [length seq map_each]. rewrite run_bind. unfold read at 1, cell. run.
  rewrite Hheap, lookup_app_r, Nat.sub_diag by done. cbn.
  specialize (IH (h0 ++ [loaded_cell e])).
  rewrite length_app, Nat.add_1_r, <- app_assoc in IH. by rewrite IH.
Qed.

Lemma get_all_robots_run (db : database) (today : date) :
  run_request get_all_robots today db
  = mkreply (Returned (VList (VObj <$> (ERobots <$> select_robots db)))) db [].
Proof.
  unfold run_request, get_all_robots.
  rewrite run_bind. erewrite session_exec_instances_run by by apply session_flush_clean.
  tidy. rewrite run_bind.
  rewrite (map_each_read [] [] (ERobots <$> select_robots db)) by by rewrite app_nil_r.
  tidy. unfold mret, M_ret. tidy. by rewrite with_sequences_of_same.
Qed.

Lemma get_maintenance_logs_run (db : database) (today : date) :
  run_request get_maintenance_logs today db
  = mkreply
      (Returned (VDict [("all maintenance logs",
                         VList (VObj <$> (ELogs <$> select_logs db)))]))
      db [].
Proof.
  unfold run_request, get_maintenance_logs.
  rewrite run_bind. erewrite session_exec_instances_run by by apply session_flush_clean.
  tidy. rewrite run_bind.
  rewrite (map_each_read [] [] (ELogs <$> select_logs db)) by by rewrite app_nil_r.
  tidy. unfold mret, M_ret. tidy. by rewrite with_sequences_of_same.
Qed.

Lemma get_maintenance_log_run (db : database) (today : date) (id : Z) :
  run_request (get_maintenance_log id) today db
  = mkreply
      (Returned (VDict [("robot's maintenance logs",
                         match get_logs db id with
                         | Some row => VObj (ELogs row)
                         | None => VNone
                         end)]))
      db [].
Proof.
  unfold run_request, get_maintenance_log. run.
  destruct (get_logs db id); run; by rewrite with_sequences_of_same.
Qed.

Lemma get_robot_parts_run (db : database) (today : date) (robot_id : Z) :
  run_request (get_robot_parts robot_id) today db
  = match get_robots db robot_id with
    | None => mkreply (Raised (HTTPException 404 (Some "robot doesn't exist"))) db []
    | Some _ =>
        mkreply
          (Returned (VDict [("robot's id", VInt robot_id);
             ("robot's parts",
              VList ((λ p, VDict (part_fields (parts.id p, parts.name p, parts.quantity p,
                                               parts.last_checked p)))
                     <$> filter (λ p, parts.robot_id p = robot_id) (select_parts db)))]))
          db []
    end.
Proof.
  unfold run_request, get_robot_parts. run.
  destruct (get_robots db robot_id); run; rewrite with_sequences_of_same; [| done].
  by rewrite <- list_fmap_compose.
Qed.

Lemma get_part_of_robot_run (db : database) (today : date) (robot_id id : Z) :
  run_request (get_part_of_robot robot_id id) today db
  = match get_robots db robot_id, get_parts db (robot_id, id) with
    | None, _ => mkreply (Raised (HTTPException 404 (Some "robot doesn't exist"))) db []
    | Some _, None => mkreply (Raised (HTTPException 404 (Some "part doesn't exist"))) db []
    | Some _, Some p =>
        mkreply
          (Returned (VDict [("robot's id", VInt robot_id);
             ("part", VDict (part_fields (parts.id p, parts.name p, parts.quantity p,
                                          parts.last_checked p)))]))
          db []
    end.
Proof.
  unfold run_request, get_part_of_robot. run.
  destruct (get_robots db robot_id); run; [| by rewrite with_sequences_of_same].
  destruct (get_parts db (robot_id, id)); run; by rewrite with_sequences_of_same.
Qed.

Lemma add_part_in_a_robot_run (db : database) (today : date) (robot_id : Z)
    (body : create_update_parts.t) :
  let part := new_parts robot_id body in
  run_request (add_part_in_a_robot robot_id body) today db
  = match get_robots db robot_id with
    | None => mkreply (Raised (HTTPException 404 (Some "robot doesn't exist"))) db []
    | Some _ =>
        match insert_parts today part db with
        | (db', inl e) => mkreply (Raised e) (with_sequences_of db' db) [InsertParts part]
        | (db', inr p) =>
            mkreply
              (Returned (VDict [("message", VStr "part successfully added");
                 ("part", VDict [("name", opt VStr (parts.name p));
                                 ("quantity", opt VInt (parts.quantity p));
                                 ("last_checked", opt VDate (parts.last_checked p))])]))
              db' [InsertParts part]
        end
    end.
Proof.
  unfold run_request, add_part_in_a_robot. run.
  destruct (get_robots db robot_id); run; [| by rewrite with_sequences_of_same].
  destruct (insert_parts today (new_parts robot_id body) db) as [db1 [e | p]]; run;
    [done | by rewrite with_sequences_of_same].
Qed.

Lemma delete_part_run (db : database) (today : date) (robot_id id : Z) :
  run_request (delete_part robot_id id) today db
  = match get_robots db robot_id, get_parts db (robot_id, id) with
    | None, _ => mkreply (Raised (HTTPException 404 (Some "robot doesn't exist"))) db []
    | Some _, None => mkreply (Raised (HTTPException 404 (Some "part doesn't exist"))) db []
    | Some _, Some _ =>
        match delete_parts (robot_id, id) db with
        | inl e => mkreply (Raised e) db [DeleteParts robot_id id]
        | inr db' => mkreply (Returned (VResponse 204)) db' [DeleteParts robot_id id]
        end
    end.
Proof.
  unfold run_request, delete_part. run.
  destruct (get_robots db robot_id); run; [| by rewrite with_sequences_of_same].
  destruct (get_parts db (robot_id, id)) as [p|] eqn:Hp; run;
    [| by rewrite with_sequences_of_same].
  destruct (get_parts_inv _ _ _ Hp) as (p0 & _ & ->). run.
  destruct (delete_parts (robot_id, id) db); run; by rewrite with_sequences_of_same.
Qed.

Lemma delete_robot_absent_run (db : database) (today : date) (id : Z) :
  get_robots db id = None →
  run_request (delete_robot id) today db
  = mkreply (Returned (VException (HTTPException 404 None))) db [].
Proof.
  intros Habsent. unfold run_request, delete_robot, session_get_robots. run.
  rewrite Habsent. cbn. by rewrite with_sequences_of_same.
Qed.

(** *** What the statements do to the tables *)

Lemma same_tables_with_sequences_of seqs db : same_tables db (with_sequences_of seqs db).
Proof. done. Qed.

Lemma insert_robots_inv r db db' row :
  insert_robots r db = (db', inr row) →
  ∃ k, row = load_robots k r
       ∧ robots_tbl db !! k = None
       ∧ name_taken db k (robots.name r) = false
       ∧ robots_tbl db' = <[k := row]> (robots_tbl db)
       ∧ parts_tbl db' = parts_tbl db
       ∧ maintenance_logs_tbl db' = maintenance_logs_tbl db.
Proof.
  unfold insert_robots.
  destruct (match robots.id r with Some k => (k, db) | None => nextval_robots db end)
    as [k db1] eqn:Hk.
  assert (same_tables db db1) as (Hr & Hp & Hl).
  { destruct (robots.id r); unfold nextval_robots in Hk; by simplify_eq. }
  destruct (negb _); [done |].
  destruct (bool_decide (is_Some _)) eqn:Hpk; [done |].
  destruct (name_taken db1 k _) eqn:Hname; [done |].
  intros [= <- <-]. exists k. cbn. rewrite Hr, Hp, Hl. split_and!; try done.
  - apply bool_decide_eq_false in Hpk. rewrite Hr in Hpk. by apply eq_None_not_Some.
  - unfold name_taken in *. by rewrite <- Hr.
Qed.

Lemma insert_parts_inv today p db db' row :
  insert_parts today p db = (db', inr row) →
  ∃ k, row = parts.mk (parts.robot_id p) (Some k) (parts.name p)
               (Some (default 1 (parts.quantity p)))
               (Some (default today (parts.last_checked p)))
       ∧ parts_tbl db !! (parts.robot_id p, k) = None
       ∧ is_Some (robots_tbl db !! parts.robot_id p)
       ∧ robots_tbl db' = robots_tbl db
       ∧ parts_tbl db' = <[(parts.robot_id p, k) := row]> (parts_tbl db)
       ∧ maintenance_logs_tbl db' = maintenance_logs_tbl db.
Proof.
  unfold insert_parts.
  destruct (match parts.id p with Some k => (Some k, db) | None => nextval_parts db end)
    as [id db1] eqn:Hk.
  assert (same_tables db db1) as (Hr & Hp & Hl).
  { destruct (parts.id p); unfold nextval_parts in Hk; by simplify_eq. }
  destruct (negb _); [done |]. destruct id as [k|]; [| done].
  destruct (bool_decide (is_Some _)) eqn:Hpk; [done |].
  destruct (bool_decide (_ = None)) eqn:Hfk; [done |].
  intros [= <- <-]. exists k. cbn. rewrite Hr, Hp, Hl.
  apply bool_decide_eq_false in Hpk, Hfk. rewrite Hp in Hpk. rewrite Hr in Hfk.
  split_and!; try done.
  - by apply eq_None_not_Some.
  - by destruct (robots_tbl db !! parts.robot_id p).
Qed.

Lemma insert_logs_inv l db db' row :
  insert_logs l db = (db', inr row) →
  ∃ k, row = load_logs k l
       ∧ maintenance_logs_tbl db !! k = None
       ∧ is_Some (robots_tbl db !! maintenance_logs.robot_id l)
       ∧ (∀ pid, maintenance_logs.parts_id l = Some pid →
                 is_Some (parts_tbl db !! (maintenance_logs.robot_id l, pid)))
       ∧ robots_tbl db' = robots_tbl db
       ∧ parts_tbl db' = parts_tbl db
       ∧ maintenance_logs_tbl db' = <[k := row]> (maintenance_logs_tbl db).
Proof.
  unfold insert_logs.
  destruct (match maintenance_logs.id l with Some k => (k, db) | None => nextval_logs db end)
    as [k db1] eqn:Hk.
  assert (same_tables db db1) as (Hr & Hp & Hl).
  { destruct (maintenance_logs.id l); unfold nextval_logs in Hk; by simplify_eq. }
  rewrite Hr, Hp, Hl.
  destruct (negb _); [done |].
  destruct (bool_decide (is_Some _)) eqn:Hpk; [done |].
  destruct (bool_decide (robots_tbl db !! _ = None)) eqn:Hrobot; [done |].
  apply bool_decide_eq_false in Hpk, Hrobot. cbn [orb].
  destruct (match maintenance_logs.parts_id l with Some _ => _ | None => _ end) eqn:Hpart;
    [done |].
  intros [= <- <-]. exists k. cbn. rewrite Hr, Hp. split_and!; try done.
  - by apply eq_None_not_Some.
  - by destruct (robots_tbl db !! maintenance_logs.robot_id l).
  - intros pid Hpid. rewrite Hpid in Hpart. apply bool_decide_eq_false in Hpart.
    by destruct (parts_tbl db !! (maintenance_logs.robot_id l, pid)).
Qed.

Lemma delete_parts_inv k db db' :
  delete_parts k db = inr db' →
  (is_Some (parts_tbl db !! k) → part_referenced db k = false)
  ∧ robots_tbl db' = robots_tbl db
  ∧ parts_tbl db' = delete k (parts_tbl db)
  ∧ maintenance_logs_tbl db' = maintenance_logs_tbl db.
Proof.
  unfold delete_parts.
  destruct (bool_decide (is_Some (parts_tbl db !! k))) eqn:Hk; cbn.
  - destruct (part_referenced db k); [done |]. by intros [= <-].
  - apply bool_decide_eq_false in Hk. by intros [= <-].
Qed.

Lemma part_referenced_false db k j l pid :
  part_referenced db k = false →
  maintenance_logs_tbl db !! j = Some l →
  maintenance_logs.parts_id l = Some pid →
  (maintenance_logs.robot_id l, pid) ≠ k.
Proof.
  intros Href Hl Hpid <-. apply not_true_iff_false in Href. apply Href.
  unfold part_referenced. apply existsb_exists. exists (load_logs j l). split.
  - apply list_elem_of_In, elem_of_select_logs. by exists j, l.
  - cbn. apply andb_true_intro. split; apply bool_decide_eq_true; done.
Qed.

Lemma name_taken_false db k v j r :
  name_taken db k v = false →
  robots_tbl db !! j = Some r → j ≠ k → is_Some v → robots.name r ≠ v.
Proof.
  intros Htaken Hj Hne [s ->] Hname. apply not_true_iff_false in Htaken. apply Htaken.
  cbn. apply existsb_exists. exists (j, r). split.
  - by apply list_elem_of_In, elem_of_map_to_list.
  - cbn. apply andb_true_intro. split; by apply bool_decide_eq_true.
Qed.

(** *** The foreign keys hold in every store the requests reach *)

Lemma integrity_same_tables db db' :
  same_tables db db' → referential_integrity db → referential_integrity db'.
Proof.
  unfold referential_integrity, parts_reference_robots, logs_reference_robots,
    logs_reference_parts.
  by intros (-> & -> & ->).
Qed.

Lemma integrity_robots_insert db db' k row :
  robots_tbl db' = <[k := row]> (robots_tbl db) →
  parts_tbl db' = parts_tbl db →
  maintenance_logs_tbl db' = maintenance_logs_tbl db →
  referential_integrity db → referential_integrity db'.
Proof.
  unfold referential_integrity, parts_reference_robots, logs_reference_robots,
    logs_reference_parts.
  intros -> -> -> (Hparts & Hlogs & Hlp). split_and!; [| | done].
  - eapply map_Forall_impl; [exact Hparts |]. cbn. intros j _ Hj.
    apply lookup_insert_is_Some'. by right.
  - eapply map_Forall_impl; [exact Hlogs |]. cbn. intros j l Hj.
    apply lookup_insert_is_Some'. by right.
Qed.

Lemma integrity_parts_insert db db' k row :
  is_Some (robots_tbl db !! k.1) →
  robots_tbl db' = robots_tbl db →
  parts_tbl db' = <[k := row]> (parts_tbl db) →
  maintenance_logs_tbl db' = maintenance_logs_tbl db →
  referential_integrity db → referential_integrity db'.
Proof.
  unfold referential_integrity, parts_reference_robots, logs_reference_robots,
    logs_reference_parts.
  intros Hrobot -> -> -> (Hparts & Hlogs & Hlp). split_and!; [| done |].
  - by apply map_Forall_insert_2.
  - eapply map_Forall_impl; [exact Hlp |]. cbn. intros j l Hl pid Hpid.
    apply lookup_insert_is_Some'. right. by apply Hl.
Qed.

Lemma integrity_logs_insert db db' k l :
  is_Some (robots_tbl db !! maintenance_logs.robot_id l) →
  (∀ pid, maintenance_logs.parts_id l = Some pid →
          is_Some (parts_tbl db !! (maintenance_logs.robot_id l, pid))) →
  robots_tbl db' = robots_tbl db →
  parts_tbl db' = parts_tbl db →
  maintenance_logs_tbl db' = <[k := load_logs k l]> (maintenance_logs_tbl db) →
  referential_integrity db → referential_integrity db'.
Proof.
  unfold referential_integrity, parts_reference_robots, logs_reference_robots,
    logs_reference_parts.
  intros Hrobot Hpart -> -> -> (Hparts & Hlogs & Hlp). split_and!; [done | |].
  - by apply map_Forall_insert_2.
  - by apply map_Forall_insert_2.
Qed.

Lemma integrity_parts_delete db db' k :
  (is_Some (parts_tbl db !! k) → part_referenced db k = false) →
  robots_tbl db' = robots_tbl db →
  parts_tbl db' = delete k (parts_tbl db) →
  maintenance_logs_tbl db' = maintenance_logs_tbl db →
  referential_integrity db → referential_integrity db'.
Proof.
  unfold referential_integrity, parts_reference_robots, logs_reference_robots,
    logs_reference_parts.
  intros Href -> -> -> (Hparts & Hlogs & Hlp). split_and!; [| done |].
  - by apply map_Forall_delete.
  - intros j l Hl pid Hpid. cbn. specialize (Hlp j l Hl pid Hpid). cbn in Hlp.
    rewrite lookup_delete_ne; [done |]. intros Heq. subst k.
    by eapply (part_referenced_false db _ j l pid (Href Hlp)).
Qed.

Lemma integrity_cascaded db id :
  referential_integrity db → referential_integrity (cascaded db id).
Proof.
  unfold referential_integrity, parts_reference_robots, logs_reference_robots,
    logs_reference_parts, cascaded.
  intros (Hparts & Hlogs & Hlp). cbn. split_and!.
  - intros k p [Hp Hk]%robot_parts_deleted. cbn.
    rewrite lookup_delete_ne by done. by eapply (Hparts k p).
  - intros j l [Hl Hid]%robot_logs_deleted. cbn.
    rewrite lookup_delete_ne by done. by eapply (Hlogs j l).
  - intros j l [Hl Hid]%robot_logs_deleted pid Hpid. cbn.
    destruct (Hlp j l Hl pid Hpid) as [p Hp].
    exists p. apply lookup_foldr_delete_Some. split; [| done].
    by intros [_ ?]%elem_of_robot_part_keys.
Qed.

Lemma serve_integrity (today : date) (req : request) (db : database) :
  referential_integrity db → referential_integrity (store (serve today req db)).
Proof.
  intros Hdb. unfold serve. destruct req; cbn [route].
  - by rewrite get_all_robots_run.
  - by rewrite get_specific_robot_run.
  - rewrite add_robot_run.
    destruct (insert_robots _ db) as [db' [e | row]] eqn:Hins; cbn.
    + by eapply integrity_same_tables.
    + destruct (insert_robots_inv _ _ _ _ Hins) as (k & _ & _ & _ & Hr & Hp & Hl).
      by eapply integrity_robots_insert.
  - rewrite update_robot_run. destruct (get_robots db id); [| done].
    destruct (robots_updates body); [done |]. cbv zeta.
    destruct (changes_robots _ _) as [|a sets]; [done |].
    destruct (update_robots id (a :: sets) db) as [e | db'] eqn:Hupd; [done |]. cbn.
    destruct (update_robots_updated _ _ _ _ Hupd) as (stored_row & _ & ->).
    by eapply integrity_robots_insert.
  - destruct (robots_tbl db !! id) as [r|] eqn:Hr.
    + rewrite (delete_robot_run db today id r Hr). by apply integrity_cascaded.
    + by rewrite (delete_robot_absent_run db today id (get_robots_None _ _ Hr)).
  - rewrite get_robot_parts_run. by destruct (get_robots db robot_id).
  - rewrite get_part_of_robot_run.
    by destruct (get_robots db robot_id), (get_parts db (robot_id, id)).
  - rewrite add_part_in_a_robot_run. destruct (get_robots db robot_id); [| done].
    destruct (insert_parts today _ db) as [db' [e | row]] eqn:Hins; cbn.
    + by eapply integrity_same_tables.
    + destruct (insert_parts_inv _ _ _ _ _ Hins) as (k & _ & _ & Hrobot & Hr & Hp & Hl).
      by eapply (integrity_parts_insert db db' (robot_id, k)).
  - rewrite update_part_run. destruct (get_parts db (robot_id, id)); [| done].
    destruct (parts_updates body); [done |]. cbv zeta.
    destruct (changes_parts _ _) as [|a sets]; [done |].
    destruct (update_parts (robot_id, id) (a :: sets) db) as [e | db'] eqn:Hupd; [done |].
    cbn. destruct (update_parts_updated _ _ _ _ Hupd) as (stored_row & Hp & ->).
    eapply (integrity_parts_insert db _ (robot_id, id)); try done.
    destruct Hdb as (Hparts & _). by eapply (Hparts (robot_id, id) stored_row).
  - rewrite delete_part_run.
    destruct (get_robots db robot_id); [| done].
    destruct (get_parts db (robot_id, id)); [| done].
    destruct (delete_parts (robot_id, id) db) as [e | db'] eqn:Hdel; [done |]. cbn.
    destruct (delete_parts_inv _ _ _ Hdel) as (Href & Hr & Hp & Hl).
    by eapply integrity_parts_delete.
  - by rewrite get_maintenance_logs_run.
  - by rewrite get_maintenance_log_run.
  - by rewrite list_logs_reply.
  - rewrite add_maintenance_log_run. cbv zeta.
    destruct (insert_logs _ db) as [db' [e | row]] eqn:Hins; cbn.
    + by eapply integrity_same_tables.
    + destruct (insert_logs_inv _ _ _ _ Hins)
        as (k & -> & _ & Hrobot & Hpart & Hr & Hp & Hl).
      by eapply (integrity_logs_insert db db' k).
Qed.

(** *** Robot names stay unique *)

Lemma names_unique_same_robots db db' :
  robots_tbl db' = robots_tbl db → names_unique db → names_unique db'.
Proof. unfold names_unique. by intros ->. Qed.

Lemma names_unique_insert db db' k row :
  (∀ j r, robots_tbl db !! j = Some r → j ≠ k → is_Some (robots.name row) →
          robots.name r ≠ robots.name row) →
  robots_tbl db' = <[k := row]> (robots_tbl db) →
  names_unique db → names_unique db'.
Proof.
  unfold names_unique. intros Hfree -> Hdb i j r1 r2 Hi Hj Hsome Hname.
  destruct (decide (i = k)) as [-> | Hik], (decide (j = k)) as [-> | Hjk]; [done | | |].
  - rewrite lookup_insert_eq in Hi. rewrite lookup_insert_ne in Hj by done.
    simplify_eq. by destruct (Hfree j r2 Hj Hjk Hsome).
  - rewrite lookup_insert_eq in Hj. rewrite lookup_insert_ne in Hi by done.
    simplify_eq. rewrite Hname in Hsome. by destruct (Hfree i r1 Hi Hik Hsome).
  - rewrite lookup_insert_ne in Hi, Hj by done. by eapply Hdb.
Qed.

Lemma names_unique_delete db db' k :
  robots_tbl db' = delete k (robots_tbl db) → names_unique db → names_unique db'.
Proof.
  unfold names_unique. intros -> Hdb i j r1 r2 Hi Hj.
  apply lookup_delete_Some in Hi as [_ Hi]. apply lookup_delete_Some in Hj as [_ Hj].
  by eapply Hdb.
Qed.

Lemma foldl_assign_robots_name (row : robots.t) (sets : list robots_assignment) :
  sets_name sets = false → robots.name (foldl assign_robots row sets) = robots.name row.
Proof.
  revert row. induction sets as [|a sets IH]; intros row; [done |].
  cbn. destruct a; [done |]. intros Hsets. by rewrite IH.
Qed.

Lemma update_robots_names k sets db db' :
  update_robots k sets db = inr db' → names_unique db → names_unique db'.
Proof.
  intros Hupd Hdb. pose proof Hupd as (r & Hr & ->)%update_robots_updated.
  eapply names_unique_insert; [| done | done].
  intros j r' Hj Hne Hsome. unfold update_robots in Hupd. rewrite Hr in Hupd.
  destruct (negb _); [done |].
  destruct (sets_name sets) eqn:Hsets; cbn in Hupd.
  - destruct (name_taken db k _) eqn:Htaken; [done |].
    by eapply name_taken_false.
  - rewrite (foldl_assign_robots_name _ _ Hsets) in *. cbn in *.
    intros Hname. apply Hne. by eapply (Hdb j k r' r); [| | rewrite Hname |].
Qed.

Lemma serve_names_unique (today : date) (req : request) (db : database) :
  names_unique db → names_unique (store (serve today req db)).
Proof.
  intros Hdb. unfold serve. destruct req; cbn [route].
  - by rewrite get_all_robots_run.
  - by rewrite get_specific_robot_run.
  - rewrite add_robot_run.
    destruct (insert_robots _ db) as [db' [e | row]] eqn:Hins; cbn; [done |].
    destruct (insert_robots_inv _ _ _ _ Hins) as (k & -> & _ & Htaken & Hr & _).
    eapply names_unique_insert; [| done | done].
    intros j r Hj Hne Hsome. by eapply name_taken_false.
  - rewrite update_robot_run. destruct (get_robots db id); [| done].
    destruct (robots_updates body); [done |]. cbv zeta.
    destruct (changes_robots _ _) as [|a sets]; [done |].
    destruct (update_robots id (a :: sets) db) as [e | db'] eqn:Hupd; [done |]. cbn.
    by eapply update_robots_names.
  - destruct (robots_tbl db !! id) as [r|] eqn:Hr.
    + rewrite (delete_robot_run db today id r Hr). by eapply names_unique_delete.
    + by rewrite (delete_robot_absent_run db today id (get_robots_None _ _ Hr)).
  - rewrite get_robot_parts_run. by destruct (get_robots db robot_id).
  - rewrite get_part_of_robot_run.
    by destruct (get_robots db robot_id), (get_parts db (robot_id, id)).
  - rewrite add_part_in_a_robot_run. destruct (get_robots db robot_id); [| done].
    destruct (insert_parts today _ db) as [db' [e | row]] eqn:Hins; cbn; [done |].
    destruct (insert_parts_inv _ _ _ _ _ Hins) as (k & _ & _ & _ & Hr & _).
    by eapply names_unique_same_robots.
  - rewrite update_part_run. destruct (get_parts db (robot_id, id)); [| done].
    destruct (parts_updates body); [done |]. cbv zeta.
    destruct (changes_parts _ _) as [|a sets]; [done |].
    destruct (update_parts (robot_id, id) (a :: sets) db) as [e | db'] eqn:Hupd; [done |].
    cbn. by destruct (update_parts_updated _ _ _ _ Hupd) as (stored_row & _ & ->).
  - rewrite delete_part_run.
    destruct (get_robots db robot_id); [| done].
    destruct (get_parts db (robot_id, id)); [| done].
    destruct (delete_parts (robot_id, id) db) as [e | db'] eqn:Hdel; [done |]. cbn.
    destruct (delete_parts_inv _ _ _ Hdel) as (_ & Hr & _).
    by eapply names_unique_same_robots.
  - by rewrite get_maintenance_logs_run.
  - by rewrite get_maintenance_log_run.
  - by rewrite list_logs_reply.
  - rewrite add_maintenance_log_run. cbv zeta.
    destruct (insert_logs _ db) as [db' [e | row]] eqn:Hins; cbn; [done |].
    destruct (insert_logs_inv _ _ _ _ Hins) as (k & _ & _ & _ & _ & Hr & _).
    by eapply names_unique_same_robots.
Qed.

(** *** Reading robots *)

(** X1. Fetching a robot never raises and changes nothing: a robot of the
    store is answered with its row, and an id that is not in the store with
    the exception object as an ordinary body, so the status is 200 in both
    cases. *)
Theorem get_specific_robot_never_raises (db : database) (today : date) (id : Z) :
  status_code (response (run_request (get_specific_robot id) today db)) = 200
  ∧ store (run_request (get_specific_robot id) today db) = db
  ∧ statements (run_request (get_specific_robot id) today db) = []
  ∧ (∀ r, robots_tbl db !! id = Some r →
          response (run_request (get_specific_robot id) today db)
          = Returned (VObj (ERobots (load_robots id r))))
  ∧ (robots_tbl db !! id = None →
     response (run_request (get_specific_robot id) today db)
     = Returned (VException (HTTPException 404 None))).
Proof.
  rewrite get_specific_robot_run. cbn. split_and!; try done.
  - by destruct (get_robots db id).
  - by intros r ->%get_robots_Some.
  - by intros ->%get_robots_None.
Qed.

Lemma get_specific_robot_never_raises_witness :
  robots_tbl db_one_robot !! 2 = None
  ∧ response (run_request (get_specific_robot 2) 20001 db_one_robot)
    = Returned (VException (HTTPException 404 None))
  ∧ status_code (response (run_request (get_specific_robot 2) 20001 db_one_robot)) = 200.
Proof.
  destruct (get_specific_robot_never_raises db_one_robot 20001 2)
    as (Hstatus & _ & _ & _ & Habsent).
  split_and!; [done | by apply Habsent | exact Hstatus].
Defined.

Lemma elem_of_select_robots db r :
  r ∈ select_robots db ↔ ∃ k row, robots_tbl db !! k = Some row ∧ r = load_robots k row.
Proof.
  unfold select_robots. rewrite list_elem_of_fmap. split.
  - intros [[k row] [-> Hin%elem_of_map_to_list]]. by exists k, row.
  - intros (k & row & Hrow & ->). exists (k, row). by rewrite elem_of_map_to_list.
Qed.

Lemma elem_of_select_parts db p :
  p ∈ select_parts db ↔ ∃ k row, parts_tbl db !! k = Some row ∧ p = load_parts k row.
Proof.
  unfold select_parts. rewrite list_elem_of_fmap. split.
  - intros [[k row] [-> Hin%elem_of_map_to_list]]. by exists k, row.
  - intros (k & row & Hrow & ->). exists (k, row). by rewrite elem_of_map_to_list.
Qed.

(** X2. The two unscoped listings answer with every row of their table, once
    each: the list is as long as the table, a row is in it exactly when it is
    in the table, and nothing is changed. *)
Theorem list_all_complete (db : database) (today : date) :
  run_request get_all_robots today db
  = mkreply (Returned (VList (VObj <$> (ERobots <$> select_robots db)))) db []
  ∧ run_request get_maintenance_logs today db
    = mkreply
        (Returned (VDict [("all maintenance logs",
                           VList (VObj <$> (ELogs <$> select_logs db)))]))
        db []
  ∧ length (select_robots db) = size (robots_tbl db)
  ∧ length (select_logs db) = size (maintenance_logs_tbl db)
  ∧ (∀ r, r ∈ select_robots db
          ↔ ∃ k row, robots_tbl db !! k = Some row ∧ r = load_robots k row)
  ∧ (∀ l, l ∈ select_logs db
          ↔ ∃ k row, maintenance_logs_tbl db !! k = Some row ∧ l = load_logs k row).
Proof.
  split_and!.
  - apply get_all_robots_run.
  - apply get_maintenance_logs_run.
  - unfold select_robots. by rewrite length_map, length_map_to_list.
  - unfold select_logs. by rewrite length_map, length_map_to_list.
  - apply elem_of_select_robots.
  - apply elem_of_select_logs.
Qed.

(** *** Parts *)

(** X3. The part handlers look the robot up first: for a robot id that is not
    in the store, listing its parts, fetching one and deleting one all raise
    the 404 of the robot, whatever the part id.  For a robot of the store and
    a part id it does not have, fetching and deleting raise the 404 of the
    part.  Nothing is sent to the store and nothing changes. *)
Theorem part_handlers_not_found (db : database) (today : date) (robot_id id : Z) :
  (robots_tbl db !! robot_id = None →
   run_request (get_robot_parts robot_id) today db
   = mkreply (Raised (HTTPException 404 (Some "robot doesn't exist"))) db []
   ∧ run_request (get_part_of_robot robot_id id) today db
     = mkreply (Raised (HTTPException 404 (Some "robot doesn't exist"))) db []
   ∧ run_request (delete_part robot_id id) today db
     = mkreply (Raised (HTTPException 404 (Some "robot doesn't exist"))) db [])
  ∧ (is_Some (robots_tbl db !! robot_id) →
     parts_tbl db !! (robot_id, id) = None →
     run_request (get_part_of_robot robot_id id) today db
     = mkreply (Raised (HTTPException 404 (Some "part doesn't exist"))) db []
     ∧ run_request (delete_part robot_id id) today db
       = mkreply (Raised (HTTPException 404 (Some "part doesn't exist"))) db []).
Proof.
  rewrite get_robot_parts_run, get_part_of_robot_run, delete_part_run. split.
  - by intros ->%get_robots_None.
  - intros [r ->%get_robots_Some] Hpart. unfold get_parts. by rewrite Hpart.
Qed.

Lemma part_handlers_not_found_witness :
  robots_tbl db_robot_part !! 2 = None
  ∧ run_request (delete_part 2 1) 20001 db_robot_part
    = mkreply (Raised (HTTPException 404 (Some "robot doesn't exist"))) db_robot_part []
  ∧ parts_tbl db_robot_part !! (1, 2) = None
  ∧ run_request (get_part_of_robot 1 2) 20001 db_robot_part
    = mkreply (Raised (HTTPException 404 (Some "part doesn't exist"))) db_robot_part [].
Proof.
  destruct (part_handlers_not_found db_robot_part 20001 2 1) as [Hrobot _].
  destruct (part_handlers_not_found db_robot_part 20001 1 2) as [_ Hpart].
  destruct (Hrobot eq_refl) as (_ & _ & Hdelete).
  destruct (Hpart ltac:(by eexists) eq_refl) as (Hget & _).
  by split_and!.
Defined.

(** X4. For a robot of the store, listing its parts answers with the robot's
    id and the four listed fields of exactly the parts stored under that
    robot: a part is in the answer exactly when its key names the robot. *)
Theorem get_robot_parts_lists_parts (db : database) (today : date) (robot_id : Z) :
  is_Some (robots_tbl db !! robot_id) →
  run_request (get_robot_parts robot_id) today db
  = mkreply
      (Returned (VDict [("robot's id", VInt robot_id);
         ("robot's parts",
          VList (part_reply <$> filter (λ p, parts.robot_id p = robot_id) (select_parts db)))]))
      db []
  ∧ ∀ p, p ∈ filter (λ p, parts.robot_id p = robot_id) (select_parts db)
         ↔ ∃ id row, parts_tbl db !! (robot_id, id) = Some row
                     ∧ p = load_parts (robot_id, id) row.
Proof.
  intros [r Hr%get_robots_Some]. rewrite get_robot_parts_run, Hr. split; [done |].
  intros p. rewrite list_elem_of_filter, elem_of_select_parts. split.
  - intros [Hid ([rid id] & row & Hrow & ->)]. cbn in Hid. subst rid. by exists id, row.
  - intros (id & row & Hrow & ->). split; [done |]. by exists (robot_id, id), row.
Qed.

Lemma get_robot_parts_lists_parts_witness :
  is_Some (robots_tbl db_fleet !! 1)
  ∧ response (run_request (get_robot_parts 1) 20001 db_fleet)
    = Returned (VDict [("robot's id", VInt 1);
        ("robot's parts",
         VList [VDict [("id", VInt 2); ("name", VStr "lens"); ("quantity", VInt 1);
                       ("last_checked", VDate 20000)];
                VDict [("id", VInt 1); ("name", VStr "wheel"); ("quantity", VInt 4);
                       ("last_checked", VDate 20000)]])]).
Proof.
  assert (Hrobot : is_Some (robots_tbl db_fleet !! 1)) by (by eexists).
  split; [exact Hrobot |].
  destruct (get_robot_parts_lists_parts db_fleet 20001 1 Hrobot) as [-> _].
  by vm_compute.
Defined.

(** X5. When creating a part succeeds, the part is stored under the robot
    with a key that was free, the body's name, the body's quantity or 1 and
    the body's date or the day of the request.  The answer carries these three
    fields and not the id, and fetching the part under its key gives them
    back. *)
Theorem add_part_round_trip (db : database) (today : date) (robot_id : Z)
    (body : create_update_parts.t) (v : pyval) :
  response (run_request (add_part_in_a_robot robot_id body) today db) = Returned v →
  ∃ id,
    let name := default None (create_update_parts.name body) in
    let quantity := default 1 (default None (create_update_parts.quantity body)) in
    let last_checked := default today (default None (create_update_parts.last_checked body)) in
    v = VDict [("message", VStr "part successfully added");
               ("part", VDict [("name", opt VStr name); ("quantity", VInt quantity);
                               ("last_checked", VDate last_checked)])]
    ∧ parts_tbl db !! (robot_id, id) = None
    ∧ ∀ later,
        response (run_request (get_part_of_robot robot_id id) later
                    (store (run_request (add_part_in_a_robot robot_id body) today db)))
        = Returned (VDict [("robot's id", VInt robot_id);
            ("part", VDict [("id", VInt id); ("name", opt VStr name);
                            ("quantity", VInt quantity);
                            ("last_checked", VDate last_checked)])]).
Proof.
  rewrite add_part_in_a_robot_run. cbv zeta.
  destruct (get_robots db robot_id) as [robot|] eqn:Hrobot; [| done].
  destruct (insert_parts today _ db) as [db' [e | row]] eqn:Hins; cbn; [done |].
  intros [= <-].
  destruct (insert_parts_inv _ _ _ _ _ Hins) as (id & -> & Hfree & _ & Hr & Hp & _).
  exists id. cbn. split_and!; [done | done |].
  intros later. rewrite get_part_of_robot_run.
  unfold get_robots, get_parts in *. rewrite Hr, Hp, lookup_insert_eq.
  by destruct (robots_tbl db !! robot_id).
Qed.

Lemma add_part_round_trip_witness :
  response (run_request (add_part_in_a_robot 1 body_wheel) 20001 db_one_robot)
  = Returned (VDict [("message", VStr "part successfully added");
                     ("part", VDict [("name", VStr "wheel"); ("quantity", VInt 4);
                                     ("last_checked", VDate 20001)])])
  ∧ ∃ id,
      parts_tbl db_one_robot !! (1, id) = None
      ∧ response (run_request (get_part_of_robot 1 id) 20002
                    (store (run_request (add_part_in_a_robot 1 body_wheel) 20001
                              db_one_robot)))
        = Returned (VDict [("robot's id", VInt 1);
            ("part", VDict [("id", VInt id); ("name", VStr "wheel"); ("quantity", VInt 4);
                            ("last_checked", VDate 20001)])]).
Proof.
  assert (Hok : response (run_request (add_part_in_a_robot 1 body_wheel) 20001 db_one_robot)
                = Returned (VDict [("message", VStr "part successfully added");
                     ("part", VDict [("name", VStr "wheel"); ("quantity", VInt 4);
                                     ("last_checked", VDate 20001)])])) by (by vm_compute).
  split; [exact Hok |].
  destruct (add_part_round_trip db_one_robot 20001 1 body_wheel _ Hok)
    as (id & _ & Hfree & Hget).
  exists id. split; [exact Hfree | apply Hget].
Defined.

(** *** Creating rows *)

(** X6. A create request that raises creates nothing: when [add_robot],
    [add_part_in_a_robot] or [add_maintenance_log] raises, the three tables
    are as they were before the request. *)
Theorem create_failure_creates_nothing (db : database) (today : date) (e : exn) :
  (∀ body,
     response (run_request (add_robot body) today db) = Raised e →
     same_tables db (store (run_request (add_robot body) today db)))
  ∧ (∀ robot_id body,
       response (run_request (add_part_in_a_robot robot_id body) today db) = Raised e →
       same_tables db (store (run_request (add_part_in_a_robot robot_id body) today db)))
  ∧ (∀ robot_id body,
       response (run_request (add_maintenance_log robot_id body) today db) = Raised e →
       same_tables db (store (run_request (add_maintenance_log robot_id body) today db))).
Proof.
  split_and!.
  - intros body. rewrite add_robot_run.
    by destruct (insert_robots _ db) as [db' [e' | row]].
  - intros robot_id body. rewrite add_part_in_a_robot_run. cbv zeta.
    destruct (get_robots db robot_id); [| done].
    by destruct (insert_parts today _ db) as [db' [e' | row]].
  - intros robot_id body. rewrite add_maintenance_log_run. cbv zeta.
    by destruct (insert_logs _ db) as [db' [e' | row]].
Qed.

Lemma create_failure_creates_nothing_witness :
  response (run_request (add_maintenance_log 1 body_log_part) 20001 db_other_part)
  = Raised (IntegrityError ForeignKey)
  ∧ same_tables db_other_part
      (store (run_request (add_maintenance_log 1 body_log_part) 20001 db_other_part)).
Proof.
  assert (Hraised :
    response (run_request (add_maintenance_log 1 body_log_part) 20001 db_other_part)
    = Raised (IntegrityError ForeignKey)) by (by vm_compute).
  split; [exact Hraised |].
  destruct (create_failure_creates_nothing db_other_part 20001 (IntegrityError ForeignKey))
    as (_ & _ & Hlogs).
  by apply Hlogs.
Defined.

Lemma name_taken_true db k j r n :
  robots_tbl db !! j = Some r → j ≠ k → robots.name r = Some n →
  name_taken db k (Some n) = true.
Proof.
  intros Hj Hne Hname. cbn. apply existsb_exists. exists (j, r). split.
  - by apply list_elem_of_In, elem_of_map_to_list.
  - cbn. apply andb_true_intro. split; by apply bool_decide_eq_true.
Qed.

Lemma insert_robots_name_taken r db j r' n :
  robots_tbl db !! j = Some r' → robots.name r' = Some n → robots.name r = Some n →
  ∃ e, (insert_robots r db).2 = inl e
       ∧ (e = DataError ∨ e = IntegrityError PrimaryKey ∨ e = IntegrityError Unique).
Proof.
  intros Hj Hname' Hname. unfold insert_robots.
  destruct (match robots.id r with Some k => (k, db) | None => nextval_robots db end)
    as [k db1] eqn:Hk.
  assert (same_tables db db1) as (Hr & _ & _).
  { destruct (robots.id r); unfold nextval_robots in Hk; by simplify_eq. }
  destruct (negb _); [by eauto |].
  destruct (bool_decide (is_Some (robots_tbl db1 !! k))) eqn:Hpk; [by eauto 6 |].
  apply bool_decide_eq_false in Hpk. rewrite Hr in Hpk.
  assert (j ≠ k) as Hne by (intros ->; apply Hpk; by eexists).
  rewrite Hname.
  assert (name_taken db1 k (Some n) = true) as ->; [| by eauto 6].
  apply (name_taken_true db1 k j r' n); [by rewrite Hr | done | done].
Qed.

(** X7. Creating a robot under a name a robot of the store already has
    raises the storage error (a 500; the commit of [add_robot] is not
    guarded as the one of [update_robot] is) and creates no row. *)
Theorem add_robot_duplicate_name (db : database) (today : date)
    (body : create_update_robots.t) (j : Z) (r : robots.t) (n : string) :
  robots_tbl db !! j = Some r →
  robots.name r = Some n →
  create_update_robots.name body = Some (Some n) →
  ∃ e, response (run_request (add_robot body) today db) = Raised e
       ∧ (e = DataError ∨ e = IntegrityError PrimaryKey ∨ e = IntegrityError Unique)
       ∧ status_code (response (run_request (add_robot body) today db)) = 500
       ∧ same_tables db (store (run_request (add_robot body) today db)).
Proof.
  intros Hj Hname Hbody. rewrite add_robot_run.
  destruct (insert_robots_name_taken (new_robots today body) db j r n Hj Hname)
    as (e & He & Hkind).
  { unfold new_robots. by rewrite Hbody. }
  destruct (insert_robots _ db) as [db' [e' | row]]; cbn in *; simplify_eq.
  exists e. split_and!; [done | done | | done].
  by destruct Hkind as [-> | [-> | ->]].
Qed.

Lemma add_robot_duplicate_name_witness :
  response (run_request (add_robot body_r2) 20001 db_one_robot)
  = Raised (IntegrityError Unique)
  ∧ ∃ e, response (run_request (add_robot body_r2) 20001 db_one_robot) = Raised e
         ∧ (e = DataError ∨ e = IntegrityError PrimaryKey ∨ e = IntegrityError Unique)
         ∧ status_code (response (run_request (add_robot body_r2) 20001 db_one_robot)) = 500
         ∧ same_tables db_one_robot
             (store (run_request (add_robot body_r2) 20001 db_one_robot)).
Proof.
  split; [by vm_compute |].
  by apply (add_robot_duplicate_name db_one_robot 20001 body_r2 1
              (robots.mk (Some 1) (Some "R2") (Some "utility") 20000) "R2").
Defined.

(** X8. A create-robot request that succeeds adds exactly one row, under a
    key no robot had: every other robot, every part and every log is as
    before. *)
Theorem add_robot_adds_one_row (db : database) (today : date)
    (body : create_update_robots.t) (v : pyval) :
  response (run_request (add_robot body) today db) = Returned v →
  ∃ k row,
    v = VDict [("new_robot", VObj (ERobots row))]
    ∧ robots_tbl db !! k = None
    ∧ robots_tbl (store (run_request (add_robot body) today db))
      = <[k := row]> (robots_tbl db)
    ∧ parts_tbl (store (run_request (add_robot body) today db)) = parts_tbl db
    ∧ maintenance_logs_tbl (store (run_request (add_robot body) today db))
      = maintenance_logs_tbl db.
Proof.
  rewrite add_robot_run.
  destruct (insert_robots _ db) as [db' [e | row]] eqn:Hins; cbn; [done |].
  intros [= <-].
  destruct (insert_robots_inv _ _ _ _ Hins) as (k & _ & Hfree & _ & Hr & Hp & Hl).
  by exists k, row.
Qed.

Lemma add_robot_adds_one_row_witness :
  response (run_request (add_robot body_r2) 20000 db_empty)
  = Returned (VDict [("new_robot", VObj (ERobots row_r2))])
  ∧ ∃ k row,
      VDict [("new_robot", VObj (ERobots row_r2))] = VDict [("new_robot", VObj (ERobots row))]
      ∧ robots_tbl db_empty !! k = None
      ∧ robots_tbl (store (run_request (add_robot body_r2) 20000 db_empty))
        = <[k := row]> (robots_tbl db_empty)
      ∧ parts_tbl (store (run_request (add_robot body_r2) 20000 db_empty))
        = parts_tbl db_empty
      ∧ maintenance_logs_tbl (store (run_request (add_robot body_r2) 20000 db_empty))
        = maintenance_logs_tbl db_empty.
Proof.
  split; [by vm_compute |].
  apply (add_robot_adds_one_row db_empty 20000 body_r2). by vm_compute.
Defined.

(** *** Partial updates *)

(** X9. Both update handlers look the row up before they look at the body:
    for a robot id, or a part key, that is not in the store they raise a 404
    whatever the body, the empty one included, and change nothing.
    [update_part] looks up the part alone, so its 404 does not tell a missing
    robot from a missing part. *)
Theorem update_absent_not_found (db : database) (today : date) :
  (∀ id body,
     robots_tbl db !! id = None →
     run_request (update_robot id body) today db
     = mkreply (Raised (HTTPException 404 None)) db [])
  ∧ (∀ robot_id id body,
       parts_tbl db !! (robot_id, id) = None →
       run_request (update_part robot_id id body) today db
       = mkreply (Raised (HTTPException 404 (Some "part or robot doesn't exist"))) db []).
Proof.
  split.
  - intros id body Habsent%get_robots_None. by rewrite update_robot_run, Habsent.
  - intros robot_id id body Habsent. rewrite update_part_run.
    unfold get_parts. by rewrite Habsent.
Qed.

Lemma update_absent_not_found_witness :
  robots_tbl db_robot_part !! 2 = None
  ∧ run_request (update_robot 2 (create_update_robots.mk None None)) 20001 db_robot_part
    = mkreply (Raised (HTTPException 404 None)) db_robot_part []
  ∧ parts_tbl db_robot_part !! (1, 2) = None
  ∧ run_request (update_part 1 2 (create_update_parts.mk None (Some (Some 3)) None)) 20001
      db_robot_part
    = mkreply (Raised (HTTPException 404 (Some "part or robot doesn't exist")))
        db_robot_part [].
Proof.
  destruct (update_absent_not_found db_robot_part 20001) as [Hrobot Hpart].
  split_and!; [done | by apply Hrobot | done | by apply Hpart].
Defined.

(** The session at the end of a part update whose UPDATE the store refused. *)
Lemma update_part_failure_state (db : database) (today : date) (robot_id id : Z)
    (body : create_update_parts.t) (p : parts.t) (e : exn) :
  let row := load_parts (robot_id, id) p in
  let sets := changes_parts row (foldl assign_parts row (parts_updates body)) in
  parts_tbl db !! (robot_id, id) = Some p →
  sets ≠ [] →
  update_parts (robot_id, id) sets db = inl e →
  update_part robot_id id body (start today db)
  = (Returned (VDict [("updated version of part", VObj (EParts row))]),
     mkstate [mkinstance (EParts row) (Some (EParts row))] db db [] [] []
       [UpdateParts robot_id id sets] today false).
Proof.
  intros row sets Hp%get_parts_Some Hsets Hfail. subst row sets.
  unfold update_part. run. rewrite Hp. run.
  destruct body as [[n|] [q|] [d|]]; cbn in Hsets, Hfail; run.
  8: { by rewrite changes_parts_same in Hsets. }
  all: match goal with
       | |- context [changes_parts ?row ?cur] =>
           destruct (changes_parts row cur) as [|a sets] eqn:Hchanges; [done |]
       end; run.
  all: rewrite Hfail; run.
  all: rewrite lookup_entity_parts, with_sequences_of_same, Hp; run.
  all: done.
Qed.

(** X10. For a part of the store and a body that sets a field, when the
    store refuses the UPDATE the commit sends (a null quantity or date, a
    value too long or out of range), [update_part] rolls back and raises
    nothing: it answers with a 200 carrying the part as stored, and the store
    is as it was.  The handler ends with the session usable again, its
    transaction at the committed store and its unit of work empty, which the
    failed commit alone does not leave. *)
Theorem update_part_commit_failure (db : database) (today : date) (robot_id id : Z)
    (body : create_update_parts.t) (p : parts.t) (e : exn) :
  let row := load_parts (robot_id, id) p in
  let sets := changes_parts row (foldl assign_parts row (parts_updates body)) in
  parts_tbl db !! (robot_id, id) = Some p →
  sets ≠ [] →
  update_parts (robot_id, id) sets db = inl e →
  run_request (update_part robot_id id body) today db
  = mkreply (Returned (VDict [("updated version of part", VObj (EParts row))])) db
      [UpdateParts robot_id id sets]
  ∧ status_code (response (run_request (update_part robot_id id body) today db)) = 200
  ∧ (let st := (update_part robot_id id body (start today db)).2 in
     failed st = false ∧ txn st = db ∧ stored st = db
     ∧ new st = [] ∧ dirty st = [] ∧ deleted st = []).
Proof.
  intros row sets Hp Hsets Hfail.
  pose proof (update_part_failure_state db today robot_id id body p e Hp Hsets Hfail)
    as Hstate.
  apply get_parts_Some in Hp.
  rewrite update_part_run, Hp.
  destruct (parts_updates body) as [|u updates] eqn:Hupdates.
  { exfalso. apply Hsets. subst sets. rewrite ?Hupdates. cbn.
    unfold changes_parts. by rewrite !bool_decide_eq_true_2. }
  cbv zeta. fold row. fold sets. fold row sets in Hstate.
  destruct sets as [|a sets'] eqn:Hs; [done |].
  by rewrite Hfail, Hstate.
Qed.

Lemma update_part_commit_failure_witness :
  update_parts (1, 1) [PartsQuantity None] db_robot_part = inl (IntegrityError NotNull)
  ∧ run_request (update_part 1 1 (create_update_parts.mk None (Some None) None)) 20001
      db_robot_part
    = mkreply
        (Returned (VDict [("updated version of part",
           VObj (EParts (parts.mk 1 (Some 1) (Some "wheel") (Some 4) (Some 20000))))]))
        db_robot_part [UpdateParts 1 1 [PartsQuantity None]]
  ∧ status_code
      (response (run_request (update_part 1 1 (create_update_parts.mk None (Some None) None))
                   20001 db_robot_part))
    = 200
  ∧ failed (update_part 1 1 (create_update_parts.mk None (Some None) None)
              (start 20001 db_robot_part)).2 = false
  ∧ dirty (update_part 1 1 (create_update_parts.mk None (Some None) None)
             (start 20001 db_robot_part)).2 = [].
Proof.
  split; [by vm_compute |].
  destruct (update_part_commit_failure db_robot_part 20001 1 1
              (create_update_parts.mk None (Some None) None)
              (parts.mk 1 (Some 1) (Some "wheel") (Some 4) (Some 20000))
              (IntegrityError NotNull))
    as (Hreply & Hstatus & Hsession).
  - by vm_compute.
  - done.
  - by vm_compute.
  - split_and!; [exact Hreply | exact Hstatus | apply Hsession | apply Hsession].
Defined.

Lemma robots_updates_applied (row : robots.t) (body : create_update_robots.t) :
  foldl assign_robots row (robots_updates body)
  = robots.mk (robots.id row)
      (default (robots.name row) (create_update_robots.name body))
      (default (robots.type row) (create_update_robots.type body))
      (robots.created_at row).
Proof. by destruct row, body as [[?|] [?|]]. Qed.

Lemma parts_updates_applied (row : parts.t) (body : create_update_parts.t) :
  foldl assign_parts row (parts_updates body)
  = parts.mk (parts.robot_id row) (parts.id row)
      (default (parts.name row) (create_update_parts.name body))
      (default (parts.quantity row) (create_update_parts.quantity body))
      (default (parts.last_checked row) (create_update_parts.last_checked body)).
Proof. by destruct row, body as [[?|] [?|] [?|]]. Qed.

(** X11. A partial update of a robot that the store accepts changes the
    fields the body gives and no other: the robot keeps the stored value of a
    field the body leaves out, the answer carries the row as updated, and
    every other robot, every part and every log is as before. *)
Theorem update_robot_applies_body (db : database) (today : date) (id : Z)
    (body : create_update_robots.t) (r : robots.t) :
  let row := load_robots id r in
  let updated := robots.mk (Some id)
                   (default (robots.name r) (create_update_robots.name body))
                   (default (robots.type r) (create_update_robots.type body))
                   (robots.created_at r) in
  robots_tbl db !! id = Some r →
  robots_updates body ≠ [] →
  (∀ e, update_robots id (changes_robots row updated) db ≠ inl e) →
  response (run_request (update_robot id body) today db)
  = Returned (VDict [("updated version", VObj (ERobots updated))])
  ∧ get_robots (store (run_request (update_robot id body) today db)) id = Some updated
  ∧ (∀ k, k ≠ id →
          robots_tbl (store (run_request (update_robot id body) today db)) !! k
          = robots_tbl db !! k)
  ∧ parts_tbl (store (run_request (update_robot id body) today db)) = parts_tbl db
  ∧ maintenance_logs_tbl (store (run_request (update_robot id body) today db))
    = maintenance_logs_tbl db.
Proof.
  intros row updated Hr Hbody Haccepted.
  pose proof (get_robots_Some _ _ _ Hr) as Hrow. fold row in Hrow.
  rewrite update_robot_run, Hrow.
  pose proof (robots_updates_applied row body) as Happlied.
  change (foldl assign_robots row (robots_updates body) = updated) in Happlied.
  destruct (robots_updates body) as [|u updates]; [done |].
  cbv beta iota zeta. rewrite Happlied.
  pose proof (apply_changes_robots row updated eq_refl eq_refl) as Happly.
  destruct (changes_robots row updated) as [|a sets] eqn:Hsets.
  { cbn in Happly. by rewrite <- Happly. }
  destruct (update_robots id (a :: sets) db) as [e | db'] eqn:Hupd.
  { by destruct (Haccepted e). }
  destruct (update_robots_updated _ _ _ _ Hupd) as (r' & Hr' & ->). simplify_eq.
  fold row. rewrite Happly. cbn. unfold get_robots. cbn.
  rewrite lookup_insert_eq. split_and!; try done.
  intros k Hk. by rewrite lookup_insert_ne.
Qed.

Lemma update_robot_applies_body_witness :
  response (run_request (update_robot 1 body_retype) 20001 db_robot_part)
  = Returned (VDict [("updated version",
      VObj (ERobots (robots.mk (Some 1) (Some "R2") (Some "astromech") 20000)))])
  ∧ get_robots (store (run_request (update_robot 1 body_retype) 20001 db_robot_part)) 1
    = Some (robots.mk (Some 1) (Some "R2") (Some "astromech") 20000).
Proof.
  destruct (update_robot_applies_body db_robot_part 20001 1 body_retype
              (robots.mk (Some 1) (Some "R2") (Some "utility") 20000))
    as (Hresponse & Hstored & _).
  - by vm_compute.
  - done.
  - intros e. by vm_compute.
  - split; [exact Hresponse | exact Hstored].
Defined.

(** X12. A partial update of a part that the store accepts changes the
    fields the body gives and no other; the answer carries the part as
    updated, and every other part, every robot and every log is as before. *)
Theorem update_part_applies_body (db : database) (today : date) (robot_id id : Z)
    (body : create_update_parts.t) (p : parts.t) :
  let row := load_parts (robot_id, id) p in
  let updated := parts.mk robot_id (Some id)
                   (default (parts.name p) (create_update_parts.name body))
                   (default (parts.quantity p) (create_update_parts.quantity body))
                   (default (parts.last_checked p) (create_update_parts.last_checked body)) in
  parts_tbl db !! (robot_id, id) = Some p →
  parts_updates body ≠ [] →
  (∀ e, update_parts (robot_id, id) (changes_parts row updated) db ≠ inl e) →
  response (run_request (update_part robot_id id body) today db)
  = Returned (VDict [("updated version of part", VObj (EParts updated))])
  ∧ get_parts (store (run_request (update_part robot_id id body) today db)) (robot_id, id)
    = Some updated
  ∧ (∀ k, k ≠ (robot_id, id) →
          parts_tbl (store (run_request (update_part robot_id id body) today db)) !! k
          = parts_tbl db !! k)
  ∧ robots_tbl (store (run_request (update_part robot_id id body) today db)) = robots_tbl db
  ∧ maintenance_logs_tbl (store (run_request (update_part robot_id id body) today db))
    = maintenance_logs_tbl db.
Proof.
  intros row updated Hp Hbody Haccepted.
  pose proof (get_parts_Some _ _ _ Hp) as Hrow. fold row in Hrow.
  rewrite update_part_run, Hrow.
  pose proof (parts_updates_applied row body) as Happlied.
  change (foldl assign_parts row (parts_updates body) = updated) in Happlied.
  destruct (parts_updates body) as [|u updates]; [done |].
  cbv beta iota zeta. rewrite Happlied.
  pose proof (apply_changes_parts row updated eq_refl eq_refl) as Happly.
  destruct (changes_parts row updated) as [|a sets] eqn:Hsets.
  { cbn in Happly. by rewrite <- Happly. }
  destruct (update_parts (robot_id, id) (a :: sets) db) as [e | db'] eqn:Hupd.
  { by destruct (Haccepted e). }
  destruct (update_parts_updated _ _ _ _ Hupd) as (p' & Hp' & ->). simplify_eq.
  fold row. rewrite Happly. cbn. unfold get_parts. cbn.
  rewrite lookup_insert_eq. split_and!; try done.
  intros k Hk. by rewrite lookup_insert_ne.
Qed.

Lemma update_part_applies_body_witness :
  response (run_request (update_part 1 1 (create_update_parts.mk None (Some (Some 3)) None))
              20001 db_robot_part)
  = Returned (VDict [("updated version of part",
      VObj (EParts (parts.mk 1 (Some 1) (Some "wheel") (Some 3) (Some 20000))))])
  ∧ get_parts
      (store (run_request (update_part 1 1 (create_update_parts.mk None (Some (Some 3)) None))
                20001 db_robot_part))
      (1, 1)
    = Some (parts.mk 1 (Some 1) (Some "wheel") (Some 3) (Some 20000)).
Proof.
  destruct (update_part_applies_body db_robot_part 20001 1 1
              (create_update_parts.mk None (Some (Some 3)) None)
              (parts.mk 1 (Some 1) (Some "wheel") (Some 4) (Some 20000)))
    as (Hresponse & Hstored & _).
  - by vm_compute.
  - done.
  - intros e. by vm_compute.
  - split; [exact Hresponse | exact Hstored].
Defined.

(** X13. Repeating a partial update of a robot changes nothing more: the
    second request answers as the first did and leaves the store the first
    left, whether the first was refused, swallowed a storage error or
    updated the row. *)
Theorem update_robot_idempotent (db : database) (today later : date) (id : Z)
    (body : create_update_robots.t) :
  let first := run_request (update_robot id body) today db in
  let second := run_request (update_robot id body) later (store first) in
  response second = response first ∧ store second = store first.
Proof.
  cbv zeta. rewrite (update_robot_run db today).
  destruct (get_robots db id) as [row|] eqn:Hrow.
  2: { cbn [store response]. by rewrite update_robot_run, Hrow. }
  pose proof (robots_updates_applied row body) as Happlied.
  destruct (robots_updates body) as [|u updates] eqn:Hupdates.
  { cbn [store response]. by rewrite update_robot_run, Hrow, Hupdates. }
  cbv beta iota zeta.
  destruct (changes_robots row _) as [|a sets] eqn:Hsets.
  { cbn [store response]. rewrite update_robot_run, Hrow, Hupdates. cbv beta iota zeta.
    by rewrite Hsets. }
  destruct (update_robots id (a :: sets) db) as [e | db'] eqn:Hupd.
  { cbn [store response]. rewrite update_robot_run, Hrow, Hupdates. cbv beta iota zeta.
    by rewrite Hsets, Hupd. }
  cbn [store response].
  destruct (get_robots_inv _ _ _ Hrow) as (r & Hr & ->).
  pose proof (apply_changes_robots (load_robots id r)
                (foldl assign_robots (load_robots id r) (u :: updates)))
    as Happly.
  destruct (foldl_assign_robots_frame (load_robots id r) (u :: updates)) as [Hid Hat].
  specialize (Happly Hid Hat). rewrite Hsets in Happly.
  destruct (update_robots_updated _ _ _ _ Hupd) as (r' & Hr' & ->). simplify_eq.
  rewrite Happly.
  set (cur := foldl assign_robots (load_robots id r) (u :: updates)) in *.
  set (db' := with_robots_tbl (<[id:=cur]> (robots_tbl db)) db).
  assert (run_request (update_robot id body) later db'
          = mkreply (updated_reply "updated version" (ERobots cur)) db' []) as ->; [| done].
  assert (load_robots id cur = cur) as Hload by (by rewrite Happlied).
  assert (foldl assign_robots cur (u :: updates) = cur) as Hagain.
  { subst cur. rewrite <- Hupdates, !robots_updates_applied. cbn.
    by destruct body as [[?|] [?|]]. }
  rewrite update_robot_run. unfold get_robots, db'. cbn [robots_tbl with_robots_tbl].
  rewrite lookup_insert_eq. cbn [fmap option_fmap option_map].
  rewrite Hupdates, Hload. cbv beta iota zeta.
  by rewrite Hagain, changes_robots_same.
Qed.

(** *** Deleting a part *)

Lemma part_referenced_true db k j l :
  maintenance_logs_tbl db !! j = Some l →
  maintenance_logs.robot_id l = k.1 →
  maintenance_logs.parts_id l = Some k.2 →
  part_referenced db k = true.
Proof.
  intros Hl Hrobot Hpart. unfold part_referenced. apply existsb_exists.
  exists (load_logs j l). split.
  - apply list_elem_of_In, elem_of_select_logs. by exists j, l.
  - cbn. apply andb_true_intro. split; by apply bool_decide_eq_true.
Qed.

(** X14. [delete_part] deletes the part and nothing else: when a maintenance
    log names the part, the foreign key refuses the DELETE, the handler raises
    the storage error (a 500) and the part and its logs stay. *)
Theorem delete_part_referenced_raises (db : database) (today : date) (robot_id id j : Z)
    (l : maintenance_logs.t) :
  is_Some (robots_tbl db !! robot_id) →
  is_Some (parts_tbl db !! (robot_id, id)) →
  maintenance_logs_tbl db !! j = Some l →
  maintenance_logs.robot_id l = robot_id →
  maintenance_logs.parts_id l = Some id →
  run_request (delete_part robot_id id) today db
  = mkreply (Raised (IntegrityError ForeignKey)) db [DeleteParts robot_id id]
  ∧ status_code (response (run_request (delete_part robot_id id) today db)) = 500.
Proof.
  intros [r Hr%get_robots_Some] [p Hp] Hl Hrobot Hpart.
  rewrite delete_part_run, Hr, (get_parts_Some _ _ _ Hp).
  unfold delete_parts.
  rewrite (part_referenced_true db (robot_id, id) j l Hl Hrobot Hpart).
  by rewrite bool_decide_eq_true_2 by by eexists.
Qed.

Lemma delete_part_referenced_raises_witness :
  run_request (delete_part 1 1) 20001 db_logs
  = mkreply (Raised (IntegrityError ForeignKey)) db_logs [DeleteParts 1 1]
  ∧ status_code (response (run_request (delete_part 1 1) 20001 db_logs)) = 500.
Proof.
  apply (delete_part_referenced_raises db_logs 20001 1 1 1
           (maintenance_logs.mk (Some 1) 1 (Some 1) (Some "greased") 20000 (Some "ana")));
    by (eexists || vm_compute).
Defined.

(** X15. When no log names it, deleting a part of a robot of the store
    answers 204 after the one DELETE; the part is gone, so that fetching it
    raises the 404 of the part, and every other part, every robot and every
    log is as before. *)
Theorem delete_part_removes_part (db : database) (today : date) (robot_id id : Z) :
  is_Some (robots_tbl db !! robot_id) →
  is_Some (parts_tbl db !! (robot_id, id)) →
  part_referenced db (robot_id, id) = false →
  let reply := run_request (delete_part robot_id id) today db in
  response reply = Returned (VResponse 204)
  ∧ statements reply = [DeleteParts robot_id id]
  ∧ parts_tbl (store reply) = delete (robot_id, id) (parts_tbl db)
  ∧ robots_tbl (store reply) = robots_tbl db
  ∧ maintenance_logs_tbl (store reply) = maintenance_logs_tbl db
  ∧ ∀ later,
      response (run_request (get_part_of_robot robot_id id) later (store reply))
      = Raised (HTTPException 404 (Some "part doesn't exist")).
Proof.
  intros [r Hr] [p Hp] Href reply. subst reply.
  rewrite delete_part_run, (get_robots_Some _ _ _ Hr), (get_parts_Some _ _ _ Hp).
  unfold delete_parts. rewrite Href, andb_false_r. cbn. split_and!; try done.
  intros later. rewrite get_part_of_robot_run. unfold get_robots, get_parts. cbn.
  by rewrite Hr, lookup_delete_eq.
Qed.

Lemma delete_part_removes_part_witness :
  response (run_request (delete_part 1 1) 20001 db_robot_part) = Returned (VResponse 204)
  ∧ parts_tbl (store (run_request (delete_part 1 1) 20001 db_robot_part))
    = delete (1, 1) (parts_tbl db_robot_part)
  ∧ response (run_request (get_part_of_robot 1 1) 20002
                (store (run_request (delete_part 1 1) 20001 db_robot_part)))
    = Raised (HTTPException 404 (Some "part doesn't exist")).
Proof.
  destruct (delete_part_removes_part db_robot_part 20001 1 1)
    as (Hresponse & _ & Hparts & _ & _ & Hget).
  - by eexists.
  - by eexists.
  - by vm_compute.
  - split_and!; [exact Hresponse | exact Hparts | apply Hget].
Defined.

(** *** Maintenance logs *)

(** X16. Fetching a log by id never raises and changes nothing: a log of the
    store is answered with its row, an id that is not in the store with a
    null under the same key, and the status is 200 in both cases. *)
Theorem get_maintenance_log_never_raises (db : database) (today : date) (id : Z) :
  status_code (response (run_request (get_maintenance_log id) today db)) = 200
  ∧ store (run_request (get_maintenance_log id) today db) = db
  ∧ statements (run_request (get_maintenance_log id) today db) = []
  ∧ (∀ l, maintenance_logs_tbl db !! id = Some l →
          response (run_request (get_maintenance_log id) today db)
          = Returned (VDict [("robot's maintenance logs", VObj (ELogs (load_logs id l)))]))
  ∧ (maintenance_logs_tbl db !! id = None →
     response (run_request (get_maintenance_log id) today db)
     = Returned (VDict [("robot's maintenance logs", VNone)])).
Proof.
  rewrite get_maintenance_log_run. unfold get_logs. cbn. split_and!; try done.
  - by intros l ->.
  - by intros ->.
Qed.

Lemma get_maintenance_log_never_raises_witness :
  maintenance_logs_tbl db_logs !! 9 = None
  ∧ response (run_request (get_maintenance_log 9) 20001 db_logs)
    = Returned (VDict [("robot's maintenance logs", VNone)])
  ∧ status_code (response (run_request (get_maintenance_log 9) 20001 db_logs)) = 200.
Proof.
  destruct (get_maintenance_log_never_raises db_logs 20001 9)
    as (Hstatus & _ & _ & _ & Habsent).
  split_and!; [done | by apply Habsent | exact Hstatus].
Defined.

(** X17. When creating a log succeeds, the answer carries the row with the
    key the store assigned, a key no log had, the robot id of the path, the
    [parts_id], description and author of the body and the day of the request;
    fetching the log under that key gives the same row, and the listing of
    the robot's logs with parts included holds it. *)
Theorem add_maintenance_log_round_trip (db : database) (today : date) (robot_id : Z)
    (body : create_maintenance_log.t) (v : pyval) :
  response (run_request (add_maintenance_log robot_id body) today db) = Returned v →
  ∃ id,
    let row := maintenance_logs.mk (Some id) robot_id
                 (default None (create_maintenance_log.parts_id body))
                 (Some (create_maintenance_log.description body)) today
                 (Some (create_maintenance_log.done_by body)) in
    let after := store (run_request (add_maintenance_log robot_id body) today db) in
    v = VDict [("logs", VObj (ELogs row))]
    ∧ maintenance_logs_tbl db !! id = None
    ∧ (∀ later, response (run_request (get_maintenance_log id) later after)
                = Returned (VDict [("robot's maintenance logs", VObj (ELogs row))]))
    ∧ row ∈ filter (λ l, maintenance_logs.robot_id l = robot_id) (select_logs after).
Proof.
  rewrite add_maintenance_log_run. cbv zeta.
  destruct (insert_logs _ db) as [db' [e | row]] eqn:Hins; cbn; [done |].
  intros [= <-].
  destruct (insert_logs_inv _ _ _ _ Hins) as (id & -> & Hfree & _ & _ & _ & _ & Hl).
  exists id. split_and!; [done | done | |].
  - intros later. rewrite get_maintenance_log_run. unfold get_logs.
    by rewrite Hl, lookup_insert_eq.
  - apply list_elem_of_filter. split; [done |].
    apply elem_of_select_logs. eexists id, _. rewrite Hl, lookup_insert_eq. done.
Qed.

Lemma add_maintenance_log_round_trip_witness :
  response (run_request (add_maintenance_log 2 body_log_part) 20001 db_other_part)
  = Returned (VDict [("logs",
      VObj (ELogs (maintenance_logs.mk (Some 1) 2 (Some 1) (Some "oiled the arm") 20001
                     (Some "ana"))))])
  ∧ ∃ id,
      maintenance_logs_tbl db_other_part !! id = None
      ∧ response (run_request (get_maintenance_log id) 20002
                    (store (run_request (add_maintenance_log 2 body_log_part) 20001
                              db_other_part)))
        = Returned (VDict [("robot's maintenance logs",
            VObj (ELogs (maintenance_logs.mk (Some id) 2 (Some 1) (Some "oiled the arm")
                           20001 (Some "ana"))))]).
Proof.
  split; [by vm_compute |].
  destruct (add_maintenance_log_round_trip db_other_part 20001 2 body_log_part
              (VDict [("logs",
                 VObj (ELogs (maintenance_logs.mk (Some 1) 2 (Some 1) (Some "oiled the arm")
                                20001 (Some "ana"))))]))
    as (id & _ & Hfree & Hget & _); [by vm_compute |].
  exists id. split; [exact Hfree | apply Hget].
Defined.

(** *** The routes together *)

(** X18. The seven GET routes are read-only: whatever they answer, the store
    is the store before and the session sent no statement. *)
Theorem get_requests_read_only (today : date) (req : request) (db : database) :
  is_GET req = true →
  store (serve today req db) = db ∧ statements (serve today req db) = [].
Proof.
  unfold serve. destruct req; cbn [is_GET route]; try done; intros _.
  - by rewrite get_all_robots_run.
  - by rewrite get_specific_robot_run.
  - rewrite get_robot_parts_run. by destruct (get_robots db robot_id).
  - rewrite get_part_of_robot_run.
    by destruct (get_robots db robot_id), (get_parts db (robot_id, id)).
  - by rewrite get_maintenance_logs_run.
  - by rewrite get_maintenance_log_run.
  - by rewrite list_logs_reply.
Qed.

Lemma get_requests_read_only_witness :
  is_GET (GET_robots_parts_id 1 1) = true
  ∧ store (serve 20001 (GET_robots_parts_id 1 1) db_fleet) = db_fleet
  ∧ statements (serve 20001 (GET_robots_parts_id 1 1) db_fleet) = [].
Proof.
  split; [done | by apply (get_requests_read_only 20001 (GET_robots_parts_id 1 1) db_fleet)].
Defined.

(** X19. The foreign keys are an invariant of the service: from a store in
    which every part is the part of a robot, every log the log of a robot and
    every [parts_id] a part of the log's robot, any requests, in any order and
    with any parameters, lead to a store in which this holds.  No request
    leaves an orphan. *)
Theorem requests_keep_integrity (reqs : list (date * request)) (db : database) :
  referential_integrity db → referential_integrity (serve_all reqs db).
Proof.
  revert db. induction reqs as [|[today req] reqs IH]; intros db Hdb; [done |].
  cbn. by apply IH, serve_integrity.
Qed.

Lemma requests_keep_integrity_witness :
  referential_integrity db_empty
  ∧ referential_integrity
      (serve_all [(20000, POST_robots body_r2);
                  (20001, POST_robots_parts 1 body_wheel);
                  (20002, POST_robots_maintenance_logs 1 body_log_part);
                  (20003, DELETE_robots_parts_id 1 1);
                  (20004, DELETE_robots_id 1)] db_empty).
Proof.
  assert (Hempty : referential_integrity db_empty).
  { split_and!; apply map_Forall_empty. }
  split; [exact Hempty | by apply requests_keep_integrity].
Defined.

(** X20. The uniqueness of robot names is an invariant of the service: from
    a store in which no two robots share a name, any requests lead to a store
    in which none do. *)
Theorem requests_keep_names_unique (reqs : list (date * request)) (db : database) :
  names_unique db → names_unique (serve_all reqs db).
Proof.
  revert db. induction reqs as [|[today req] reqs IH]; intros db Hdb; [done |].
  cbn. by apply IH, serve_names_unique.
Qed.

Lemma requests_keep_names_unique_witness :
  names_unique db_empty
  ∧ names_unique
      (serve_all [(20000, POST_robots body_r2);
                  (20001, POST_robots body_r2);
                  (20002, POST_robots body_rename_c3);
                  (20003, PATCH_robots_id 1 body_rename_c3)] db_empty).
Proof.
  assert (Hempty : names_unique db_empty).
  { intros j k r1 r2 Hj. cbn in Hj. by rewrite lookup_empty in Hj. }
  split; [exact Hempty | by apply requests_keep_names_unique].
Defined.

Lemma no_logs_of_cascaded db id (P : maintenance_logs.t → Prop) `{!∀ l, Decision (P l)} :
  (∀ l, P l → maintenance_logs.robot_id l = id) →
  filter P (select_logs (cascaded db id)) = [].
Proof.
  intros HP. apply elem_of_nil_inv. intros l.
  rewrite list_elem_of_filter, elem_of_select_logs.
  intros [Hl (k & row & Hrow & ->)]. apply HP in Hl. cbn in *.
  by apply robot_logs_deleted in Hrow as [_ ?].
Qed.

(** X21. Once a robot is deleted, every route about it says so: fetching it
    and deleting it again return the 404 object, listing its parts raises the
    404 of the robot, and the listing of its logs is empty, with or without
    the logs of parts. *)
Theorem delete_robot_then_not_found (db : database) (today later : date) (id : Z)
    (parts : bool) :
  is_Some (robots_tbl db !! id) →
  let after := store (run_request (delete_robot id) today db) in
  response (run_request (get_specific_robot id) later after)
  = Returned (VException (HTTPException 404 None))
  ∧ run_request (delete_robot id) later after
    = mkreply (Returned (VException (HTTPException 404 None))) after []
  ∧ response (run_request (get_robot_parts id) later after)
    = Raised (HTTPException 404 (Some "robot doesn't exist"))
  ∧ response (run_request (get_maintenance_logs_of_a_robot id parts) later after)
    = Returned (logs_reply []).
Proof.
  intros [r Hr] after. subst after. rewrite (delete_robot_run db today id r Hr).
  cbn [store].
  assert (get_robots (cascaded db id) id = None) as Hgone.
  { unfold get_robots, cascaded. cbn. by rewrite lookup_delete_eq. }
  rewrite get_specific_robot_run, get_robot_parts_run, list_logs_reply, Hgone.
  rewrite (delete_robot_absent_run _ later id Hgone). split_and!; try done.
  cbn. do 2 f_equal. destruct parts; apply (no_logs_of_cascaded db id); try done.
  by intros ? [??].
Qed.

Lemma delete_robot_then_not_found_witness :
  is_Some (robots_tbl db_fleet !! 1)
  ∧ response (run_request (get_robot_parts 1) 20002
                (store (run_request (delete_robot 1) 20001 db_fleet)))
    = Raised (HTTPException 404 (Some "robot doesn't exist"))
  ∧ response (run_request (get_maintenance_logs_of_a_robot 1 true) 20002
                (store (run_request (delete_robot 1) 20001 db_fleet)))
    = Returned (logs_reply []).
Proof.
  assert (Hrobot : is_Some (robots_tbl db_fleet !! 1)) by (by eexists).
  destruct (delete_robot_then_not_found db_fleet 20001 20002 1 true Hrobot)
    as (_ & _ & Hparts & Hlogs).
  split_and!; [exact Hrobot | exact Hparts | exact Hlogs].
Defined.

(** X22. Rows leave the store through the two DELETE routes only: after any
    other request every robot, every part and every log of the store is still
    there under its key, and every log is the row it was, logs having no
    update route. *)
Theorem rows_removed_by_delete_only (today : date) (req : request) (db : database) :
  is_DELETE req = false →
  (∀ k, is_Some (robots_tbl db !! k) → is_Some (robots_tbl (store (serve today req db)) !! k))
  ∧ (∀ k, is_Some (parts_tbl db !! k) → is_Some (parts_tbl (store (serve today req db)) !! k))
  ∧ (∀ k l, maintenance_logs_tbl db !! k = Some l →
            maintenance_logs_tbl (store (serve today req db)) !! k = Some l).
Proof.
  unfold serve. destruct req; cbn [is_DELETE route]; try done; intros _.
  - by rewrite get_all_robots_run.
  - by rewrite get_specific_robot_run.
  - rewrite add_robot_run.
    destruct (insert_robots _ db) as [db' [e | row]] eqn:Hins; cbn; [done |].
    destruct (insert_robots_inv _ _ _ _ Hins) as (k & _ & _ & _ & -> & -> & ->).
    split_and!; try done. intros j Hj. apply lookup_insert_is_Some'. by right.
  - rewrite update_robot_run. destruct (get_robots db id); [| done].
    destruct (robots_updates body); [done |]. cbv zeta.
    destruct (changes_robots _ _) as [|a sets]; [done |].
    destruct (update_robots id (a :: sets) db) as [e | db'] eqn:Hupd; [done |]. cbn.
    destruct (update_robots_updated _ _ _ _ Hupd) as (stored_row & _ & ->). cbn.
    split_and!; try done. intros j Hj. apply lookup_insert_is_Some'. by right.
  - rewrite get_robot_parts_run. by destruct (get_robots db robot_id).
  - rewrite get_part_of_robot_run.
    by destruct (get_robots db robot_id), (get_parts db (robot_id, id)).
  - rewrite add_part_in_a_robot_run. destruct (get_robots db robot_id); [| done].
    destruct (insert_parts today _ db) as [db' [e | row]] eqn:Hins; cbn; [done |].
    destruct (insert_parts_inv _ _ _ _ _ Hins) as (k & _ & _ & _ & -> & -> & ->).
    split_and!; try done. intros j Hj. apply lookup_insert_is_Some'. by right.
  - rewrite update_part_run. destruct (get_parts db (robot_id, id)); [| done].
    destruct (parts_updates body); [done |]. cbv zeta.
    destruct (changes_parts _ _) as [|a sets]; [done |].
    destruct (update_parts (robot_id, id) (a :: sets) db) as [e | db'] eqn:Hupd; [done |].
    cbn. destruct (update_parts_updated _ _ _ _ Hupd) as (stored_row & _ & ->). cbn.
    split_and!; try done. intros j Hj. apply lookup_insert_is_Some'. by right.
  - by rewrite get_maintenance_logs_run.
  - by rewrite get_maintenance_log_run.
  - by rewrite list_logs_reply.
  - rewrite add_maintenance_log_run. cbv zeta.
    destruct (insert_logs _ db) as [db' [e | row]] eqn:Hins; cbn; [done |].
    destruct (insert_logs_inv _ _ _ _ Hins) as (k & _ & Hfree & _ & _ & -> & -> & ->).
    split_and!; try done. intros j l Hj. rewrite lookup_insert_ne; [done |].
    intros ->. by rewrite Hfree in Hj.
Qed.

Lemma rows_removed_by_delete_only_witness :
  is_DELETE (POST_robots_maintenance_logs 1 body_log_part) = false
  ∧ maintenance_logs_tbl
      (store (serve 20001 (POST_robots_maintenance_logs 1 body_log_part) db_logs)) !! 2
    = Some (maintenance_logs.mk (Some 2) 1 None (Some "washed") 20000 (Some "ben")).
Proof.
  split; [done |].
  destruct (rows_removed_by_delete_only 20001
              (POST_robots_maintenance_logs 1 body_log_part) db_logs eq_refl)
    as (_ & _ & Hlogs).
  by apply Hlogs.
Defined.

(** X23. [add_part_in_a_robot] never chooses the id of the part: the body
    has no such field, so for a robot of the store the one INSERT it sends
    carries the robot id of the path and no id.  In a store whose parts table
    has no default for [id], every such request therefore raises and creates
    nothing. *)
Theorem add_part_never_supplies_id (db : database) (today : date) (robot_id : Z)
    (body : create_update_parts.t) :
  is_Some (robots_tbl db !! robot_id) →
  (∃ p, statements (run_request (add_part_in_a_robot robot_id body) today db)
        = [InsertParts p]
        ∧ parts.id p = None ∧ parts.robot_id p = robot_id)
  ∧ (parts_id_seq db = None →
     ∃ e, response (run_request (add_part_in_a_robot robot_id body) today db) = Raised e
          ∧ (e = DataError ∨ e = IntegrityError NotNull)
          ∧ store (run_request (add_part_in_a_robot robot_id body) today db) = db).
Proof.
  intros [r Hr%get_robots_Some]. rewrite add_part_in_a_robot_run, Hr. cbv zeta. split.
  - exists (new_parts robot_id body).
    by destruct (insert_parts today _ db) as [db' [e | row]].
  - intros Hseq. unfold insert_parts, new_parts, nextval_parts. cbn. rewrite Hseq. cbn.
    destruct (negb _); cbn.
    + exists DataError. split_and!; [done | by left |]. by destruct db; simplify_eq/=.
    + exists (IntegrityError NotNull). split_and!; [done | by right |].
      by destruct db; simplify_eq/=.
Qed.

Lemma add_part_never_supplies_id_witness :
  is_Some (robots_tbl db_no_part_default !! 1)
  ∧ parts_id_seq db_no_part_default = None
  ∧ statements (run_request (add_part_in_a_robot 1 body_wheel) 20001 db_no_part_default)
    = [InsertParts (parts.mk 1 None (Some "wheel") (Some 4) None)]
  ∧ response (run_request (add_part_in_a_robot 1 body_wheel) 20001 db_no_part_default)
    = Raised (IntegrityError NotNull)
  ∧ ∃ e, response (run_request (add_part_in_a_robot 1 body_wheel) 20001 db_no_part_default)
         = Raised e
         ∧ (e = DataError ∨ e = IntegrityError NotNull)
         ∧ store (run_request (add_part_in_a_robot 1 body_wheel) 20001 db_no_part_default)
           = db_no_part_default.
Proof.
  assert (Hrobot : is_Some (robots_tbl db_no_part_default !! 1)) by (by eexists).
  destruct (add_part_never_supplies_id db_no_part_default 20001 1 body_wheel Hrobot)
    as [_ Hraises].
  split_and!; [exact Hrobot | done | by vm_compute | by vm_compute | by apply Hraises].
Defined.
